(** * BTS data loader (pytorch/bts_dataloader.py): model and properties

    The loader reads an image and its depth map, crops and augments
    them, and hands them to a tensor adapter.  This development embeds
    the array operations, the loader ([DataLoadPreprocess]) and the
    adapter ([ToTensor]) and proves the properties the specification
    states about them.

    Layout of the file:
    - the model: [Slicing], [Arrays] (numpy arrays as shaped nested
      lists), [F32] and [F64] (IEEE binary32/binary64 values, Stdlib's
      [SpecFloat]), [Interp] (the interpreter state: array heap and
      random sources, and the error monad the methods run in),
      [Loader] and [Adapter] (the methods of the source, in source
      order), the list of samples and its paths, the PIL operations
      of the train branch and the batch loader [BtsDataLoader];
    - the properties, from the facts about slices, arrays and rounding
      up to the statements about the loader and the adapter;
    - concrete runs of the methods on small inputs. *)

From Stdlib Require Import ZArith List Bool Lia Reals Lra Psatz.
From Stdlib Require Import Floats.SpecFloat.
From stdpp Require Import gmap strings list.

Local Open Scope Z_scope.

(** ** Python slices *)

Section Slicing.
Context {A : Type}.

(** One bound of [a[lo:hi]] on a sequence of length [n], as CPython's
    [PySlice_AdjustIndices] computes it for a positive step: a
    negative bound counts from the end, and both ends are clamped. *)
Definition slice_index (n : nat) (i : Z) : nat :=
  if i <? 0 then Z.to_nat (Z.max 0 (i + Z.of_nat n))
  else Nat.min (Z.to_nat i) n.

Definition slice_len (n : nat) (lo hi : Z) : nat :=
  (slice_index n hi - slice_index n lo)%nat.

Definition py_slice (lo hi : Z) (l : list A) : list A :=
  let n := length l in
  firstn (slice_len n lo hi) (skipn (slice_index n lo) l).

End Slicing.

(** ** numpy arrays

    The loader's arrays are three-dimensional (height, width, channel).
    An array is its shape together with its elements as nested lists in
    logical index order; [wf3] is the representation invariant numpy
    maintains (the element lists have the lengths the shape gives). *)

Record array3 (A : Type) : Type := Array3 {
  shape0 : nat;
  shape1 : nat;
  shape2 : nat;
  data : list (list (list A))
}.
Arguments Array3 {A} _ _ _ _.
Arguments shape0 {A} _.
Arguments shape1 {A} _.
Arguments shape2 {A} _.
Arguments data {A} _.

(** An array object of any rank: rank three with its structure, any
    other rank as shape and row-major elements.  The model has the
    three-index subscripts and the broadcast of the loader for rank
    three only; on an array of higher rank they end in [Unmodelled]
    (see [exn]). *)
Inductive ndarray (A : Type) : Type :=
  | Nd3 (a : array3 A)
  | NdFlat (shape : list nat) (flat : list A).
Arguments Nd3 {A} _.
Arguments NdFlat {A} _ _.

Section Arrays.
Context {A : Type}.
Implicit Types (a : array3 A) (rows : list (list (list A))).

Definition shape3 a : nat * nat * nat := (shape0 a, shape1 a, shape2 a).

Definition wf_rows (w c : nat) rows : Prop :=
  Forall (fun row => length row = w /\ Forall (fun px => length px = c) row) rows.

Definition wf3 a : Prop :=
  length (data a) = shape0 a /\ wf_rows (shape1 a) (shape2 a) (data a).

Definition ndim (o : ndarray A) : nat :=
  match o with
  | Nd3 _ => 3
  | NdFlat shape _ => length shape
  end.

(** [a[i, j, k]] *)
Definition get3 a (i j k : nat) : option A :=
  row ← data a !! i; px ← row !! j; px !! k.

(** [a[y0:y1, x0:x1, :]] *)
Definition slice3 (y0 y1 x0 x1 : Z) a : array3 A :=
  {| shape0 := slice_len (shape0 a) y0 y1;
     shape1 := slice_len (shape1 a) x0 x1;
     shape2 := shape2 a;
     data := map (py_slice x0 x1) (py_slice y0 y1 (data a)) |}.

(** [a[:, ::-1, :]] *)
Definition fliplr a : array3 A :=
  {| shape0 := shape0 a; shape1 := shape1 a; shape2 := shape2 a;
     data := map (@rev (list A)) (data a) |}.

(** One channel of every pixel of a row; a pixel without channel [c]
    contributes nothing. *)
Definition channel (c : nat) (row : list (list A)) : list A :=
  flat_map (fun px => firstn 1 (skipn c px)) row.

(** [a.transpose((2, 0, 1))] *)
Definition transpose201 a : array3 A :=
  {| shape0 := shape2 a; shape1 := shape0 a; shape2 := shape1 a;
     data := map (fun c => map (channel c) (data a)) (seq 0 (shape2 a)) |}.

(** All elements in row-major (C) order. *)
Definition ravel a : list A := concat (concat (data a)).

End Arrays.

Section ArrayMaps.
Context {A B : Type}.

(** Elementwise application, as numpy's ufuncs do. *)
Definition map3 (f : A -> B) (a : array3 A) : array3 B :=
  {| shape0 := shape0 a; shape1 := shape1 a; shape2 := shape2 a;
     data := map (map (map f)) (data a) |}.

End ArrayMaps.

(** Every element of the array satisfies [P]. *)
Definition all3 {A : Type} (P : A -> Prop) (a : array3 A) : Prop :=
  Forall (Forall (Forall P)) (data a).

(** ** IEEE 754 values

    [spec_float] is the Standard Library's model of IEEE 754 binary
    formats, parameterised by precision and exponent range.  numpy's
    float32 is binary32, Python's float and numpy's float64 are
    binary64.  The operations round to nearest, ties to even. *)

Module F32.
Definition prec : Z := 24.
Definition emax : Z := 128.
Definition of_Z (n : Z) : spec_float := binary_normalize prec emax n 0 false.
Definition sub := SFsub prec emax.
Definition mul := SFmul prec emax.
Definition div := SFdiv prec emax.
Definition zero : spec_float := S754_zero false.
Definition one : spec_float := Eval vm_compute in of_Z 1.
End F32.

Module F64.
Definition prec : Z := 53.
Definition emax : Z := 1024.
Definition of_Z (n : Z) : spec_float := binary_normalize prec emax n 0 false.
Definition mul := SFmul prec emax.
Definition div := SFdiv prec emax.
Definition valid := valid_binary prec emax.
(** The double a decimal literal [n/d] denotes: the nearest one. *)
Definition lit (n : Z) (d : Z) : spec_float := div (of_Z n) (of_Z d).
Definition one : spec_float := Eval vm_compute in of_Z 1.
End F64.

Definition is_nan (x : spec_float) : bool :=
  match x with S754_nan => true | _ => false end.

(** Conversion of a double to float32, as numpy applies it to a Python
    float operand of a float32 array operation and when it stores a
    float64 result into a float32 array. *)
Definition f32_of_f64 (x : spec_float) : spec_float :=
  match x with
  | S754_finite s m e => binary_round F32.prec F32.emax s m e
  | _ => x
  end.

Definition in_range (lo hi x : spec_float) : bool :=
  SFleb lo x && SFleb x hi.

(** ** The interpreter state

    Arrays are Python objects: a variable holds a reference, and an
    in-place operation changes the object every reference sees.  The
    state is the heap of array objects together with the state of the
    process-global random generators ([random] and [numpy.random]). *)

(** Python's exceptions, and two outcomes that no run of the program
    has: [SystemError] for a reference to no object, [Unmodelled] where
    the model does not say what numpy does (an array of more than three
    dimensions under a three-index subscript or a broadcast). *)
Inductive exn : Type :=
  | AssertionError | TypeError | ValueError | IndexError
  | KeyError | RuntimeError | SystemError | Unmodelled.

Inductive result (X : Type) : Type :=
  | Ok (x : X)
  | Raise (e : exn).
Arguments Ok {X} _.
Arguments Raise {X} _.

(** The random generators, as the loader uses them. *)
Class RandomSource (G : Type) : Type := {
  (** [random.random()] *)
  gen_random : G -> spec_float * G;
  (** [random.uniform(a, b)] *)
  gen_uniform : spec_float -> spec_float -> G -> spec_float * G;
  (** [random.randint(a, b)] on a nonempty range *)
  gen_randint : Z -> Z -> G -> Z * G;
  (** one draw of [numpy.random.uniform(low, high)] *)
  gen_np_uniform : spec_float -> spec_float -> G -> spec_float * G
}.

(** What the library documents about the draws: [randint(a, b)]
    returns [N] with [a <= N <= b], and the uniform draws are doubles
    within their bounds. *)
Class RandomSourceLaws (G : Type) `{RandomSource G} : Prop := {
  randint_range (a b : Z) (g : G) :
    a <= b -> a <= fst (gen_randint a b g) <= b;
  uniform_range (a b : spec_float) (g : G) :
    F64.valid a = true -> F64.valid b = true -> SFleb a b = true ->
    F64.valid (fst (gen_uniform a b g)) = true
    /\ in_range a b (fst (gen_uniform a b g)) = true;
  np_uniform_range (a b : spec_float) (g : G) :
    F64.valid a = true -> F64.valid b = true -> SFleb a b = true ->
    F64.valid (fst (gen_np_uniform a b g)) = true
    /\ in_range a b (fst (gen_np_uniform a b g)) = true
}.

Section Interp.
Context {A G : Type} `{RandomSource G}.

Record state : Type := State {
  heap : gmap nat (ndarray A);
  rng : G
}.

(** A computation returns a value or raises, and leaves a state
    either way. *)
Definition M (X : Type) : Type := state -> result X * state.

Definition ret {X : Type} (x : X) : M X := fun st => (Ok x, st).

Definition bind {X Y : Type} (m : M X) (k : X -> M Y) : M Y :=
  fun st =>
    match m st with
    | (Ok x, st') => k x st'
    | (Raise e, st') => (Raise e, st')
    end.

Definition raise {X : Type} (e : exn) : M X := fun st => (Raise e, st).

(** [assert c] *)
Definition assert_ (c : bool) : M unit :=
  if c then ret tt else raise AssertionError.

(** A new array object. *)
Definition alloc (o : ndarray A) : M nat :=
  fun st =>
    let l := fresh (dom (heap st)) in
    (Ok l, {| heap := <[l := o]> (heap st); rng := rng st |}).

Definition load (l : nat) : M (ndarray A) :=
  fun st =>
    match heap st !! l with
    | Some o => (Ok o, st)
    | None => (Raise SystemError, st)
    end.

(** The object behind [l] under a subscript with three indices:
    numpy raises [IndexError] (too many indices) on an array of fewer
    dimensions. *)
Definition load3 (l : nat) : M (array3 A) :=
  bind (load l) (fun o =>
    match o with
    | Nd3 a => ret a
    | NdFlat shape _ =>
        if (length shape <? 3)%nat then raise IndexError else raise Unmodelled
    end).

(** In-place update of the object behind [l]. *)
Definition store (l : nat) (o : ndarray A) : M unit :=
  fun st => (Ok tt, {| heap := <[l := o]> (heap st); rng := rng st |}).

Definition draw {X : Type} (f : G -> X * G) : M X :=
  fun st => let '(x, g) := f (rng st) in (Ok x, {| heap := heap st; rng := g |}).

Definition random_random : M spec_float := draw gen_random.

Definition random_uniform (a b : spec_float) : M spec_float :=
  draw (gen_uniform a b).

(** [random.randint(a, b)]; an empty range is a [ValueError]. *)
Definition random_randint (a b : Z) : M Z :=
  if b <? a then raise ValueError else draw (gen_randint a b).

(** [np.random.uniform(low, high, size=3)] *)
Definition np_random_uniform3 (a b : spec_float) : M (list spec_float) :=
  bind (draw (gen_np_uniform a b)) (fun c0 =>
  bind (draw (gen_np_uniform a b)) (fun c1 =>
  bind (draw (gen_np_uniform a b)) (fun c2 =>
  ret [c0; c1; c2]))).
End Interp.
Arguments state : clear implicits.
Arguments M : clear implicits.

#[global] Instance M_ret {A G : Type} : MRet (M A G) := @ret A G.
#[global] Instance M_bind {A G : Type} : MBind (M A G) :=
  fun X Y k m => @bind A G X Y m k.

(** ** Arrays of other ranks *)

(** [n] consecutive chunks of [k] elements. *)
Fixpoint chunks {A : Type} (n k : nat) (l : list A) : list (list A) :=
  match n with
  | O => []
  | S n' => firstn k l :: chunks n' k (skipn k l)
  end.

Section Reshape.
Context {A : Type}.

(** Row-major elements seen with shape [(h, w, c)]. *)
Definition reshape3 (h w c : nat) (flat : list A) : array3 A :=
  {| shape0 := h; shape1 := w; shape2 := c;
     data := map (chunks w c) (chunks h (w * c) flat) |}.

(** [np.expand_dims(o, axis=2)] *)
Definition expand_dims2 (o : ndarray A) : result (ndarray A) :=
  match o with
  | Nd3 a => Ok (NdFlat [shape0 a; shape1 a; 1%nat; shape2 a] (ravel a))
  | NdFlat [h; w] flat => Ok (Nd3 (reshape3 h w 1 flat))
  | NdFlat shape flat =>
      if (length shape <? 2)%nat then Raise ValueError
      else Ok (NdFlat (firstn 2 shape ++ 1%nat :: skipn 2 shape) flat)
  end.

(** [np.stack(planes, axis=2)] of two-dimensional [h] by [w] arrays
    given by their row-major elements. *)
Definition stack_axis2 (h w : nat) (planes : list (list A)) : array3 A :=
  {| shape0 := h; shape1 := w; shape2 := length planes;
     data := chunks h w
               (map (fun n => flat_map (fun pl => firstn 1 (skipn n pl)) planes)
                    (seq 0 (h * w))) |}.

End Reshape.

(** Elementwise application on an array of any rank. *)
Definition nd_map {A B : Type} (f : A -> B) (o : ndarray A) : ndarray B :=
  match o with
  | Nd3 a => Nd3 (map3 f a)
  | NdFlat shape flat => NdFlat shape (map f flat)
  end.

(** Elementwise combination of two arrays of one shape. *)
Definition zip3 {A B C : Type} (f : A -> B -> C) (a : array3 A) (b : array3 B)
  : array3 C :=
  {| shape0 := shape0 a; shape1 := shape1 a; shape2 := shape2 a;
     data := zip_with (zip_with (zip_with f)) (data a) (data b) |}.

(** ** PIL images

    A decoded image: its mode, its size, the band values of every pixel
    row by row, and the raw buffer [tobytes()] returns. *)

Record pil_image : Type := PilImage {
  pil_mode : string;
  pil_width : nat;
  pil_height : nat;
  pil_px : list (list (list Z));
  pil_bytes : list Z
}.

(** Number of bands of a mode ([len(image.getbands())]). *)
Definition getmodebands (mode : string) : nat :=
  if String.eqb mode "RGB" then 3
  else if String.eqb mode "RGBA" then 4
  else if String.eqb mode "CMYK" then 4
  else if String.eqb mode "RGBX" then 4
  else if String.eqb mode "YCbCr" then 3
  else if String.eqb mode "LAB" then 3
  else if String.eqb mode "HSV" then 3
  else if String.eqb mode "LA" then 2
  else if String.eqb mode "PA" then 2
  else 1.

Definition wf_pil (p : pil_image) : Prop :=
  length (pil_px p) = pil_height p
  /\ wf_rows (pil_width p) (getmodebands (pil_mode p)) (pil_px p).

(** The band values as float32, by row, column and band. *)
Definition pil_array3 (p : pil_image) : array3 spec_float :=
  {| shape0 := pil_height p; shape1 := pil_width p;
     shape2 := getmodebands (pil_mode p);
     data := map (map (map F32.of_Z)) (pil_px p) |}.

(** [np.asarray(p, dtype=np.float32)]: a single-band image gives a
    two-dimensional array, any other a three-dimensional one. *)
Definition np_asarray_f32 (p : pil_image) : ndarray spec_float :=
  if (getmodebands (pil_mode p) =? 1)%nat
  then NdFlat [pil_height p; pil_width p] (ravel (pil_array3 p))
  else Nd3 (pil_array3 p).

(** numpy's [clip] on floats with scalar bounds.  With bounds that are
    numbers the loop is [if (x < lo) x = lo; if (x > hi) x = hi;]: a
    NaN passes through, and so does a zero of either sign at a zero
    bound.  With a NaN bound it is [min(max(x, lo), hi)], which is
    NaN. *)
Definition np_clip (lo hi x : spec_float) : spec_float :=
  if is_nan lo || is_nan hi then S754_nan
  else
    let t := if SFltb x lo then lo else x in
    if SFltb hi t then hi else t.

(** ** The sample loader: [DataLoadPreprocess] *)

Record Args : Type := Build_Args {
  mode : string;
  dataset : string;
  do_kb_crop : bool;
  input_height : nat;
  input_width : nat
}.

(** The dict [{'image': ..., 'depth': ..., 'focal': ...}]; test samples
    have no ['depth'] key. *)
Record sample : Type := Sample {
  sample_image : nat;
  sample_depth : option nat;
  sample_focal : spec_float
}.

Definition nd_shape {A : Type} (o : ndarray A) : list nat :=
  match o with
  | Nd3 a => [shape0 a; shape1 a; shape2 a]
  | NdFlat shape _ => shape
  end.

Section Loader.
Context {G : Type} `{RandomSource G}.

(** numpy's float32 [power] (the C library's [powf]). *)
Variable f32_pow : spec_float -> spec_float -> spec_float.

Variable args : Args.

Local Abbreviation Py := (M spec_float G).

Definition lift {X : Type} (r : result X) : Py X :=
  match r with
  | Ok x => mret x
  | Raise e => raise e
  end.

(** [a.shape[i]] *)
Definition shape_at (l : nat) (i : nat) : Py nat :=
  o ← load l;
  match nd_shape o !! i with
  | Some n => mret n
  | None => raise IndexError
  end.

Definition random_crop (img depth : nat) (height width : nat) : Py (nat * nat) :=
  h ← shape_at img 0; assert_ (height <=? h)%nat;;
  w ← shape_at img 1; assert_ (width <=? w)%nat;;
  h ← shape_at img 0; dh ← shape_at depth 0; assert_ (h =? dh)%nat;;
  w ← shape_at img 1; dw ← shape_at depth 1; assert_ (w =? dw)%nat;;
  w ← shape_at img 1;
  x ← random_randint 0 (Z.of_nat w - Z.of_nat width);
  h ← shape_at img 0;
  y ← random_randint 0 (Z.of_nat h - Z.of_nat height);
  a ← load3 img;
  img' ← alloc (Nd3 (slice3 y (y + Z.of_nat height) x (x + Z.of_nat width) a));
  d ← load3 depth;
  depth' ← alloc (Nd3 (slice3 y (y + Z.of_nat height) x (x + Z.of_nat width) d));
  mret (img', depth').

(** The array [np.stack([white * colors[i] for i in range(3)], axis=2)]. *)
Definition color_planes (white : list spec_float) (colors : list spec_float)
  : list (list spec_float) :=
  map (fun i => match colors !! i with
                | Some c => map (fun o => F64.mul o c) white
                | None => []
                end) (seq 0 3).

Definition augment_image (image : nat) : Py nat :=
  (* gamma augmentation *)
  gamma ← random_uniform (F64.lit 9 10) (F64.lit 11 10);
  a ← load image;
  image_aug ← alloc (nd_map (fun x => f32_pow x (f32_of_f64 gamma)) a);
  (* brightness augmentation *)
  brightness ← (if String.eqb (dataset args) "nyu"
                then random_uniform (F64.lit 3 4) (F64.lit 5 4)
                else random_uniform (F64.lit 9 10) (F64.lit 11 10));
  b ← load image_aug;
  image_aug ← alloc (nd_map (fun x => F32.mul x (f32_of_f64 brightness)) b);
  (* color augmentation *)
  colors ← np_random_uniform3 (F64.lit 9 10) (F64.lit 11 10);
  h ← shape_at image 0;
  w ← shape_at image 1;
  let white := repeat F64.one (h * w) in
  color_image ← alloc (Nd3 (stack_axis2 h w (color_planes white colors)));
  (* image_aug *= color_image: computed in float64, stored as float32.
     The operand has the height and width of image_aug and three
     channels; it must broadcast to the shape of image_aug, so image_aug
     must have three dimensions and three channels. *)
  x ← load image_aug;
  c ← load3 color_image;
  match x with
  | Nd3 x =>
      if (shape2 x =? shape2 c)%nat
      then store image_aug (Nd3 (zip3 (fun u v => f32_of_f64 (F64.mul u v)) x c))
      else raise ValueError
  | NdFlat shape _ =>
      if (length shape <? 3)%nat then raise ValueError else raise Unmodelled
  end;;
  r ← load image_aug;
  image_aug ← alloc (nd_map (np_clip F32.zero F32.one) r);
  mret image_aug.

(** The flip of [train_preprocess]:
    [image = (image[:, ::-1, :]).copy()] and the same on the depth. *)
Definition flip_both (image depth_gt : nat) : Py (nat * nat) :=
  a ← load3 image;
  image ← alloc (Nd3 (fliplr a));
  d ← load3 depth_gt;
  depth_gt ← alloc (Nd3 (fliplr d));
  mret (image, depth_gt).

Definition train_preprocess (image depth_gt : nat) : Py (nat * nat) :=
  (* Random flipping *)
  do_flip ← random_random;
  '(image, depth_gt) ← (if SFltb (F64.lit 1 2) do_flip
                        then flip_both image depth_gt
                        else mret (image, depth_gt));
  (* Random gamma, brightness, color augmentation *)
  do_augment ← random_random;
  image ← (if SFltb (F64.lit 1 2) do_augment
           then augment_image image
           else mret image);
  mret (image, depth_gt).

(** The depth scale of the configured dataset. *)
Definition depth_divisor : spec_float :=
  if String.eqb (dataset args) "nyu"
  then f32_of_f64 (F64.of_Z 1000)
  else f32_of_f64 (F64.of_Z 256).

(** [__getitem__], train branch, from the conversion to arrays on
    (the images are the decoded files after the PIL-level crops and
    rotation). *)
Definition getitem_train (image depth_gt : pil_image) (focal : spec_float)
  : Py sample :=
  image ← alloc (nd_map (fun x => F32.div x (f32_of_f64 (F64.of_Z 255)))
                        (np_asarray_f32 image));
  depth_gt ← alloc (np_asarray_f32 depth_gt);
  o ← load depth_gt;
  o ← lift (expand_dims2 o);
  depth_gt ← alloc o;
  o ← load depth_gt;
  depth_gt ← alloc (nd_map (fun x => F32.div x depth_divisor) o);
  '(image, depth_gt) ← random_crop image depth_gt
                         (input_height args) (input_width args);
  '(image, depth_gt) ← train_preprocess image depth_gt;
  mret {| sample_image := image; sample_depth := Some depth_gt;
          sample_focal := focal |}.

(** [__getitem__], test branch; [image] is the decoded file. *)
Definition getitem_test (image : pil_image) (focal : spec_float) : Py sample :=
  image ← alloc (nd_map (fun x => F32.div x (f32_of_f64 (F64.of_Z 255)))
                        (np_asarray_f32 image));
  image ← (if do_kb_crop args
           then
             height ← shape_at image 0;
             width ← shape_at image 1;
             let top_margin := Z.of_nat height - 352 in
             let left_margin := Z.quot (Z.of_nat width - 1216) 2 in
             a ← load3 image;
             alloc (Nd3 (slice3 top_margin (top_margin + 352)
                                left_margin (left_margin + 1216) a))
           else mret image);
  mret {| sample_image := image; sample_depth := None; sample_focal := focal |}.

Definition getitem (transform : option (sample -> Py sample))
    (image depth_gt : pil_image) (focal : spec_float) : Py sample :=
  sample ← (if String.eqb (mode args) "train"
            then getitem_train image depth_gt focal
            else getitem_test image focal);
  match transform with
  | Some t => t sample
  | None => mret sample
  end.
End Loader.

(** ** The tensor adapter: [ToTensor]

    The adapter is generic in the element type: the loader feeds it
    binary32 arrays, and the round-off analysis below runs it on reals
    with a rounding operator.  Tensors live on the same heap as arrays
    ([torch.from_numpy] shares the array's memory). *)

(** One function per channel of a channel-first tensor: channel [c]
    is mapped with [g] at the [c]-th parameter pair. *)
Definition per_channel {A : Type} (g : A * A -> A -> A) (ms : list (A * A))
    (t : array3 A) : array3 A :=
  {| shape0 := shape0 t; shape1 := shape1 t; shape2 := shape2 t;
     data := zip_with (fun ch p => map (map (g p)) ch) (data t) ms |}.

(** Why [torch.from_numpy] turns an array away, in the order of its
    checks: a stride that is no multiple of the element size, a negative
    stride (a mirrored view that was not copied), a byte order that is
    not the machine's, and last an element type without a tensor type. *)
Inductive from_numpy_refusal : Type :=
  | StrideNotMultiple
  | NegativeStride
  | ByteOrder
  | UnsupportedDtype.

(** The first three are a [ValueError], the last one a [TypeError]. *)
Definition refusal_exn (r : from_numpy_refusal) : exn :=
  match r with
  | UnsupportedDtype => TypeError
  | _ => ValueError
  end.

(** What [to_tensor] may be handed.  [ObjArray l] is an array of the
    heap: its elements have the tensor's element type and its strides
    are those of a slice with positive steps or of a copy, as the loader
    makes its arrays, so [torch.from_numpy] takes it.  An array that
    [torch.from_numpy] turns away is given by its number of dimensions
    and the check that fails first; its elements are never read. *)
Inductive pyobj : Type :=
  | ObjPil (p : pil_image)      (* a PIL [Image.Image] *)
  | ObjArray (l : nat)          (* a [numpy.ndarray] *)
  | ObjArrayRefused (ndim : nat) (why : from_numpy_refusal)
  | ObjOther (type_name : string).

Definition _is_pil_image (img : pyobj) : bool :=
  match img with ObjPil _ => true | _ => false end.

Section Adapter.
Context {A G : Type}.

(** Subtraction and division of the tensor's element type, the
    element a decimal literal [n/d] denotes, and the element an
    integer converts to. *)
Variables (t_sub t_div : A -> A -> A) (of_lit : Z -> Z -> A) (of_int : Z -> A).

Local Abbreviation Py := (M A G).

Definition _is_numpy_image (img : pyobj) : Py bool :=
  match img with
  | ObjArray l =>
      o ← load l;
      mret (bool_decide (ndim o = 2%nat) || bool_decide (ndim o = 3%nat))
  | ObjArrayRefused n _ =>
      mret (bool_decide (n = 2%nat) || bool_decide (n = 3%nat))
  | _ => mret false
  end.

Definition mean : list A := [of_lit 485 1000; of_lit 456 1000; of_lit 406 1000].
Definition std : list A := [of_lit 229 1000; of_lit 224 1000; of_lit 225 1000].

(** [(x - m) / s] *)
Definition standardize (ms : A * A) (x : A) : A :=
  t_div (t_sub x (fst ms)) (snd ms).

(** torchvision's [Normalize(mean, std)] on a channel-first tensor:
    [out[c] = (in[c] - mean[c]) / std[c]]; a tensor whose channel
    count is not that of the means is rejected. *)
Definition normalize (tensor : nat) : Py nat :=
  o ← load tensor;
  match o with
  | Nd3 t =>
      if (shape0 t =? length mean)%nat
      then alloc (Nd3 (per_channel standardize (combine mean std) t))
      else raise RuntimeError
  | NdFlat _ _ => raise TypeError
  end.

Definition to_tensor (pic : pyobj) : Py nat :=
  is_np ← _is_numpy_image pic;
  if negb (_is_pil_image pic || is_np) then raise TypeError
  else
    match pic with
    | ObjArray l =>
        o ← load l;
        match o with
        | Nd3 a => alloc (Nd3 (transpose201 a))
        | NdFlat shape _ =>
            (* transpose((2, 0, 1)) of a two-dimensional array *)
            if (length shape =? 2)%nat then raise ValueError else raise Unmodelled
        end
    | ObjArrayRefused n why =>
        (* transpose((2, 0, 1)) takes three dimensions; from_numpy then
           refuses the transposed view for the reason it refuses the
           array *)
        if (n =? 3)%nat then raise (refusal_exn why) else raise ValueError
    | ObjPil p =>
        (* handle PIL Image *)
        img ← (if String.eqb (pil_mode p) "I" then mret (concat (concat (pil_px p)))
               else if String.eqb (pil_mode p) "I;16"
               then
                 (* np.array(pic, np.int16, copy=False): the pixels are
                    unsigned 16-bit integers, and numpy 2 refuses the
                    conversion it may not make without a copy *)
                 raise ValueError
               else mret (pil_bytes p));
        (* PIL image mode: 1, L, P, I, F, RGB, YCbCr, RGBA, CMYK *)
        let nchannel :=
          if String.eqb (pil_mode p) "YCbCr" then 3%nat
          else if String.eqb (pil_mode p) "I;16" then 1%nat
          else String.length (pil_mode p) in
        if (length img =? pil_height p * (pil_width p * nchannel))%nat
        then alloc (Nd3 (transpose201
                           (reshape3 (pil_height p) (pil_width p) nchannel
                                     (map of_int img))))
        else raise RuntimeError
    | ObjOther _ => raise TypeError
    end.

(** [ToTensor.__call__] *)
Definition ToTensor_call (is_test : bool) (s : sample) : Py sample :=
  let focal := sample_focal s in
  image ← to_tensor (ObjArray (sample_image s));
  image ← normalize image;
  if negb is_test then
    depth ← (match sample_depth s with
             | Some d => mret d
             | None => raise KeyError
             end);
    depth ← to_tensor (ObjArray depth);
    mret {| sample_image := image; sample_depth := Some depth;
            sample_focal := focal |}
  else
    mret {| sample_image := image; sample_depth := None; sample_focal := focal |}.
End Adapter.

(** The adapter on binary32 tensors, as [preprocessing_transforms]
    installs it in the loader. *)
Definition preprocessing_transforms {G : Type} (is_test : bool)
  : sample -> M spec_float G sample :=
  ToTensor_call F32.sub F32.div (fun n d => f32_of_f64 (F64.lit n d)) F32.of_Z is_test.

(** ** The list of samples

    [DataLoadPreprocess] keeps the lines of the file
    [args.filenames_file].  A line names the image file, the depth file
    (in a train list) and the focal length, separated by white space.
    Strings are sequences of characters with code points below 256. *)

(** A step of a computation that raises and has no state. *)
Definition and_then {X Y : Type} (r : result X) (k : X -> result Y) : result Y :=
  match r with
  | Ok x => k x
  | Raise e => Raise e
  end.

(** [l[i]] on a list: a negative index counts from the end, and an
    index outside the list is an [IndexError]. *)
Definition py_index {A : Type} (l : list A) (i : Z) : result A :=
  let j := if i <? 0 then i + Z.of_nat (length l) else i in
  if j <? 0 then Raise IndexError
  else match l !! Z.to_nat j with
       | Some x => Ok x
       | None => Raise IndexError
       end.

(** [c.isspace()] on one character: tab to carriage return, the four
    separators, the space, next-line and the no-break space. *)
Definition py_isspace (c : Ascii.ascii) : bool :=
  let n := Ascii.nat_of_ascii c in
  ((9 <=? n) && (n <=? 13) || (28 <=? n) && (n <=? 32)
   || (n =? 133) || (n =? 160))%nat.

(** [s.split()]: the maximal runs of characters that are not white
    space, in order; [word] is the run being read. *)
Fixpoint split_ws (word : string) (s : string) : list string :=
  match s with
  | EmptyString =>
      match word with
      | EmptyString => []
      | _ => [word]
      end
  | String c s' =>
      if py_isspace c
      then match word with
           | EmptyString => split_ws EmptyString s'
           | _ => word :: split_ws EmptyString s'
           end
      else split_ws (String.append word (String c EmptyString)) s'
  end.

Definition py_split (s : string) : list string := split_ws EmptyString s.

(** Whether the last character is the separator [/]. *)
Fixpoint endswith_sep (s : string) : bool :=
  match s with
  | EmptyString => false
  | String _ EmptyString => String.eqb s "/"
  | String _ s' => endswith_sep s'
  end.

(** [os.path.join(a, b)] of [posixpath]: an absolute [b] replaces [a];
    otherwise [b] is appended, after a separator unless [a] is empty or
    ends with one. *)
Definition posix_join (a b : string) : string :=
  if String.prefix "/" b then b
  else if String.eqb a "" || endswith_sep a then String.append a b
  else String.append a (String.append "/" b).

(** What [__getitem__] reads from a line: the focal length and the
    paths it opens. *)
Record sample_files : Type := SampleFiles {
  file_focal : spec_float;
  file_image : string;
  file_depth : option string
}.

Section SampleList.

(** [float(s)]: the double the text denotes, or nothing where [float]
    raises [ValueError]. *)
Variable py_float : string -> option spec_float.

Variable args : Args.

(** [args.data_path] and [args.gt_path] *)
Variables (data_path gt_path : string).

(** [__len__] *)
Definition __len__ (filenames : list string) : nat := length filenames.

(** [__getitem__] from the index to the paths of the files it opens. *)
Definition getitem_files (filenames : list string) (idx : Z) : result sample_files :=
  and_then (py_index filenames idx) (fun sample_path =>
  and_then (py_index (py_split sample_path) (-1)) (fun last =>
  and_then (match py_float last with
            | Some x => Ok x
            | None => Raise ValueError
            end) (fun focal =>
  if String.eqb (mode args) "train" then
    and_then (py_index (py_split sample_path) 0) (fun name =>
    let image_path := posix_join data_path (String.append "./" name) in
    and_then (py_index (py_split sample_path) 1) (fun name =>
    let depth_path := posix_join gt_path (String.append "./" name) in
    Ok {| file_focal := focal; file_image := image_path;
          file_depth := Some depth_path |}))
  else
    and_then (py_index (py_split sample_path) 0) (fun name =>
    let image_path := posix_join data_path (String.append "./" name) in
    Ok {| file_focal := focal; file_image := image_path;
          file_depth := None |})))).

End SampleList.

(** ** PIL operations of the train branch *)

(** [l[i]] where an index outside the list gives nothing. *)
Definition lookupZ {A : Type} (l : list A) (i : Z) : option A :=
  if i <? 0 then None else l !! Z.to_nat i.

(** The pixels of the region of [w] by [h] pixels whose upper left
    corner is [(x0, y0)]: a pixel outside the image has every band
    zero. *)
Definition crop_px (bands : nat) (x0 y0 : Z) (w h : nat)
    (px : list (list (list Z))) : list (list (list Z)) :=
  map (fun i : nat =>
         map (fun j : nat =>
                match row ← lookupZ px (y0 + Z.of_nat i);
                      lookupZ row (x0 + Z.of_nat j) with
                | Some v => v
                | None => repeat 0 bands
                end) (seq 0 w)) (seq 0 h).

Inductive resample : Type := NEAREST | BILINEAR.

Section PilOps.

(** [Image.tobytes()]: the raw buffer of an image of a mode. *)
Variable tobytes : string -> list (list (list Z)) -> list Z.

(** [Image.rotate(angle, resample=flag)] *)
Variable pil_rotate : spec_float -> resample -> pil_image -> pil_image.

(** [p.crop((left, upper, right, lower))]; the loader's boxes have
    the right and lower bounds beyond the left and upper ones. *)
Definition pil_crop (box : Z * Z * Z * Z) (p : pil_image) : pil_image :=
  let '(x0, y0, x1, y1) := box in
  let w := Z.to_nat (x1 - x0) in
  let h := Z.to_nat (y1 - y0) in
  let px := crop_px (getmodebands (pil_mode p)) x0 y0 w h (pil_px p) in
  {| pil_mode := pil_mode p; pil_width := w; pil_height := h;
     pil_px := px; pil_bytes := tobytes (pil_mode p) px |}.

Definition rotateImage (image : pil_image) (angle : spec_float) (flag : resample)
  : pil_image :=
  pil_rotate angle flag image.

(** The box of the KITTI benchmark crop for an image of the given
    size: [int((width - 1216) / 2)] truncates toward zero. *)
Definition kb_crop_box (width height : nat) : Z * Z * Z * Z :=
  let top_margin := Z.of_nat height - 352 in
  let left_margin := Z.quot (Z.of_nat width - 1216) 2 in
  (left_margin, top_margin, left_margin + 1216, top_margin + 352).

Context {G : Type} `{RandomSource G}.
Variable f32_pow : spec_float -> spec_float -> spec_float.
Variable args : Args.

(** [args.do_random_rotate] and [args.degree] *)
Variables (do_random_rotate : bool) (degree : spec_float).

Local Abbreviation Py := (M spec_float G).

(** [__getitem__], train branch, from the opened files to the
    conversion to arrays. *)
Definition getitem_train_pil (image depth_gt : pil_image)
  : Py (pil_image * pil_image) :=
  let '(image, depth_gt) :=
    if do_kb_crop args
    then
      let box := kb_crop_box (pil_width image) (pil_height image) in
      let depth_gt := pil_crop box depth_gt in
      let image := pil_crop box image in
      (image, depth_gt)
    else (image, depth_gt) in
  (* To avoid blank boundaries due to pixel registration *)
  let '(image, depth_gt) :=
    if String.eqb (dataset args) "nyu"
    then
      let depth_gt := pil_crop (43, 45, 608, 472) depth_gt in
      let image := pil_crop (43, 45, 608, 472) image in
      (image, depth_gt)
    else (image, depth_gt) in
  if do_random_rotate
  then
    r ← random_random;
    let random_angle :=
      F64.mul (F64.mul (SFsub F64.prec F64.emax r (F64.lit 1 2)) (F64.of_Z 2))
              degree in
    let image := rotateImage image random_angle BILINEAR in
    let depth_gt := rotateImage depth_gt random_angle NEAREST in
    mret (image, depth_gt)
  else mret (image, depth_gt).

(** [__getitem__] from the opened files. *)
Definition getitem_opened (transform : option (sample -> Py sample))
    (image depth_gt : pil_image) (focal : spec_float) : Py sample :=
  if String.eqb (mode args) "train"
  then
    '(image, depth_gt) ← getitem_train_pil image depth_gt;
    getitem f32_pow args transform image depth_gt focal
  else getitem f32_pow args transform image depth_gt focal.

End PilOps.

(** ** The batch loader: [BtsDataLoader] *)

Inductive sampler : Type := DistributedSampler.

(** What [BtsDataLoader.__init__] hands to [DataLoader]: the transform
    of the dataset (by its [is_test] flag) and the keyword arguments. *)
Record DataLoader : Type := Build_DataLoader {
  dl_is_test : bool;
  dl_batch_size : nat;
  dl_shuffle : bool;
  dl_num_workers : nat;
  dl_pin_memory : bool;
  dl_sampler : option sampler
}.

Section BatchLoader.
Variable args : Args.

(** [args.distributed], [args.batch_size] and [args.num_threads] *)
Variables (distributed : bool) (batch_size num_threads : nat).

Definition BtsDataLoader : DataLoader :=
  if String.eqb (mode args) "train"
  then
    let train_sampler := if distributed then Some DistributedSampler else None in
    {| dl_is_test := false;
       dl_batch_size := batch_size;
       dl_shuffle := match train_sampler with None => true | Some _ => false end;
       dl_num_workers := num_threads;
       dl_pin_memory := true;
       dl_sampler := train_sampler |}
  else
    {| dl_is_test := true;
       dl_batch_size := 1;
       dl_shuffle := false;
       dl_num_workers := 1;
       dl_pin_memory := false;
       dl_sampler := None |}.

End BatchLoader.

Section Pipeline.
Variable tobytes : string -> list (list (list Z)) -> list Z.
Variable pil_rotate : spec_float -> resample -> pil_image -> pil_image.
Context {G : Type} `{RandomSource G}.
Variable f32_pow : spec_float -> spec_float -> spec_float.
Variable args : Args.
Variables (do_random_rotate : bool) (degree : spec_float).
Variables (distributed : bool) (batch_size num_threads : nat).

(** [__getitem__] of the dataset [BtsDataLoader] builds:
    [DataLoadPreprocess(args, transform=preprocessing_transforms(is_test))]
    with the [is_test] of the mode. *)
Definition BtsDataLoader_getitem (image depth_gt : pil_image) (focal : spec_float)
  : M spec_float G sample :=
  let loader := BtsDataLoader args distributed batch_size num_threads in
  getitem_opened tobytes pil_rotate f32_pow args do_random_rotate degree
    (Some (preprocessing_transforms (dl_is_test loader))) image depth_gt focal.

End Pipeline.

(** * Properties *)

(** ** Slices, arrays and rounding *)

Section SlicingFacts.
Context {A : Type}.

Lemma slice_index_le n i : (slice_index n i <= n)%nat.
Proof. unfold slice_index. destruct (i <? 0) eqn:E; lia. Qed.

Lemma py_slice_length lo hi (l : list A) :
  length (py_slice lo hi l) = slice_len (length l) lo hi.
Proof.
  unfold py_slice, slice_len.
  rewrite length_firstn, length_skipn.
  pose proof (slice_index_le (length l) hi). lia.
Qed.

Lemma slice_index_nonneg n i :
  0 <= i <= Z.of_nat n -> slice_index n i = Z.to_nat i.
Proof.
  intros H. unfold slice_index.
  destruct (i <? 0) eqn:E; [lia|]. lia.
Qed.

Lemma slice_len_window n lo len :
  0 <= lo -> 0 <= len -> lo + len <= Z.of_nat n ->
  slice_len n lo (lo + len) = Z.to_nat len.
Proof.
  intros. unfold slice_len.
  rewrite !slice_index_nonneg by lia. lia.
Qed.

Lemma py_slice_lookup lo len (l : list A) (i : nat) :
  0 <= lo -> 0 <= len -> lo + len <= Z.of_nat (length l) ->
  (i < Z.to_nat len)%nat ->
  py_slice lo (lo + len) l !! i = l !! (Z.to_nat lo + i)%nat.
Proof.
  intros Hlo Hlen Hfit Hi. unfold py_slice.
  rewrite slice_len_window by lia.
  rewrite slice_index_nonneg by lia.
  rewrite lookup_take_lt by lia.
  by rewrite lookup_drop.
Qed.
End SlicingFacts.

Section ArraysFacts.
Context {A : Type}.
Implicit Types (a : array3 A) (rows : list (list (list A))).

Lemma wf_rows_py_slice w c lo hi rows :
  wf_rows w c rows -> wf_rows w c (py_slice lo hi rows).
Proof.
  unfold wf_rows, py_slice. intros H.
  apply Forall_take, Forall_drop, H.
Qed.

Lemma slice3_wf y0 y1 x0 x1 a : wf3 a -> wf3 (slice3 y0 y1 x0 x1 a).
Proof.
  intros [Hlen Hrows]. split; simpl.
  - rewrite length_map, py_slice_length. by rewrite Hlen.
  - pose proof (wf_rows_py_slice _ _ y0 y1 _ Hrows) as Hs.
    unfold wf_rows in *. rewrite Forall_map.
    eapply Forall_impl; [exact Hs|]. intros row [Hw Hpx]. simpl. split.
    + rewrite py_slice_length. by rewrite Hw.
    + unfold py_slice. by apply Forall_take, Forall_drop.
Qed.

Lemma fliplr_wf a : wf3 a -> wf3 (fliplr a).
Proof.
  intros [Hlen Hrows]. split; simpl.
  - by rewrite length_map.
  - unfold wf_rows in *. rewrite Forall_map.
    eapply Forall_impl; [exact Hrows|]. intros row [Hw Hpx]. simpl. split.
    + by rewrite length_rev.
    + by apply List.Forall_rev.
Qed.

Lemma fliplr_involutive a : fliplr (fliplr a) = a.
Proof.
  destruct a as [h w c rows]. unfold fliplr. simpl. f_equal.
  rewrite map_map. rewrite <- (map_id rows) at 2.
  apply map_ext. intros row. apply rev_involutive.
Qed.

Lemma slice3_get y x h w a (i j k : nat) :
  wf3 a ->
  0 <= y -> 0 <= h -> y + h <= Z.of_nat (shape0 a) ->
  0 <= x -> 0 <= w -> x + w <= Z.of_nat (shape1 a) ->
  (i < Z.to_nat h)%nat -> (j < Z.to_nat w)%nat ->
  get3 (slice3 y (y + h) x (x + w) a) i j k
  = get3 a (Z.to_nat y + i) (Z.to_nat x + j) k.
Proof.
  intros [Hlen Hrows] Hy Hh Hyh Hx Hw Hxw Hi Hj.
  unfold get3, slice3. simpl.
  rewrite list_lookup_fmap.
  rewrite py_slice_lookup by lia.
  destruct (data a !! (Z.to_nat y + i)%nat) as [row|] eqn:Erow; simpl; [|done].
  unfold wf_rows in Hrows. rewrite Forall_lookup in Hrows.
  destruct (Hrows _ _ Erow) as [Hrw _].
  rewrite py_slice_lookup by lia. done.
Qed.

Lemma take1_drop_lookup (c : nat) (px : list A) x :
  px !! c = Some x -> firstn 1 (skipn c px) = [x].
Proof.
  intros H. change (firstn 1 (skipn c px)) with (take 1 (drop c px)).
  by rewrite (drop_S _ _ _ H).
Qed.

Lemma channel_length (c n : nat) (row : list (list A)) :
  Forall (fun px => length px = n) row -> (c < n)%nat ->
  length (channel c row) = length row.
Proof.
  intros Hrow Hc. induction Hrow as [|px row Hpx _ IH]; [done|].
  unfold channel in *. simpl. rewrite length_app, IH.
  destruct (lookup_lt_is_Some_2 px c) as [x Hx]; [lia|].
  by rewrite (take1_drop_lookup _ _ _ Hx).
Qed.

Lemma channel_lookup (c n : nat) (row : list (list A)) (j : nat) :
  Forall (fun px => length px = n) row -> (c < n)%nat ->
  channel c row !! j = (px ← row !! j; px !! c).
Proof.
  intros Hrow Hc. revert j.
  induction Hrow as [|px row Hpx _ IH]; intros j; [done|].
  destruct (lookup_lt_is_Some_2 px c) as [x Hx]; [lia|].
  unfold channel in *. simpl. rewrite (take1_drop_lookup _ _ _ Hx).
  destruct j as [|j]; simpl; [by rewrite Hx|]. apply IH.
Qed.

Lemma transpose201_wf a : wf3 a -> wf3 (transpose201 a).
Proof.
  intros [Hlen Hrows]. split; simpl.
  - by rewrite length_map, length_seq.
  - unfold wf_rows in *. rewrite Forall_map, Forall_forall.
    intros c Hc. apply elem_of_seq in Hc. simpl. split.
    + by rewrite length_map.
    + rewrite Forall_map. eapply Forall_impl; [exact Hrows|].
      intros row [Hw Hpx]. simpl.
      rewrite (channel_length c (shape2 a)); [done|done|lia].
Qed.

(** Element [(c, i, j)] of the transposed array is element
    [(i, j, c)] of the array. *)
Lemma transpose201_get a (c i j : nat) :
  wf3 a -> get3 (transpose201 a) c i j = get3 a i j c.
Proof.
  intros [Hlen Hrows]. unfold get3, transpose201. simpl.
  rewrite list_lookup_fmap.
  destruct (decide (c < shape2 a)%nat) as [Hc|Hc].
  - rewrite lookup_seq_lt by done. simpl.
    rewrite list_lookup_fmap.
    destruct (data a !! i) as [row|] eqn:Erow; simpl; [|done].
    unfold wf_rows in Hrows. rewrite Forall_lookup in Hrows.
    destruct (Hrows _ _ Erow) as [_ Hpx].
    by rewrite (channel_lookup c (shape2 a)).
  - rewrite lookup_seq_ge by lia. simpl.
    destruct (data a !! i) as [row|] eqn:Erow; simpl; [|done].
    destruct (row !! j) as [px|] eqn:Epx; simpl; [|done].
    unfold wf_rows in Hrows. rewrite Forall_lookup in Hrows.
    destruct (Hrows _ _ Erow) as [_ Hpx].
    rewrite Forall_lookup in Hpx. specialize (Hpx _ _ Epx).
    symmetry. apply lookup_ge_None. lia.
Qed.

Lemma channel0_single (row : list (list A)) :
  Forall (fun px => length px = 1%nat) row -> channel 0 row = concat row.
Proof.
  induction 1 as [|px row Hpx _ IH]; [done|].
  unfold channel in *. simpl. rewrite IH. f_equal.
  destruct px as [|x [|y px]]; simpl in *; done.
Qed.

Lemma concat_map_concat (rows : list (list (list A))) :
  concat (map (@concat A) rows) = concat (concat rows).
Proof.
  induction rows as [|row rows IH]; [done|].
  simpl. by rewrite concat_app, IH.
Qed.

(** With a single channel, transposing moves no element: the
    row-major element sequence is the same. *)
Lemma transpose201_ravel_single a :
  wf3 a -> shape2 a = 1%nat -> ravel (transpose201 a) = ravel a.
Proof.
  intros [Hlen Hrows] Hc. unfold ravel, transpose201. simpl.
  rewrite Hc. simpl. rewrite app_nil_r.
  rewrite <- concat_map_concat. f_equal.
  apply List.map_ext_Forall. unfold wf_rows in Hrows.
  eapply Forall_impl; [exact Hrows|]. intros row [_ Hpx]. simpl.
  apply channel0_single. by rewrite <- Hc.
Qed.

Lemma get3_ext_shape a (i j k : nat) x :
  wf3 a -> get3 a i j k = Some x ->
  (i < shape0 a)%nat /\ (j < shape1 a)%nat /\ (k < shape2 a)%nat.
Proof.
  intros [Hlen Hrows] H. unfold get3 in H.
  destruct (data a !! i) as [row|] eqn:Erow; simpl in H; [|done].
  destruct (row !! j) as [px|] eqn:Epx; simpl in H; [|done].
  unfold wf_rows in Hrows. rewrite Forall_lookup in Hrows.
  destruct (Hrows _ _ Erow) as [Hw Hpx].
  rewrite Forall_lookup in Hpx. specialize (Hpx _ _ Epx).
  apply lookup_lt_Some in Erow, Epx, H. lia.
Qed.
End ArraysFacts.

Section ArrayMapsFacts.
Context {A B : Type}.
Implicit Types (f : A -> B) (a : array3 A).

Lemma map3_wf f a : wf3 a -> wf3 (map3 f a).
Proof.
  intros [Hlen Hrows]. split; simpl.
  - by rewrite length_map.
  - unfold wf_rows in *. rewrite Forall_map.
    eapply Forall_impl; [exact Hrows|]. intros row [Hw Hpx]. simpl. split.
    + by rewrite length_map.
    + rewrite Forall_map. eapply Forall_impl; [exact Hpx|].
      intros px Hc. simpl. by rewrite length_map.
Qed.

Lemma map3_ravel f a : ravel (map3 f a) = map f (ravel a).
Proof.
  unfold ravel, map3. simpl.
  by rewrite !concat_map.
Qed.

Lemma map3_get f a (i j k : nat) :
  get3 (map3 f a) i j k = f <$> get3 a i j k.
Proof.
  unfold get3, map3. simpl. rewrite list_lookup_fmap.
  destruct (data a !! i) as [row|]; simpl; [|done].
  rewrite list_lookup_fmap.
  destruct (row !! j) as [px|]; simpl; [|done].
  by rewrite list_lookup_fmap.
Qed.
End ArrayMapsFacts.

Lemma all3_ravel {A : Type} (P : A -> Prop) (a : array3 A) :
  all3 P a <-> Forall P (ravel a).
Proof.
  unfold all3, ravel. rewrite !Forall_concat. done.
Qed.

Lemma all3_get {A : Type} (P : A -> Prop) (a : array3 A) (i j k : nat) x :
  all3 P a -> get3 a i j k = Some x -> P x.
Proof.
  unfold all3, get3. intros H Hx.
  destruct (data a !! i) as [row|] eqn:Erow; simpl in Hx; [|done].
  destruct (row !! j) as [px|] eqn:Epx; simpl in Hx; [|done].
  rewrite Forall_lookup in H. specialize (H _ _ Erow).
  rewrite Forall_lookup in H. specialize (H _ _ Epx).
  rewrite Forall_lookup in H. by apply (H _ _ Hx).
Qed.

Section RoundingFacts.
Variables prec emax : Z.

Lemma shr_1_m (r : shr_record) : shr_m (shr_1 r) = Z.div2 (shr_m r) \/ shr_m r < 0.
Proof.
  destruct r as [m rb sb]. destruct m as [|p|p]; simpl; [by left| |right; lia].
  left. by destruct p.
Qed.

Lemma shr_1_div2 (r : shr_record) :
  0 <= shr_m r -> shr_m (shr_1 r) = Z.div2 (shr_m r).
Proof. intros H. destruct (shr_1_m r); [done|lia]. Qed.

Lemma iter_pos_shr_1_m (p : positive) (r : shr_record) :
  0 <= shr_m r ->
  shr_m (SpecFloat.iter_pos shr_1 p r) = Z.shiftr (shr_m r) (Zpos p).
Proof.
  revert r. induction p as [p IH|p IH|]; intros r Hr; simpl.
  - assert (H1 : 0 <= shr_m (shr_1 r)).
    { rewrite shr_1_div2 by done. rewrite Z.div2_div. by apply Z.div_pos. }
    assert (H2 : 0 <= shr_m (SpecFloat.iter_pos shr_1 p (shr_1 r))).
    { rewrite IH by done. by apply Z.shiftr_nonneg. }
    rewrite IH, IH, shr_1_div2 by done.
    rewrite Z.div2_spec, !Z.shiftr_shiftr by lia. f_equal. lia.
  - assert (H2 : 0 <= shr_m (SpecFloat.iter_pos shr_1 p r)).
    { rewrite IH by done. by apply Z.shiftr_nonneg. }
    rewrite IH, IH by done.
    rewrite Z.shiftr_shiftr by lia. f_equal. lia.
  - rewrite shr_1_div2 by done. by rewrite Z.div2_spec.
Qed.

Lemma shr_m_shr (r : shr_record) (e n : Z) :
  0 <= shr_m r ->
  shr_m (fst (shr r e n)) = Z.shiftr (shr_m r) (Z.max 0 n)
  /\ snd (shr r e n) = e + Z.max 0 n.
Proof.
  intros Hr. destruct n as [|p|p]; simpl.
  - split; [by rewrite Z.shiftr_0_r | lia].
  - split; [by apply iter_pos_shr_1_m | done].
  - split; [by rewrite Z.shiftr_0_r | lia].
Qed.

Lemma shr_m_of_loc (m : Z) (l : location) : shr_m (shr_record_of_loc m l) = m.
Proof. by destruct l as [|[]]. Qed.

Lemma round_nearest_even_bounds (m : Z) (l : location) :
  m <= round_nearest_even m l <= m + 1.
Proof.
  unfold round_nearest_even. destruct l as [|[]]; try lia.
  destruct (Z.even m); lia.
Qed.

(** What [binary_round_aux] computes, with the two shifts made
    explicit. *)
Lemma binary_round_aux_unfold (s : bool) (m e : Z) (l : location) :
  0 <= m ->
  exists m1 m2 e1 : Z,
    m1 = Z.shiftr m (Z.max 0 (fexp prec emax (Zdigits2 m + e) - e))
    /\ e1 = e + Z.max 0 (fexp prec emax (Zdigits2 m + e) - e)
    /\ m1 <= m2 <= m1 + 1
    /\ binary_round_aux prec emax s m e l =
       let n2 := Z.max 0 (fexp prec emax (Zdigits2 m2 + e1) - e1) in
       match Z.shiftr m2 n2 with
       | Z0 => S754_zero s
       | Zpos q => if e1 + n2 <=? emax - prec
                   then S754_finite s q (e1 + n2) else S754_infinity s
       | Zneg _ => S754_nan
       end.
Proof.
  intros Hm. unfold binary_round_aux, shr_fexp.
  set (n1 := fexp prec emax (Zdigits2 m + e) - e).
  destruct (shr_m_shr (shr_record_of_loc m l) e n1) as [Hm1 He1].
  { by rewrite shr_m_of_loc. }
  rewrite shr_m_of_loc in Hm1.
  destruct (shr (shr_record_of_loc m l) e n1) as [mrs1 e1]. simpl in Hm1, He1.
  set (m2 := round_nearest_even (shr_m mrs1) (loc_of_shr_record mrs1)).
  pose proof (round_nearest_even_bounds (shr_m mrs1) (loc_of_shr_record mrs1)) as Hb.
  fold m2 in Hb.
  assert (Hm1' : 0 <= shr_m mrs1) by (rewrite Hm1; by apply Z.shiftr_nonneg).
  set (n2 := fexp prec emax (Zdigits2 m2 + e1) - e1).
  destruct (shr_m_shr (shr_record_of_loc m2 loc_Exact) e1 n2) as [Hm3 He3].
  { rewrite shr_m_of_loc. lia. }
  rewrite shr_m_of_loc in Hm3.
  destruct (shr (shr_record_of_loc m2 loc_Exact) e1 n2) as [mrs3 e3].
  simpl in Hm3, He3.
  exists (shr_m mrs1), m2, e1. subst e1. repeat split; try done; try lia.
  simpl. fold n2. rewrite <- Hm3, <- He3. done.
Qed.

Lemma binary_round_aux_not_nan (s : bool) (m e : Z) (l : location) :
  0 <= m -> binary_round_aux prec emax s m e l <> S754_nan.
Proof.
  intros Hm.
  destruct (binary_round_aux_unfold s m e l Hm) as (m1 & m2 & e1 & Hm1 & He1 & Hb & ->).
  assert (0 <= m1) by (subst m1; by apply Z.shiftr_nonneg).
  simpl.
  set (n2 := Z.max 0 (fexp prec emax (Zdigits2 m2 + e1) - e1)).
  assert (H3 : 0 <= Z.shiftr m2 n2) by (apply Z.shiftr_nonneg; lia).
  destruct (Z.shiftr m2 n2); [done| |lia].
  by destruct (_ <=? _).
Qed.

Lemma binary_round_not_nan (s : bool) (m : positive) (e : Z) :
  binary_round prec emax s m e <> S754_nan.
Proof.
  unfold binary_round. destruct (shl_align _ _ _) as [mz ez].
  by apply binary_round_aux_not_nan.
Qed.

Lemma digits2_pos_size (p : positive) : digits2_pos p = Pos.size p.
Proof. induction p as [p IH|p IH|]; simpl; by rewrite ?IH. Qed.

Lemma Zdigits2_log2 (m : Z) : 0 < m -> Zdigits2 m = Z.log2 m + 1.
Proof.
  destruct m as [|p|p]; try lia. intros _. simpl.
  rewrite digits2_pos_size. destruct p; simpl; lia.
Qed.

Lemma shiftr_pos_log2 (m n : Z) :
  0 < m -> 0 <= n <= Z.log2 m ->
  0 < Z.shiftr m n /\ Z.log2 (Z.shiftr m n) = Z.log2 m - n.
Proof.
  intros Hm Hn. split.
  - assert (0 <= Z.shiftr m n) by (apply Z.shiftr_nonneg; lia).
    assert (Hne : Z.shiftr m n <> 0) by (rewrite Z.shiftr_eq_0_iff; lia).
    lia.
  - rewrite Z.log2_shiftr by done. lia.
Qed.

(** In the normal range a rounded positive number is a finite,
    nonzero float: neither underflow to zero nor overflow. *)
Lemma binary_round_aux_finite (s : bool) (m e : Z) (l : location) :
  0 < prec -> 0 < m ->
  3 - emax - prec <= Zdigits2 m + e - prec ->
  Zdigits2 m + e + 1 <= emax ->
  e <= emax - prec ->
  exists q e', binary_round_aux prec emax s m e l = S754_finite s q e'.
Proof.
  intros Hprec Hm Hlo Hhi He.
  destruct (binary_round_aux_unfold s m e l ltac:(lia))
    as (m1 & m2 & e1 & Hm1 & He1 & Hb & ->).
  rewrite Zdigits2_log2 in * by done.
  pose proof (Z.log2_nonneg m) as Hlog.
  unfold fexp, emin in Hm1, He1.
  set (n1 := Z.max 0 (Z.max (Z.log2 m + 1 + e - prec) (3 - emax - prec) - e)) in *.
  destruct (shiftr_pos_log2 m n1 Hm) as [Hm1pos Hm1log]; [lia|].
  rewrite <- Hm1 in Hm1pos, Hm1log.
  assert (Hm2 : 0 < m2) by lia.
  assert (Hm2log : Z.log2 m1 <= Z.log2 m2 <= Z.log2 m1 + 1).
  { split; [apply Z.log2_le_mono; lia|].
    transitivity (Z.log2 (Z.succ m1)); [apply Z.log2_le_mono; lia|].
    apply Z.log2_succ_le. }
  simpl. rewrite Zdigits2_log2 by done. unfold fexp, emin.
  set (n2 := Z.max 0 (Z.max (Z.log2 m2 + 1 + e1 - prec) (3 - emax - prec) - e1)).
  destruct (shiftr_pos_log2 m2 n2 Hm2) as [Hm3pos _]; [lia|].
  destruct (Z.shiftr m2 n2) as [|q|q]; try lia.
  assert (Hle : (e1 + n2 <=? emax - prec) = true) by (apply Z.leb_le; lia).
  rewrite Hle. by eexists _, _.
Qed.

Lemma iter_xO_mul (m d : positive) :
  Zpos (Pos.iter xO m d) = Zpos m * 2 ^ Zpos d.
Proof.
  revert m. induction d as [|d IH] using Pos.peano_ind; intros m.
  - simpl. lia.
  - rewrite Pos.iter_succ, Pos2Z.inj_succ, Z.pow_succ_r by lia.
    rewrite Pos2Z.inj_xO, IH. lia.
Qed.

Lemma binary_round_finite (s : bool) (m : positive) (e : Z) :
  0 < prec ->
  3 - emax - prec <= Zpos (digits2_pos m) + e - prec ->
  Zpos (digits2_pos m) + e + 1 <= emax ->
  exists q e', binary_round prec emax s m e = S754_finite s q e'.
Proof.
  intros Hprec Hlo Hhi. unfold binary_round.
  change (Zpos (digits2_pos m)) with (Zdigits2 (Zpos m)) in *.
  rewrite Zdigits2_log2 in * by done.
  pose proof (Z.log2_nonneg (Zpos m)) as Hlog.
  unfold shl_align, fexp, emin.
  destruct (Z.max (Z.log2 (Zpos m) + 1 + e - prec) (3 - emax - prec) - e)
    as [|d|d] eqn:Ed.
  - apply binary_round_aux_finite; try done; rewrite ?Zdigits2_log2 by done; lia.
  - apply binary_round_aux_finite; try done; rewrite ?Zdigits2_log2 by done; lia.
  - assert (Hlog' : Z.log2 (Zpos (Pos.iter xO m d)) = Zpos d + Z.log2 (Zpos m)).
    { rewrite iter_xO_mul. apply Z.log2_mul_pow2; lia. }
    apply binary_round_aux_finite; try done;
      rewrite ?Zdigits2_log2 by done; rewrite ?Hlog'; lia.
Qed.

Lemma SFmul_not_nan (x y : spec_float) (sy : bool) (my : positive) (ey : Z) :
  x <> S754_nan -> y = S754_finite sy my ey -> SFmul prec emax x y <> S754_nan.
Proof.
  intros Hx ->. destruct x as [sx|sx| |sx mx ex]; simpl; try done.
  by apply binary_round_aux_not_nan.
Qed.
End RoundingFacts.

(** A float between two positive finite floats is positive and finite,
    with its exponent between theirs. *)
Lemma in_range_finite (lm hm : positive) (le he : Z) (x : spec_float) :
  in_range (S754_finite false lm le) (S754_finite false hm he) x = true ->
  exists m e, x = S754_finite false m e /\ le <= e <= he.
Proof.
  unfold in_range, SFleb. intros H. apply andb_prop in H as [Hlo Hhi].
  destruct x as [s|s| |s m e]; simpl in *; try done.
  - by destruct s.
  - destruct s; [done|]. exists m, e. split; [done|].
    destruct (Z.compare_spec le e), (Z.compare_spec e he); try done; lia.
Qed.

(** A valid double above the subnormal range carries 53 digits. *)
Lemma f64_valid_digits (s : bool) (m : positive) (e : Z) :
  F64.valid (S754_finite s m e) = true -> -1074 < e ->
  Zpos (digits2_pos m) = 53.
Proof.
  unfold F64.valid, valid_binary, bounded, canonical_mantissa, fexp, emin.
  unfold F64.prec, F64.emax.
  intros H He. apply andb_prop in H as [H _]. apply Z.eqb_eq in H. lia.
Qed.

Lemma chunks_length {A : Type} n k (l : list A) : length (chunks n k l) = n.
Proof. revert l. induction n as [|n IH]; intros l; simpl; [done|]. by rewrite IH. Qed.

Lemma chunks_each_length {A : Type} n k (l : list A) :
  (n * k <= length l)%nat -> Forall (fun ch => length ch = k) (chunks n k l).
Proof.
  revert l. induction n as [|n IH]; intros l Hl; simpl; constructor.
  - rewrite length_firstn. lia.
  - apply IH. rewrite length_skipn. lia.
Qed.

Lemma concat_chunks {A : Type} n k (l : list A) :
  concat (chunks n k l) = firstn (n * k) l.
Proof.
  revert l. induction n as [|n IH]; intros l; simpl; [done|].
  rewrite IH. apply take_take_drop.
Qed.

Lemma chunks_Forall {A : Type} (P : A -> Prop) n k (l : list A) :
  Forall P l -> Forall (Forall P) (chunks n k l).
Proof.
  revert l. induction n as [|n IH]; intros l Hl; simpl; constructor.
  - by apply Forall_take.
  - by apply IH, Forall_drop.
Qed.

Section ReshapeFacts.
Context {A : Type}.
Implicit Types (flat : list A).

Lemma reshape3_wf h w c flat :
  length flat = (h * (w * c))%nat -> wf3 (reshape3 h w c flat).
Proof.
  intros Hlen. split; simpl.
  - by rewrite length_map, chunks_length.
  - unfold wf_rows. rewrite Forall_map.
    eapply Forall_impl; [apply (chunks_each_length h (w * c)); lia|].
    intros row Hrow. simpl in *. split; [apply chunks_length|].
    apply chunks_each_length. lia.
Qed.

Lemma reshape3_ravel h w c flat :
  length flat = (h * (w * c))%nat -> ravel (reshape3 h w c flat) = flat.
Proof.
  intros Hlen. unfold ravel, reshape3. simpl.
  rewrite <- concat_map_concat, map_map.
  rewrite (List.map_ext_Forall _ Datatypes.id).
  - rewrite map_id, concat_chunks. apply firstn_all2. lia.
  - eapply Forall_impl; [apply (chunks_each_length h (w * c)); lia|].
    intros row Hrow. simpl in *. rewrite concat_chunks. apply firstn_all2.
    lia.
Qed.
End ReshapeFacts.

(** ** Running the primitives *)

Section Run.
Context {A G : Type} `{RandomSource G}.
Implicit Types (st : state A G) (o : ndarray A).

Lemma run_bind {X Y : Type} (m : M A G X) (k : X -> M A G Y) st :
  (m ≫= k) st = match m st with
                | (Ok x, st') => k x st'
                | (Raise e, st') => (Raise e, st')
                end.
Proof. reflexivity. Qed.

Lemma run_ret {X : Type} (x : X) st : (mret x : M A G X) st = (Ok x, st).
Proof. reflexivity. Qed.

Lemma run_assert (c : bool) st : c = true -> assert_ c st = (Ok tt, st).
Proof. by intros ->. Qed.

Lemma run_load l st o : heap st !! l = Some o -> load l st = (Ok o, st).
Proof. intros Hl. unfold load. by rewrite Hl. Qed.

Lemma run_load3 l st a : heap st !! l = Some (Nd3 a) -> load3 l st = (Ok a, st).
Proof. intros Hl. unfold load3, bind. by rewrite (run_load _ _ _ Hl). Qed.

Lemma alloc_fresh st : heap st !! fresh (dom (heap st)) = None.
Proof. apply not_elem_of_dom, is_fresh. Qed.

Lemma run_alloc o st :
  alloc o st = (Ok (fresh (dom (heap st))),
                {| heap := <[fresh (dom (heap st)) := o]> (heap st);
                   rng := rng st |}).
Proof. reflexivity. Qed.

(** Allocation leaves every existing object as it is. *)
Lemma alloc_extends o st : heap st ⊆ <[fresh (dom (heap st)) := o]> (heap st).
Proof. apply insert_subseteq, alloc_fresh. Qed.

Lemma run_draw {X : Type} (f : G -> X * G) st :
  draw f st = (Ok (fst (f (rng st))),
               {| heap := heap st; rng := snd (f (rng st)) |}).
Proof. unfold draw. by destruct (f (rng st)). Qed.

Lemma run_randint (a b : Z) st :
  a <= b ->
  random_randint a b st
  = (Ok (fst (gen_randint a b (rng st))),
     {| heap := heap st; rng := snd (gen_randint a b (rng st)) |}).
Proof.
  intros Hab. unfold random_randint.
  destruct (b <? a) eqn:E; [lia|]. apply run_draw.
Qed.
End Run.

Section RunLoader.
Context {G : Type} `{RandomSource G}.
Implicit Types (st : state spec_float G).

Lemma run_shape_at l (i : nat) st o n :
  heap st !! l = Some o -> nd_shape o !! i = Some n ->
  shape_at l i st = (Ok n, st).
Proof.
  intros Hl Hn. unfold shape_at. rewrite run_bind, (run_load _ _ _ Hl).
  by rewrite Hn.
Qed.
End RunLoader.

(** Steps through a computation whose next primitive is determined. *)
Ltac run_step :=
  rewrite run_bind;
  first
    [ erewrite run_shape_at by (done || (eauto; done))
    | erewrite run_load3 by (done || (eauto; done))
    | erewrite run_load by (done || (eauto; done))
    | rewrite run_alloc
    | rewrite run_draw
    | rewrite run_ret ];
  cbn beta iota.

(** ** The random crop *)

Section RandomCrop.
Context {G : Type} `{RandomSourceLaws G}.
Implicit Types (st : state spec_float G) (a : array3 spec_float).

(** The window of [h] rows and [w] columns at offset [(x, y)]. *)
Definition window (x y : Z) (h w : nat) a : array3 spec_float :=
  slice3 y (y + Z.of_nat h) x (x + Z.of_nat w) a.

Lemma window_shape x y (h w : nat) a :
  0 <= x <= Z.of_nat (shape1 a) - Z.of_nat w ->
  0 <= y <= Z.of_nat (shape0 a) - Z.of_nat h ->
  shape3 (window x y h w a) = (h, w, shape2 a).
Proof.
  intros Hx Hy. unfold shape3, window, slice3. simpl.
  rewrite !slice_len_window by lia. by rewrite !Nat2Z.id.
Qed.

Lemma window_get x y (h w : nat) a (i j k : nat) :
  wf3 a ->
  0 <= x <= Z.of_nat (shape1 a) - Z.of_nat w ->
  0 <= y <= Z.of_nat (shape0 a) - Z.of_nat h ->
  (i < h)%nat -> (j < w)%nat ->
  get3 (window x y h w a) i j k = get3 a (Z.to_nat y + i) (Z.to_nat x + j) k.
Proof.
  intros Hwf Hx Hy Hi Hj. unfold window.
  apply slice3_get; try done; lia.
Qed.

(** The run of [random_crop] on arrays that pass its assertions. *)
Lemma random_crop_run st (img depth : nat) (ai ad : array3 spec_float)
    (height width : nat) :
  heap st !! img = Some (Nd3 ai) ->
  heap st !! depth = Some (Nd3 ad) ->
  shape0 ai = shape0 ad -> shape1 ai = shape1 ad ->
  (height <= shape0 ai)%nat -> (width <= shape1 ai)%nat ->
  exists (x y : Z) (img' depth' : nat) st',
    random_crop img depth height width st = (Ok (img', depth'), st')
    /\ 0 <= x <= Z.of_nat (shape1 ai) - Z.of_nat width
    /\ 0 <= y <= Z.of_nat (shape0 ai) - Z.of_nat height
    /\ heap st' !! img' = Some (Nd3 (window x y height width ai))
    /\ heap st' !! depth' = Some (Nd3 (window x y height width ad)).
Proof.
  intros Himg Hdepth Hh Hw Hhe Hwi.
  unfold random_crop.
  do 2 (run_step; rewrite run_bind, run_assert by (by apply Nat.leb_le);
        cbn beta iota).
  do 2 (run_step; run_step; rewrite run_bind, run_assert by (by apply Nat.eqb_eq);
        cbn beta iota).
  run_step. rewrite run_bind, run_randint by lia. cbn beta iota.
  set (px := gen_randint 0 (Z.of_nat (shape1 ai) - Z.of_nat width) (rng st)).
  run_step. rewrite run_bind, run_randint by (simpl; lia). cbn beta iota.
  set (py := gen_randint 0 (Z.of_nat (shape0 ai) - Z.of_nat height) _).
  pose proof (randint_range 0 (Z.of_nat (shape1 ai) - Z.of_nat width) (rng st)
                ltac:(lia)) as Hx.
  pose proof (randint_range 0 (Z.of_nat (shape0 ai) - Z.of_nat height) (snd px)
                ltac:(lia)) as Hy.
  fold px in Hx. simpl in Hy. fold py in Hy.
  run_step. run_step.
  set (st1 := {| heap := <[_ := _]> _; rng := _ |}).
  assert (Hd1 : heap st1 !! depth = Some (Nd3 ad)).
  { subst st1. simpl. eapply lookup_weaken; [exact Hdepth|].
    apply (alloc_extends _ {| heap := heap st; rng := snd py |}). }
  run_step. run_step. rewrite run_ret.
  eexists (fst px), (fst py), _, _, _. split; [reflexivity|].
  split; [done|]. split; [done|]. simpl. split.
  { eapply lookup_weaken; [|apply (alloc_extends _ st1)].
    subst st1. simpl. apply lookup_insert_eq. }
  apply lookup_insert_eq.
Qed.

(** C1. On an image and a depth array of the same height and width,
    both at least the target size, [random_crop] raises nothing and
    returns the window of one offset [(x, y)] of the image and of the
    depth array; both windows have exactly the target height and
    width. *)
Theorem random_crop_ok st (img depth : nat) (ai ad : array3 spec_float)
    (height width : nat) :
  heap st !! img = Some (Nd3 ai) ->
  heap st !! depth = Some (Nd3 ad) ->
  wf3 ai -> wf3 ad ->
  shape0 ai = shape0 ad -> shape1 ai = shape1 ad ->
  (height <= shape0 ai)%nat -> (width <= shape1 ai)%nat ->
  exists (x y : Z) (img' depth' : nat) st',
    random_crop img depth height width st = (Ok (img', depth'), st')
    /\ 0 <= x <= Z.of_nat (shape1 ai) - Z.of_nat width
    /\ 0 <= y <= Z.of_nat (shape0 ai) - Z.of_nat height
    /\ heap st' !! img' = Some (Nd3 (window x y height width ai))
    /\ heap st' !! depth' = Some (Nd3 (window x y height width ad))
    /\ shape3 (window x y height width ai) = (height, width, shape2 ai)
    /\ shape3 (window x y height width ad) = (height, width, shape2 ad)
    /\ (forall i j k : nat, (i < height)%nat -> (j < width)%nat ->
          get3 (window x y height width ai) i j k
          = get3 ai (Z.to_nat y + i) (Z.to_nat x + j) k
          /\ get3 (window x y height width ad) i j k
             = get3 ad (Z.to_nat y + i) (Z.to_nat x + j) k).
Proof.
  intros Himg Hdepth Hwfi Hwfd Hh Hw Hhe Hwi.
  destruct (random_crop_run st img depth ai ad height width
              Himg Hdepth Hh Hw Hhe Hwi)
    as (x & y & img' & depth' & st' & Hrun & Hx & Hy & Hi & Hd).
  exists x, y, img', depth', st'.
  split; [exact Hrun|]. split; [exact Hx|]. split; [exact Hy|].
  split; [exact Hi|]. split; [exact Hd|].
  split; [by apply window_shape|].
  split; [apply window_shape; rewrite <- ?Hh, <- ?Hw; done|].
  intros i j k Hlti Hltj. split.
  - by apply window_get.
  - apply window_get; rewrite <- ?Hh, <- ?Hw; done.
Qed.
End RandomCrop.

(** ** The horizontal flip *)

Section Flip.
Context {G : Type} `{RandomSource G}.
Implicit Types (st : state spec_float G) (a : array3 spec_float).

Lemma fresh_ne st (l : nat) o :
  heap st !! l = Some o -> l <> fresh (dom (heap st)).
Proof. intros Hl ->. by rewrite alloc_fresh in Hl. Qed.

(** What one flip step does: two new arrays holding the mirrors, every
    existing array untouched. *)
Lemma flip_both_run st (image depth_gt : nat) ai ad :
  heap st !! image = Some (Nd3 ai) ->
  heap st !! depth_gt = Some (Nd3 ad) ->
  exists (image' depth' : nat) st',
    flip_both image depth_gt st = (Ok (image', depth'), st')
    /\ heap st ⊆ heap st'
    /\ rng st' = rng st
    /\ heap st !! depth' = None
    /\ heap st' !! image' = Some (Nd3 (fliplr ai))
    /\ heap st' !! depth' = Some (Nd3 (fliplr ad)).
Proof.
  intros Hi Hd. unfold flip_both.
  run_step. run_step.
  set (l1 := fresh (dom (heap st))).
  set (st1 := {| heap := <[l1 := _]> _; rng := _ |}).
  assert (Hne : depth_gt <> l1) by (by eapply fresh_ne).
  assert (Hd1 : heap st1 !! depth_gt = Some (Nd3 ad)).
  { subst st1. simpl. by rewrite lookup_insert_ne. }
  run_step. run_step. rewrite run_ret.
  set (l2 := fresh (dom (heap st1))).
  assert (Hl2 : heap st1 !! l2 = None) by apply alloc_fresh.
  assert (Hsub : heap st ⊆ heap st1) by apply alloc_extends.
  eexists _, _, _. split; [reflexivity|]. simpl.
  split; [|split; [done|split; [|split]]].
  - etransitivity; [exact Hsub|]. apply (alloc_extends _ st1).
  - destruct (heap st !! l2) eqn:E; [|done].
    eapply lookup_weaken in E; [|exact Hsub]. congruence.
  - rewrite lookup_insert_ne.
    + subst st1. simpl. apply lookup_insert_eq.
    + intros Heq. subst st1. simpl in Hl2. rewrite <- Heq in Hl2.
      by rewrite lookup_insert_eq in Hl2.
  - apply lookup_insert_eq.
Qed.

(** C6. Flipping twice gives arrays equal, element for element, to
    the arrays before the first flip. *)
Theorem flip_both_twice st (image depth_gt : nat) ai ad :
  heap st !! image = Some (Nd3 ai) ->
  heap st !! depth_gt = Some (Nd3 ad) ->
  exists (image1 depth1 image2 depth2 : nat) st1 st2,
    flip_both image depth_gt st = (Ok (image1, depth1), st1)
    /\ flip_both image1 depth1 st1 = (Ok (image2, depth2), st2)
    /\ heap st2 !! image2 = Some (Nd3 ai)
    /\ heap st2 !! depth2 = Some (Nd3 ad).
Proof.
  intros Hi Hd.
  destruct (flip_both_run st image depth_gt ai ad Hi Hd)
    as (image1 & depth1 & st1 & Hrun1 & _ & _ & _ & Hi1 & Hd1).
  destruct (flip_both_run st1 image1 depth1 _ _ Hi1 Hd1)
    as (image2 & depth2 & st2 & Hrun2 & _ & _ & _ & Hi2 & Hd2).
  rewrite fliplr_involutive in Hi2, Hd2.
  by exists image1, depth1, image2, depth2, st1, st2.
Qed.
End Flip.

(** ** The photometric augmentation *)

Section Augment.
Context {G : Type} `{RandomSource G}.
Variable f32_pow : spec_float -> spec_float -> spec_float.
Variable args : Args.
Implicit Types (st : state spec_float G) (a : array3 spec_float).

(** The draws of one call, in the order the call makes them. *)
Definition draw_gamma (g : G) : spec_float * G :=
  gen_uniform (F64.lit 9 10) (F64.lit 11 10) g.

Definition draw_brightness (g : G) : spec_float * G :=
  if String.eqb (dataset args) "nyu"
  then gen_uniform (F64.lit 3 4) (F64.lit 5 4) g
  else gen_uniform (F64.lit 9 10) (F64.lit 11 10) g.

Definition draw_colors (g : G) : list spec_float * G :=
  let '(c0, g) := gen_np_uniform (F64.lit 9 10) (F64.lit 11 10) g in
  let '(c1, g) := gen_np_uniform (F64.lit 9 10) (F64.lit 11 10) g in
  let '(c2, g) := gen_np_uniform (F64.lit 9 10) (F64.lit 11 10) g in
  ([c0; c1; c2], g).

(** The array the call computes from the image and the draws. *)
Definition color_image (h w : nat) (colors : list spec_float) : array3 spec_float :=
  stack_axis2 h w (color_planes (repeat F64.one (h * w)) colors).

Definition augmented (gamma brightness : spec_float) (colors : list spec_float) a
  : array3 spec_float :=
  map3 (np_clip F32.zero F32.one)
    (zip3 (fun u v => f32_of_f64 (F64.mul u v))
       (map3 (fun x => F32.mul x (f32_of_f64 brightness))
          (map3 (fun x => f32_pow x (f32_of_f64 gamma)) a))
       (color_image (shape0 a) (shape1 a) colors)).

Lemma run_uniform (lo hi : spec_float) st :
  random_uniform lo hi st
  = (Ok (fst (gen_uniform lo hi (rng st))),
     {| heap := heap st; rng := snd (gen_uniform lo hi (rng st)) |}).
Proof. apply run_draw. Qed.

Lemma run_brightness st :
  (if String.eqb (dataset args) "nyu"
   then random_uniform (F64.lit 3 4) (F64.lit 5 4)
   else random_uniform (F64.lit 9 10) (F64.lit 11 10)) st
  = (Ok (fst (draw_brightness (rng st))),
     {| heap := heap st; rng := snd (draw_brightness (rng st)) |}).
Proof.
  unfold draw_brightness. destruct (String.eqb _ _); apply run_uniform.
Qed.

Lemma run_colors st :
  np_random_uniform3 (F64.lit 9 10) (F64.lit 11 10) st
  = (Ok (fst (draw_colors (rng st))),
     {| heap := heap st; rng := snd (draw_colors (rng st)) |}).
Proof.
  unfold np_random_uniform3, draw_colors, bind, draw, ret. simpl.
  destruct (gen_np_uniform _ _ (rng st)) as [c0 g0]. simpl.
  destruct (gen_np_uniform _ _ g0) as [c1 g1]. simpl.
  by destruct (gen_np_uniform _ _ g1) as [c2 g2].
Qed.

Lemma draw_colors_length (g : G) : length (fst (draw_colors g)) = 3%nat.
Proof.
  unfold draw_colors.
  destruct (gen_np_uniform _ _ g) as [c0 g0].
  destruct (gen_np_uniform _ _ g0) as [c1 g1].
  by destruct (gen_np_uniform _ _ g1) as [c2 g2].
Qed.

Lemma lookup_alloc_old st (l : nat) (o o' : ndarray spec_float) :
  heap st !! l = Some o ->
  <[fresh (dom (heap st)) := o']> (heap st) !! l = Some o.
Proof.
  intros Hl. rewrite lookup_insert_ne; [done|].
  intros Heq. by apply (fresh_ne st l o).
Qed.

(** Every path of [augment_image], by the object the argument refers
    to: an array of three dimensions and three channels is augmented,
    any other array stops the call at a shape lookup or at the in-place
    product.  No path changes an object that existed before the
    call. *)
Lemma augment_image_run st (image : nat) (o : ndarray spec_float) :
  heap st !! image = Some o ->
  exists (r : result nat) st',
    augment_image f32_pow args image st = (r, st')
    /\ heap st ⊆ heap st'
    /\ match o with
       | Nd3 a =>
           if (shape2 a =? 3)%nat
           then exists l' : nat,
               r = Ok l'
               /\ heap st !! l' = None
               /\ heap st' !! l'
                  = Some (Nd3 (augmented
                                 (fst (draw_gamma (rng st)))
                                 (fst (draw_brightness (snd (draw_gamma (rng st)))))
                                 (fst (draw_colors
                                         (snd (draw_brightness
                                                 (snd (draw_gamma (rng st)))))))
                                 a))
           else r = Raise ValueError
       | NdFlat _ _ => exists e, r = Raise e
       end.
Proof.
  intros Himg. unfold augment_image.
  rewrite run_bind, run_uniform. cbn beta iota. fold (draw_gamma (rng st)).
  set (gamma := fst (draw_gamma (rng st))).
  set (g1 := snd (draw_gamma (rng st))).
  run_step. run_step.
  set (l1 := fresh (dom (heap _))).
  set (h1 := <[l1 := _]> _).
  rewrite run_bind, run_brightness. cbn beta iota. simpl rng.
  set (brightness := fst (draw_brightness g1)).
  set (g2 := snd (draw_brightness g1)).
  assert (Hl1 : h1 !! l1 = Some (nd_map (fun x => f32_pow x (f32_of_f64 gamma)) o))
    by apply lookup_insert_eq.
  run_step. run_step. simpl heap. simpl rng.
  set (l2 := fresh (dom h1)).
  set (h2 := <[l2 := _]> h1).
  rewrite run_bind, run_colors. cbn beta iota. simpl rng. simpl heap.
  set (colors := fst (draw_colors g2)).
  set (g3 := snd (draw_colors g2)).
  assert (Hsub1 : heap st ⊆ h1) by apply (alloc_extends _ st).
  assert (Hsub2 : h1 ⊆ h2)
    by apply (alloc_extends _ {| heap := h1; rng := g2 |}).
  assert (Hsub02 : heap st ⊆ h2) by (by etransitivity).
  assert (Himg2 : h2 !! image = Some o) by (by eapply lookup_weaken).
  assert (Hl2 : h2 !! l2
                = Some (nd_map (fun x => F32.mul x (f32_of_f64 brightness))
                          (nd_map (fun x => f32_pow x (f32_of_f64 gamma)) o)))
    by apply lookup_insert_eq.
  assert (Hnone2 : heap st !! l2 = None).
  { eapply lookup_weaken_None; [|exact Hsub1].
    apply (alloc_fresh {| heap := h1; rng := g2 |}). }
  destruct o as [a|shape flat].
  2:{ (* not three-dimensional: the call raises *)
      rewrite run_bind. unfold shape_at at 1.
      rewrite run_bind, (run_load image {| heap := h2; rng := g3 |} _ Himg2). cbn beta iota. cbn [nd_shape].
      destruct (shape !! 0%nat) as [h|] eqn:Eh;
        [|eexists _, _; split; [reflexivity|]; split; [exact Hsub02|by eexists]].
      rewrite run_ret. cbn beta iota.
      rewrite run_bind. unfold shape_at at 1.
      rewrite run_bind, (run_load image {| heap := h2; rng := g3 |} _ Himg2). cbn beta iota. cbn [nd_shape].
      destruct (shape !! 1%nat) as [w|] eqn:Ew;
        [|eexists _, _; split; [reflexivity|]; split; [exact Hsub02|by eexists]].
      rewrite run_ret. cbn beta iota.
      run_step. simpl heap. simpl rng.
      set (l3 := fresh (dom h2)).
      set (h3 := <[l3 := _]> h2).
      assert (Hsub3 : h2 ⊆ h3)
        by apply (alloc_extends _ {| heap := h2; rng := g3 |}).
      assert (Hl2' : h3 !! l2
                = Some (nd_map (fun x => F32.mul x (f32_of_f64 brightness))
                          (nd_map (fun x => f32_pow x (f32_of_f64 gamma))
                             (NdFlat shape flat))))
        by (eapply lookup_weaken; [exact Hl2|exact Hsub3]).
      rewrite run_bind, (run_load l2 {| heap := h3; rng := g3 |} _ Hl2'). cbn beta iota.
      assert (Hl3 : h3 !! l3 = Some (Nd3 (stack_axis2 h w
                      (color_planes (repeat F64.one (h * w)) colors))))
        by apply lookup_insert_eq.
      run_step. rewrite run_bind. cbn [nd_map].
      assert (Hsub03 : heap st ⊆ h3) by (by etransitivity).
      destruct (length shape <? 3)%nat;
        (eexists _, _; split; [reflexivity|]; split; [exact Hsub03|by eexists]). }
  run_step. run_step.
  run_step. simpl heap. simpl rng.
  set (l3 := fresh (dom h2)).
  set (h3 := <[l3 := _]> h2).
  assert (Hsub3 : h2 ⊆ h3)
    by apply (alloc_extends _ {| heap := h2; rng := g3 |}).
  assert (Hl2' : h3 !! l2
                 = Some (nd_map (fun x => F32.mul x (f32_of_f64 brightness))
                           (nd_map (fun x => f32_pow x (f32_of_f64 gamma)) (Nd3 a))))
    by (eapply lookup_weaken; [exact Hl2|exact Hsub3]).
  rewrite run_bind, (run_load l2 {| heap := h3; rng := g3 |} _ Hl2'). cbn beta iota.
  assert (Hl3 : h3 !! l3 = Some (Nd3 (stack_axis2 (shape0 a) (shape1 a)
                  (color_planes (repeat F64.one (shape0 a * shape1 a)) colors))))
    by apply lookup_insert_eq.
  run_step.
  assert (Hsub03 : heap st ⊆ h3) by (by etransitivity).
  rewrite run_bind. cbn [nd_map shape2 map3 stack_axis2].
  assert (Hplanes : length (color_planes (repeat F64.one (shape0 a * shape1 a)) colors)
                    = 3%nat) by (unfold color_planes; by rewrite length_map).
  rewrite Hplanes.
  destruct (shape2 a =? 3)%nat eqn:Ec.
  2:{ eexists _, _. split; [reflexivity|]. by split. }
  unfold store at 1. cbn beta iota. simpl heap. simpl rng.
  set (h4 := <[l2 := _]> h3).
  assert (Hl4 : h4 !! l2 = Some (Nd3 (zip3 (fun u v => f32_of_f64 (F64.mul u v))
             (map3 (fun x => F32.mul x (f32_of_f64 brightness))
                (map3 (fun x => f32_pow x (f32_of_f64 gamma)) a))
             (stack_axis2 (shape0 a) (shape1 a)
                (color_planes (repeat F64.one (shape0 a * shape1 a)) colors)))))
    by apply lookup_insert_eq.
  rewrite run_bind, (run_load l2 {| heap := h4; rng := g3 |} _ Hl4). cbn beta iota.
  run_step. rewrite run_ret. simpl heap. cbn [nd_map].
  set (l4 := fresh (dom h4)).
  assert (Hsub04 : heap st ⊆ h4) by (by apply insert_subseteq_r).
  assert (Hl4none : h4 !! l4 = None)
    by apply (alloc_fresh {| heap := h4; rng := g3 |}).
  eexists _, _. split; [reflexivity|]. simpl. split.
  { etransitivity; [exact Hsub04|]. by apply insert_subseteq. }
  exists l4. split; [done|]. split.
  - eapply lookup_weaken_None; [exact Hl4none|exact Hsub04].
  - by rewrite lookup_insert_eq.
Qed.
End Augment.

(** *** Elementwise facts *)

Lemma Forall_zip_with_both {A B C : Type} (P : A -> Prop) (Q : B -> Prop)
    (R : C -> Prop) (f : A -> B -> C) (l : list A) (k : list B) :
  (forall x y, P x -> Q y -> R (f x y)) ->
  Forall P l -> Forall Q k -> Forall R (zip_with f l k).
Proof.
  intros Hf Hl. revert k. induction Hl as [|x l Hx _ IH]; intros k Hk; [done|].
  destruct Hk as [|y k Hy Hk]; simpl; [done|]. constructor; auto.
Qed.

Lemma all3_zip3 {A B C : Type} (P : A -> Prop) (Q : B -> Prop) (R : C -> Prop)
    (f : A -> B -> C) (a : array3 A) (b : array3 B) :
  (forall x y, P x -> Q y -> R (f x y)) ->
  all3 P a -> all3 Q b -> all3 R (zip3 f a b).
Proof.
  intros Hf Ha Hb. unfold all3, zip3 in *. simpl.
  eapply Forall_zip_with_both; [|exact Ha|exact Hb].
  intros row1 row2 H1 H2.
  eapply Forall_zip_with_both; [|exact H1|exact H2].
  intros px1 px2 H3 H4.
  by eapply Forall_zip_with_both; [|exact H3|exact H4].
Qed.

Lemma all3_map3 {A B : Type} (P : A -> Prop) (Q : B -> Prop) (f : A -> B)
    (a : array3 A) :
  (forall x, P x -> Q (f x)) -> all3 P a -> all3 Q (map3 f a).
Proof.
  intros Hf Ha. unfold all3, map3 in *. simpl.
  rewrite Forall_map. eapply Forall_impl; [exact Ha|]. intros row Hrow. simpl.
  rewrite Forall_map. eapply Forall_impl; [exact Hrow|]. intros px Hpx. simpl.
  rewrite Forall_map. eapply Forall_impl; [exact Hpx|]. done.
Qed.

Lemma zip3_wf {A B C : Type} (f : A -> B -> C) (a : array3 A) (b : array3 B) :
  wf3 a -> wf3 b -> shape3 a = shape3 b -> wf3 (zip3 f a b).
Proof.
  intros [Hla Hra] [Hlb Hrb] Hs. unfold shape3 in Hs.
  injection Hs as Hs0 Hs1 Hs2. rewrite <- Hs0 in Hlb.
  rewrite <- Hs1, <- Hs2 in Hrb. clear Hs0 Hs1 Hs2.
  split; simpl.
  - rewrite length_zip_with. lia.
  - unfold wf_rows in *. set (w := shape1 a) in *. set (c := shape2 a) in *.
    clearbody w c. clear Hla Hlb. revert Hrb. generalize (data b).
    induction Hra as [|r1 rows1 [Hw1 Hp1] _ IH]; intros rows2 Hrb; [done|].
    destruct Hrb as [|r2 rows2 [Hw2 Hp2] Hrb]; simpl; [done|].
    constructor; [|by apply IH]. split.
    + rewrite length_zip_with. lia.
    + clear Hw1 Hw2. revert r2 Hp2.
      induction Hp1 as [|p1 r1 Hc1 _ IH1]; intros r2 Hp2; [done|].
      destruct Hp2 as [|p2 r2 Hc2 Hp2]; simpl; [done|].
      constructor; [|by apply IH1]. rewrite length_zip_with. lia.
Qed.

Section StackFacts.
Context {A : Type}.

Lemma stack_pixel_length (planes : list (list A)) (n k : nat) :
  Forall (fun pl => length pl = k) planes -> (n < k)%nat ->
  length (flat_map (fun pl => firstn 1 (skipn n pl)) planes) = length planes.
Proof. apply channel_length. Qed.

Lemma stack_axis2_wf (h w : nat) (planes : list (list A)) :
  Forall (fun pl => length pl = (h * w)%nat) planes ->
  wf3 (stack_axis2 h w planes).
Proof.
  intros Hpl. split; simpl; [apply chunks_length|].
  unfold wf_rows.
  assert (Hpx : Forall (fun px : list A => length px = length planes)
            (map (fun n => flat_map (fun pl => firstn 1 (skipn n pl)) planes)
               (seq 0 (h * w)))).
  { rewrite Forall_map, Forall_forall. intros n Hn. apply elem_of_seq in Hn.
    simpl. apply (stack_pixel_length _ _ (h * w)); [done|lia]. }
  pose proof (chunks_each_length h w
                (map (fun n => flat_map (fun pl => firstn 1 (skipn n pl)) planes)
                   (seq 0 (h * w)))) as Hlen.
  rewrite length_map, length_seq in Hlen. specialize (Hlen ltac:(lia)).
  pose proof (chunks_Forall _ h w _ Hpx) as Hall.
  revert Hlen Hall. generalize (chunks h w
    (map (fun n => flat_map (fun pl => firstn 1 (skipn n pl)) planes)
       (seq 0 (h * w)))).
  intros rows Hlen Hall. induction Hlen as [|r rows Hr _ IH]; [done|].
  inversion Hall; subst. constructor; [by split|by apply IH].
Qed.

Lemma stack_axis2_all (P : A -> Prop) (h w : nat) (planes : list (list A)) :
  Forall (Forall P) planes -> all3 P (stack_axis2 h w planes).
Proof.
  intros Hpl. unfold all3, stack_axis2. simpl.
  apply chunks_Forall. rewrite Forall_map, Forall_forall. intros n _. simpl.
  induction Hpl as [|pl planes Hp _ IH]; simpl; [done|].
  apply Forall_app. split; [|done].
  by apply Forall_take, Forall_drop.
Qed.
End StackFacts.

(** *** The float operations of the augmentation *)

Definition finite_nonzero (x : spec_float) : Prop :=
  exists s m e, x = S754_finite s m e.

Lemma finite_nonzero_not_nan (x : spec_float) : finite_nonzero x -> x <> S754_nan.
Proof. by intros (s & m & e & ->). Qed.

(** A valid double in a range within [[0.5, 2)] converts to a finite,
    nonzero float32. *)
Lemma f32_of_f64_finite (lm hm : positive) (x : spec_float) :
  F64.valid x = true ->
  in_range (S754_finite false lm (-53)) (S754_finite false hm (-52)) x = true ->
  finite_nonzero (f32_of_f64 x).
Proof.
  intros Hv Hr.
  destruct (in_range_finite _ _ _ _ _ Hr) as (m & e & -> & He).
  pose proof (f64_valid_digits _ _ _ Hv ltac:(lia)) as Hd.
  destruct (binary_round_finite F32.prec F32.emax false m e) as (q & e' & Hq);
    unfold F32.prec, F32.emax; try lia.
  exists false, q, e'. exact Hq.
Qed.

(** The product of [1.0] and such a double is a finite, nonzero
    double. *)
Lemma f64_one_mul_finite (lm hm : positive) (x : spec_float) :
  F64.valid x = true ->
  in_range (S754_finite false lm (-53)) (S754_finite false hm (-52)) x = true ->
  finite_nonzero (F64.mul F64.one x).
Proof.
  intros Hv Hr.
  destruct (in_range_finite _ _ _ _ _ Hr) as (m & e & -> & He).
  pose proof (f64_valid_digits _ _ _ Hv ltac:(lia)) as Hd.
  unfold F64.mul, F64.one, SFmul. cbn [xorb].
  assert (Hlog : Z.log2 (Zpos m) = 52).
  { change (Zpos (digits2_pos m)) with (Zdigits2 (Zpos m)) in Hd.
    rewrite Zdigits2_log2 in Hd by done. lia. }
  assert (Hmul : Zpos (4503599627370496 * m) = Zpos m * 2 ^ 52) by lia.
  assert (Hlog' : Z.log2 (Zpos (4503599627370496 * m)) = 104).
  { rewrite Hmul, Z.log2_mul_pow2 by lia. lia. }
  destruct (binary_round_aux_finite F64.prec F64.emax false
              (Zpos (4503599627370496 * m)) (-52 + e) loc_Exact)
    as (q & e' & Hq);
    unfold F64.prec, F64.emax; rewrite ?Zdigits2_log2 by done; try lia.
  exists false, q, e'. exact Hq.
Qed.

Lemma f32_of_f64_not_nan (x : spec_float) : x <> S754_nan -> f32_of_f64 x <> S754_nan.
Proof.
  intros Hx. destruct x as [s|s| |s m e]; simpl; try done.
  apply binary_round_not_nan.
Qed.

Lemma SFltb_SFleb (x y : spec_float) : SFltb x y = true -> SFleb x y = true.
Proof. unfold SFltb, SFleb. by destruct (SFcompare x y) as [[]|]. Qed.

Lemma SFcompare_swap (x y : spec_float) :
  SFcompare y x = option_map CompOpp (SFcompare x y).
Proof.
  destruct x as [sx|sx| |sx mx ex], y as [sy|sy| |sy my ey];
    try done; try (by destruct sx, sy); try (by destruct sx); try (by destruct sy).
  simpl. destruct sx, sy; try done.
  - rewrite (Z.compare_antisym ex ey).
    destruct (ex ?= ey) eqn:E; simpl; try done.
    rewrite (Pos.compare_cont_antisym mx my Eq). by destruct (Pos.compare_cont Eq mx my).
  - rewrite (Z.compare_antisym ex ey).
    destruct (ex ?= ey) eqn:E; simpl; try done.
    rewrite (Pos.compare_cont_antisym mx my Eq). by destruct (Pos.compare_cont Eq mx my).
Qed.

(** Between numbers, "not less" is "at least". *)
Lemma SFnot_ltb_leb (x y : spec_float) :
  x <> S754_nan -> y <> S754_nan -> SFltb y x = false -> SFleb x y = true.
Proof.
  intros Hx Hy. unfold SFltb, SFleb. rewrite (SFcompare_swap x y).
  destruct (SFcompare x y) as [[]|] eqn:E; simpl; try done.
  exfalso. destruct x as [sx|sx| |sx mx ex], y as [sy|sy| |sy my ey];
    try done; try (by destruct sx, sy); try (by destruct sx); try (by destruct sy).
Qed.

(** Clipping a number to [[0, 1]] gives a number in [[0, 1]]; only a
    NaN passes through. *)
Lemma np_clip_in_range (x : spec_float) :
  x <> S754_nan -> in_range F32.zero F32.one (np_clip F32.zero F32.one x) = true.
Proof.
  intros Hx. unfold np_clip, in_range. cbn [is_nan F32.zero orb].
  change (is_nan F32.one) with false. cbn iota.
  destruct (SFltb x F32.zero) eqn:Elo.
  - by vm_compute.
  - destruct (SFltb F32.one x) eqn:Ehi; [by vm_compute|].
    rewrite (SFnot_ltb_leb F32.zero x), (SFnot_ltb_leb x F32.one); done.
Qed.

Lemma in_unit_nonneg (x : spec_float) :
  in_range F32.zero F32.one x = true -> SFleb F32.zero x = true.
Proof. unfold in_range. intros H. by apply andb_prop in H as [H _]. Qed.

Section AugmentRange.
Context {G : Type} `{RandomSourceLaws G}.
Variable f32_pow : spec_float -> spec_float -> spec_float.
Variable args : Args.
Implicit Types (st : state spec_float G) (a : array3 spec_float).

(** The C library's [pow] on a base that is not negative: the result
    is a number. *)
Hypothesis f32_pow_nonneg : forall x g : spec_float,
  SFleb F32.zero x = true -> g <> S754_nan -> f32_pow x g <> S754_nan.

Lemma lit_9_10 : F64.lit 9 10 = S754_finite false 8106479329266893 (-53).
Proof. by vm_compute. Qed.
Lemma lit_11_10 : F64.lit 11 10 = S754_finite false 4953959590107546 (-52).
Proof. by vm_compute. Qed.
Lemma lit_3_4 : F64.lit 3 4 = S754_finite false 6755399441055744 (-53).
Proof. by vm_compute. Qed.
Lemma lit_5_4 : F64.lit 5 4 = S754_finite false 5629499534213120 (-52).
Proof. by vm_compute. Qed.

Lemma draw_gamma_not_nan (g : G) : fst (draw_gamma g) <> S754_nan.
Proof.
  unfold draw_gamma.
  destruct (uniform_range (F64.lit 9 10) (F64.lit 11 10) g) as [_ Hr];
    [by vm_compute..|].
  rewrite lit_9_10, lit_11_10 in Hr at 1.
  destruct (in_range_finite _ _ _ _ _ Hr) as (m & e & Hx & _).
  by rewrite Hx.
Qed.

Lemma draw_brightness_finite (g : G) :
  finite_nonzero (f32_of_f64 (fst (draw_brightness args g))).
Proof.
  unfold draw_brightness. destruct (String.eqb _ _).
  - destruct (uniform_range (F64.lit 3 4) (F64.lit 5 4) g) as [Hv Hr];
      [by vm_compute..|].
    rewrite lit_3_4, lit_5_4 in Hr at 1. by eapply f32_of_f64_finite.
  - destruct (uniform_range (F64.lit 9 10) (F64.lit 11 10) g) as [Hv Hr];
      [by vm_compute..|].
    rewrite lit_9_10, lit_11_10 in Hr at 1. by eapply f32_of_f64_finite.
Qed.

Lemma draw_colors_finite (g : G) :
  Forall (fun c => finite_nonzero (F64.mul F64.one c)) (fst (draw_colors g)).
Proof.
  unfold draw_colors.
  destruct (gen_np_uniform _ _ g) as [c0 g0] eqn:E0.
  destruct (gen_np_uniform _ _ g0) as [c1 g1] eqn:E1.
  destruct (gen_np_uniform _ _ g1) as [c2 g2] eqn:E2. simpl.
  pose proof (np_uniform_range (F64.lit 9 10) (F64.lit 11 10) g) as Hc0.
  pose proof (np_uniform_range (F64.lit 9 10) (F64.lit 11 10) g0) as Hc1.
  pose proof (np_uniform_range (F64.lit 9 10) (F64.lit 11 10) g1) as Hc2.
  rewrite E0 in Hc0. rewrite E1 in Hc1. rewrite E2 in Hc2.
  cbn [fst] in Hc0, Hc1, Hc2.
  destruct Hc0 as [Hv0 Hr0]; [by vm_compute..|].
  destruct Hc1 as [Hv1 Hr1]; [by vm_compute..|].
  destruct Hc2 as [Hv2 Hr2]; [by vm_compute..|].
  rewrite lit_9_10, lit_11_10 in Hr0, Hr1, Hr2.
  repeat constructor; by eapply f64_one_mul_finite.
Qed.

Lemma color_image_finite (h w : nat) (colors : list spec_float) :
  Forall (fun c => finite_nonzero (F64.mul F64.one c)) colors ->
  all3 finite_nonzero (color_image h w colors).
Proof.
  intros Hc. unfold color_image. apply stack_axis2_all.
  unfold color_planes. rewrite Forall_map, Forall_forall. intros i _. simpl.
  destruct (colors !! i) as [c|] eqn:Ec; [|done].
  rewrite Forall_map. rewrite Forall_lookup in Hc. specialize (Hc _ _ Ec).
  apply Forall_forall. intros o Ho. apply list_elem_of_In, repeat_spec in Ho.
  by subst o.
Qed.

Lemma color_image_wf (h w : nat) (colors : list spec_float) :
  length colors = 3%nat -> wf3 (color_image h w colors).
Proof.
  intros Hlen. unfold color_image. apply stack_axis2_wf.
  unfold color_planes. rewrite Forall_map, Forall_forall. intros i Hi.
  apply elem_of_seq in Hi. simpl.
  destruct (lookup_lt_is_Some_2 colors i) as [c Hc]; [lia|].
  by rewrite Hc, length_map, repeat_length.
Qed.

Lemma augmented_in_range (gamma brightness : spec_float)
    (colors : list spec_float) a :
  gamma <> S754_nan ->
  finite_nonzero (f32_of_f64 brightness) ->
  Forall (fun c => finite_nonzero (F64.mul F64.one c)) colors ->
  all3 (fun v => in_range F32.zero F32.one v = true) a ->
  all3 (fun v => in_range F32.zero F32.one v = true)
       (augmented f32_pow gamma brightness colors a).
Proof.
  intros Hg (sb & mb & eb & Hb) Hc Ha. unfold augmented.
  apply (all3_map3 (fun v => v <> S754_nan)); [apply np_clip_in_range|].
  apply (all3_zip3 (fun v => v <> S754_nan) finite_nonzero).
  - intros u v Hu (sv & mv & ev & ->).
    apply f32_of_f64_not_nan. by eapply SFmul_not_nan.
  - apply (all3_map3 (fun v => v <> S754_nan)).
    { intros x Hx. by eapply SFmul_not_nan. }
    eapply all3_map3; [|exact Ha].
    intros x Hx. cbv beta. apply f32_pow_nonneg; [by apply in_unit_nonneg|].
    by apply f32_of_f64_not_nan.
  - by apply color_image_finite.
Qed.

Lemma augmented_wf (gamma brightness : spec_float) (colors : list spec_float) a :
  wf3 a -> shape2 a = 3%nat -> length colors = 3%nat ->
  wf3 (augmented f32_pow gamma brightness colors a)
  /\ shape3 (augmented f32_pow gamma brightness colors a) = shape3 a.
Proof.
  intros Hwf Hc Hlen. split; [|done]. unfold augmented.
  apply map3_wf, zip3_wf.
  - by do 2 apply map3_wf.
  - by apply color_image_wf.
  - unfold shape3, color_image, color_planes. simpl. by rewrite Hc.
Qed.

(** C5. On an image with three channels whose values lie in [[0, 1]],
    with gamma, brightness and the three color factors drawn in their
    ranges, [augment_image] returns an array of the shape of the
    image in which every value lies in [[0, 1]]. *)
Theorem augment_image_clipped st (image : nat) a :
  heap st !! image = Some (Nd3 a) ->
  wf3 a -> shape2 a = 3%nat ->
  all3 (fun v => in_range F32.zero F32.one v = true) a ->
  exists (image_aug : nat) st' (out : array3 spec_float),
    augment_image f32_pow args image st = (Ok image_aug, st')
    /\ heap st' !! image_aug = Some (Nd3 out)
    /\ wf3 out
    /\ shape3 out = shape3 a
    /\ all3 (fun v => in_range F32.zero F32.one v = true) out.
Proof.
  intros Himg Hwf Hc Ha.
  destruct (augment_image_run f32_pow args st image _ Himg)
    as (r & st' & Hrun & _ & Hres).
  rewrite Hc in Hres. simpl in Hres.
  destruct Hres as (l' & -> & _ & Hout).
  eexists l', st', _. split; [exact Hrun|]. split; [exact Hout|].
  destruct (augmented_wf (fst (draw_gamma (rng st)))
              (fst (draw_brightness args (snd (draw_gamma (rng st)))))
              (fst (draw_colors (snd (draw_brightness args
                                        (snd (draw_gamma (rng st)))))))
              a Hwf Hc (draw_colors_length _)) as [Hwf' Hshape].
  split; [exact Hwf'|]. split; [exact Hshape|].
  apply augmented_in_range; try done.
  - apply draw_gamma_not_nan.
  - apply draw_brightness_finite.
  - apply draw_colors_finite.
Qed.
End AugmentRange.

Section AugmentFrame.
Context {G : Type} `{RandomSource G}.
Variable f32_pow : spec_float -> spec_float -> spec_float.
Variable args : Args.
Implicit Types (st : state spec_float G).

(** C10. [augment_image] leaves its argument as it was: whatever the
    call does (return or raise), the array the argument refers to is
    afterwards the array it was before, and a returned array is an
    object that did not exist before the call. *)
Theorem augment_image_keeps_argument st (image : nat) (o : ndarray spec_float)
    (r : result nat) st' :
  heap st !! image = Some o ->
  augment_image f32_pow args image st = (r, st') ->
  heap st' !! image = Some o
  /\ (forall image_aug : nat, r = Ok image_aug ->
        heap st !! image_aug = None /\ image_aug <> image).
Proof.
  intros Himg Hrun.
  destruct (augment_image_run f32_pow args st image o Himg)
    as (r0 & st0 & Hrun0 & Hsub & Hres).
  rewrite Hrun in Hrun0. injection Hrun0 as <- <-.
  split; [by eapply lookup_weaken|].
  intros l' ->. destruct o as [a|shape flat]; [|by destruct Hres].
  destruct (shape2 a =? 3)%nat; [|done].
  destruct Hres as (l & Hl & Hnone & _). injection Hl as ->.
  split; [done|]. intros ->. congruence.
Qed.
End AugmentFrame.

(** ** The train augmentation *)

Section TrainPreprocess.
Context {G : Type} `{RandomSource G}.
Variable f32_pow : spec_float -> spec_float -> spec_float.
Variable args : Args.
Implicit Types (st : state spec_float G) (a : array3 spec_float).

(** The augmentation step of [train_preprocess] from any state:
    whether it returns or raises, the arrays that exist stay as they
    are. *)
Lemma augment_step_extends (c : bool) st (image : nat) a :
  heap st !! image = Some (Nd3 a) ->
  exists r st',
    (if c then augment_image f32_pow args image else mret image) st = (r, st')
    /\ heap st ⊆ heap st'
    /\ ((shape2 a = 3%nat \/ c = false) -> exists image', r = Ok image')
    /\ (forall e, r = Raise e -> e = ValueError /\ shape2 a <> 3%nat).
Proof.
  intros Himg. destruct c.
  - destruct (augment_image_run f32_pow args st image _ Himg)
      as (r & st' & Hrun & Hsub & Hres).
    exists r, st'. split; [done|]. split; [done|].
    simpl in Hres. destruct (shape2 a =? 3)%nat eqn:Ec.
    + destruct Hres as (l' & -> & _). split; [by eauto|]. done.
    + subst r. apply Nat.eqb_neq in Ec. split.
      * intros [?|?]; done.
      * intros e [= <-]. done.
  - exists (Ok image), st. rewrite run_ret. split; [done|]. split; [done|].
    split; [by eauto|done].
Qed.

(** The run of [train_preprocess], by its draws. *)
Lemma train_preprocess_run st (image depth_gt : nat) ai ad :
  heap st !! image = Some (Nd3 ai) ->
  heap st !! depth_gt = Some (Nd3 ad) ->
  exists r st',
    train_preprocess f32_pow args image depth_gt st = (r, st')
    /\ heap st' !! depth_gt = Some (Nd3 ad)
    /\ (shape2 ai = 3%nat -> exists image' depth', r = Ok (image', depth'))
    /\ (forall e, r = Raise e -> e = ValueError /\ shape2 ai <> 3%nat)
    /\ (forall image' depth' : nat, r = Ok (image', depth') ->
          if SFltb (F64.lit 1 2) (fst (gen_random (rng st)))
          then heap st' !! depth' = Some (Nd3 (fliplr ad))
          else depth' = depth_gt).
Proof.
  intros Himg Hdepth. unfold train_preprocess.
  rewrite run_bind. unfold random_random. rewrite run_draw. cbn beta iota.
  set (do_flip := fst (gen_random (rng st))).
  set (st1 := {| heap := heap st; rng := snd (gen_random (rng st)) |}).
  rewrite run_bind.
  destruct (SFltb (F64.lit 1 2) do_flip) eqn:Eflip.
  - destruct (flip_both_run st1 image depth_gt ai ad Himg Hdepth)
      as (image1 & depth1 & st2 & Hrun & Hsub & Hrng & Hnew & Hi1 & Hd1).
    rewrite Hrun. cbn beta iota.
    rewrite run_bind, run_draw. cbn beta iota.
    set (st3 := {| heap := heap st2; rng := _ |}).
    rewrite run_bind.
    destruct (augment_step_extends
                (SFltb (F64.lit 1 2) (fst (gen_random (rng st2)))) st3 image1 _ Hi1)
      as (r & st4 & Hrun' & Hsub' & Hok & Hraise).
    rewrite Hrun'.
    assert (Hd4 : heap st4 !! depth1 = Some (Nd3 (fliplr ad)))
      by (eapply lookup_weaken; [exact Hd1|exact Hsub']).
    assert (Hg4 : heap st4 !! depth_gt = Some (Nd3 ad)).
    { eapply lookup_weaken; [|exact Hsub'].
      eapply lookup_weaken; [exact Hdepth|exact Hsub]. }
    destruct r as [image2|e].
    + eexists _, _. rewrite run_ret. split; [reflexivity|].
      split; [done|]. split; [by eauto|]. split; [done|].
      intros image' depth' [= <- <-]. done.
    + eexists _, _. split; [reflexivity|]. split; [done|].
      split; [|split; [|done]].
      * intros Hc. destruct Hok as [? ?]; [by left|done].
      * intros e' [= <-]. by apply Hraise.
  - rewrite run_ret. cbn beta iota.
    rewrite run_bind, run_draw. cbn beta iota.
    set (st3 := {| heap := heap st1; rng := _ |}).
    rewrite run_bind.
    destruct (augment_step_extends
                (SFltb (F64.lit 1 2) (fst (gen_random (rng st1)))) st3 image _ Himg)
      as (r & st4 & Hrun' & Hsub' & Hok & Hraise).
    rewrite Hrun'.
    assert (Hg4 : heap st4 !! depth_gt = Some (Nd3 ad))
      by (eapply lookup_weaken; [exact Hdepth|exact Hsub']).
    destruct r as [image2|e].
    + eexists _, _. rewrite run_ret. split; [reflexivity|].
      split; [done|]. split; [by eauto|]. split; [done|].
      intros image' depth' [= <- <-]. done.
    + eexists _, _. split; [reflexivity|]. split; [done|].
      split; [|split; [|done]].
      * intros Hc. destruct Hok as [? ?]; [by left|done].
      * intros e' [= <-]. by apply Hraise.
Qed.

(** C7. The depth array [train_preprocess] returns is the depth array
    it was given, or its mirror when the flip is drawn; the
    augmentation step changes neither, and the array passed in stays
    as it was.  The call raises only when the augmentation is drawn
    on an image that has not three channels. *)
Theorem train_preprocess_depth st (image depth_gt : nat) ai ad :
  heap st !! image = Some (Nd3 ai) ->
  heap st !! depth_gt = Some (Nd3 ad) ->
  exists r st',
    train_preprocess f32_pow args image depth_gt st = (r, st')
    /\ heap st' !! depth_gt = Some (Nd3 ad)
    /\ (shape2 ai = 3%nat -> exists image' depth', r = Ok (image', depth'))
    /\ (forall e, r = Raise e -> e = ValueError /\ shape2 ai <> 3%nat)
    /\ (forall image' depth' : nat, r = Ok (image', depth') ->
          (if SFltb (F64.lit 1 2) (fst (gen_random (rng st)))
           then heap st' !! depth' = Some (Nd3 (fliplr ad))
           else depth' = depth_gt)
          /\ (heap st' !! depth' = Some (Nd3 ad)
              \/ heap st' !! depth' = Some (Nd3 (fliplr ad)))).
Proof.
  intros Himg Hdepth.
  destruct (train_preprocess_run st image depth_gt ai ad Himg Hdepth)
    as (r & st' & Hrun & Hkept & Hok & Hraise & Hflip).
  exists r, st'. split; [exact Hrun|]. split; [exact Hkept|].
  split; [exact Hok|]. split; [exact Hraise|].
  intros image' depth' Hr. specialize (Hflip image' depth' Hr).
  split; [exact Hflip|].
  destruct (SFltb (F64.lit 1 2) (fst (gen_random (rng st)))).
  - by right.
  - left. by rewrite Hflip.
Qed.
End TrainPreprocess.

(** ** The tensor adapter *)

Section PerChannel.
Context {A : Type}.
Implicit Types (t : array3 A) (ms : list (A * A)).

Lemma per_channel_wf (g : A * A -> A -> A) ms t :
  wf3 t -> shape0 t = length ms -> wf3 (per_channel g ms t).
Proof.
  intros [Hlen Hrows] Hms. split; simpl.
  - rewrite length_zip_with. lia.
  - unfold wf_rows in *. clear Hlen Hms. revert ms.
    induction Hrows as [|ch chs [Hw Hpx] _ IH]; intros ms; [done|].
    destruct ms as [|p ms]; simpl; [done|]. constructor; [|apply IH].
    split; [by rewrite length_map|].
    rewrite Forall_map. eapply Forall_impl; [exact Hpx|].
    intros px Hc. simpl. by rewrite length_map.
Qed.

Lemma per_channel_get (g : A * A -> A -> A) ms t (c i j : nat) p x :
  ms !! c = Some p -> get3 t c i j = Some x ->
  get3 (per_channel g ms t) c i j = Some (g p x).
Proof.
  unfold get3, per_channel. simpl. intros Hp Hx.
  rewrite lookup_zip_with.
  destruct (data t !! c) as [ch|]; simpl in *; [|done].
  rewrite Hp. simpl. rewrite list_lookup_fmap.
  destruct (ch !! i) as [row|]; simpl in *; [|done].
  rewrite list_lookup_fmap. by rewrite Hx.
Qed.
End PerChannel.

Section AdapterRun.
Context {A G : Type}.
Variables (t_sub t_div : A -> A -> A) (of_lit : Z -> Z -> A) (of_int : Z -> A).
Implicit Types (st : state A G) (a : array3 A).

Local Abbreviation to_tensor' := (to_tensor (G := G) of_int).
Local Abbreviation normalize' := (normalize (G := G) t_sub t_div of_lit).
Local Abbreviation means := (combine (mean of_lit) (std of_lit)).

Lemma to_tensor_array3_run st (l : nat) a :
  heap st !! l = Some (Nd3 a) ->
  to_tensor' (ObjArray l) st
  = (Ok (fresh (dom (heap st))),
     {| heap := <[fresh (dom (heap st)) := Nd3 (transpose201 a)]> (heap st);
        rng := rng st |}).
Proof.
  intros Hl. unfold to_tensor, _is_numpy_image.
  rewrite run_bind. rewrite run_bind. rewrite (run_load _ _ _ Hl).
  cbn beta iota. rewrite run_ret. cbn [ndim _is_pil_image].
  change (negb _) with false. cbn iota.
  rewrite run_bind. by rewrite (run_load _ _ _ Hl).
Qed.

Lemma normalize_run st (l : nat) a :
  heap st !! l = Some (Nd3 a) -> shape0 a = 3%nat ->
  normalize' l st
  = (Ok (fresh (dom (heap st))),
     {| heap := <[fresh (dom (heap st))
                  := Nd3 (per_channel (standardize t_sub t_div) means a)]> (heap st);
        rng := rng st |}).
Proof.
  intros Hl Hc. unfold normalize.
  rewrite run_bind, (run_load _ _ _ Hl). by rewrite Hc.
Qed.

(** The run of [ToTensor.__call__] on a sample of three-dimensional
    arrays whose image has three channels. *)
Lemma ToTensor_call_rejects (is_test : bool) st (s : sample) ai :
  heap st !! sample_image s = Some (Nd3 ai) ->
  shape2 ai <> 3%nat ->
  fst (ToTensor_call t_sub t_div of_lit of_int is_test s st) = Raise RuntimeError.
Proof.
  intros Hi Hc. unfold ToTensor_call.
  rewrite run_bind, (to_tensor_array3_run _ _ _ Hi).
  set (l1 := fresh (dom (heap st))).
  set (st1 := {| heap := <[l1 := _]> _; rng := _ |}).
  assert (Hl1 : heap st1 !! l1 = Some (Nd3 (transpose201 ai)))
    by apply lookup_insert_eq.
  rewrite run_bind. unfold normalize. rewrite run_bind, (run_load _ _ _ Hl1).
  cbn beta iota. cbn [transpose201 shape0 mean length].
  apply Nat.eqb_neq in Hc. by rewrite Hc.
Qed.

Lemma ToTensor_call_run (is_test : bool) st (s : sample) ai :
  heap st !! sample_image s = Some (Nd3 ai) ->
  shape2 ai = 3%nat ->
  (is_test = false ->
   exists d ad, sample_depth s = Some d /\ heap st !! d = Some (Nd3 ad)) ->
  exists (s' : sample) st',
    ToTensor_call t_sub t_div of_lit of_int is_test s st = (Ok s', st')
    /\ heap st ⊆ heap st'
    /\ sample_focal s' = sample_focal s
    /\ heap st' !! sample_image s'
       = Some (Nd3 (per_channel (standardize t_sub t_div) means (transpose201 ai)))
    /\ (if is_test then sample_depth s' = None
        else exists d ad dt,
            sample_depth s = Some d /\ heap st !! d = Some (Nd3 ad)
            /\ sample_depth s' = Some dt
            /\ heap st' !! dt = Some (Nd3 (transpose201 ad))).
Proof.
  intros Hi Hc Hd. unfold ToTensor_call.
  rewrite run_bind, (to_tensor_array3_run _ _ _ Hi).
  set (l1 := fresh (dom (heap st))).
  set (st1 := {| heap := <[l1 := _]> _; rng := _ |}).
  assert (Hl1 : heap st1 !! l1 = Some (Nd3 (transpose201 ai)))
    by apply lookup_insert_eq.
  rewrite run_bind, (normalize_run _ _ _ Hl1) by done.
  set (l2 := fresh (dom (heap st1))).
  set (st2 := {| heap := <[l2 := _]> _; rng := _ |}).
  assert (Hsub1 : heap st ⊆ heap st1) by apply alloc_extends.
  assert (Hsub2 : heap st1 ⊆ heap st2) by apply alloc_extends.
  assert (Hl2 : heap st2 !! l2
                = Some (Nd3 (per_channel (standardize t_sub t_div) means
                               (transpose201 ai))))
    by apply lookup_insert_eq.
  cbn beta iota. destruct is_test; cbn [negb]; cbn iota.
  - rewrite run_ret. eexists _, st2. split; [reflexivity|].
    split; [by etransitivity|]. by repeat split.
  - destruct (Hd eq_refl) as (d & ad & Hsd & Hhd). rewrite Hsd.
    rewrite run_bind, run_ret. cbn beta iota.
    assert (Hd2 : heap st2 !! d = Some (Nd3 ad)).
    { eapply lookup_weaken; [exact Hhd|]. by etransitivity. }
    rewrite run_bind, (to_tensor_array3_run _ _ _ Hd2). cbn beta iota.
    rewrite run_ret.
    set (l3 := fresh (dom (heap st2))).
    assert (Hsub3 : heap st2 ⊆ <[l3 := Nd3 (transpose201 ad)]> (heap st2))
      by apply alloc_extends.
    eexists _, _. split; [reflexivity|]. simpl.
    split; [by do 2 (etransitivity; [eassumption|])|].
    split; [done|]. split.
    + eapply lookup_weaken; [exact Hl2|exact Hsub3].
    + exists d, ad, l3. repeat split; try done. apply lookup_insert_eq.
Qed.
End AdapterRun.

Section AdapterProperties.
Context {A G : Type}.
Variables (t_sub t_div : A -> A -> A) (of_lit : Z -> Z -> A) (of_int : Z -> A).
Implicit Types (st : state A G) (a : array3 A).

(** C8. For a train sample whose depth array has shape (H, W, 1), the
    adapter returns as depth the transposed array: shape (1, H, W),
    element [(0, i, j)] the input's element [(i, j, 0)], the same
    values in the same row-major order.  No arithmetic touches it, and
    the input depth array stays as it was. *)
Theorem ToTensor_depth_values st (s : sample) ai (d : nat) ad :
  heap st !! sample_image s = Some (Nd3 ai) ->
  shape2 ai = 3%nat ->
  sample_depth s = Some d ->
  heap st !! d = Some (Nd3 ad) ->
  wf3 ad -> shape2 ad = 1%nat ->
  exists (s' : sample) st' (dt : nat),
    ToTensor_call t_sub t_div of_lit of_int false s st = (Ok s', st')
    /\ sample_depth s' = Some dt
    /\ heap st' !! dt = Some (Nd3 (transpose201 ad))
    /\ shape3 (transpose201 ad) = (1%nat, shape0 ad, shape1 ad)
    /\ ravel (transpose201 ad) = ravel ad
    /\ (forall i j : nat, get3 (transpose201 ad) 0 i j = get3 ad i j 0)
    /\ heap st' !! d = Some (Nd3 ad).
Proof.
  intros Hi Hc Hsd Hd Hwf Hc1.
  destruct (ToTensor_call_run t_sub t_div of_lit of_int false st s ai Hi Hc)
    as (s' & st' & Hrun & Hsub & _ & _ & d' & ad' & dt & Hsd' & Hd' & Hdt & Hout).
  { intros _. by exists d, ad. }
  rewrite Hsd in Hsd'. injection Hsd' as <-.
  rewrite Hd in Hd'. injection Hd' as <-.
  exists s', st', dt. split; [done|]. split; [done|]. split; [done|].
  split; [unfold shape3; simpl; by rewrite Hc1|].
  split; [by apply transpose201_ravel_single|].
  split; [intros i j; by apply transpose201_get|].
  by eapply lookup_weaken.
Qed.


End AdapterProperties.


(** ** Loading a sample *)

Lemma concat_length_uniform {A : Type} (k : nat) (l : list (list A)) :
  Forall (fun x => length x = k) l -> length (concat l) = (length l * k)%nat.
Proof.
  induction 1 as [|x l Hx _ IH]; [done|].
  simpl. rewrite length_app, IH, Hx. done.
Qed.

Lemma ravel_length {A : Type} (a : array3 A) :
  wf3 a -> length (ravel a) = (shape0 a * (shape1 a * shape2 a))%nat.
Proof.
  intros [Hlen Hrows]. unfold ravel. rewrite <- concat_map_concat.
  rewrite (concat_length_uniform (shape1 a * shape2 a)).
  - by rewrite length_map, Hlen.
  - unfold wf_rows in Hrows. rewrite Forall_map.
    eapply Forall_impl; [exact Hrows|]. intros row [Hw Hpx]. simpl.
    by rewrite (concat_length_uniform (shape2 a)), Hw.
Qed.

Lemma all3_slice3 {A : Type} (P : A -> Prop) (y0 y1 x0 x1 : Z) (a : array3 A) :
  all3 P a -> all3 P (slice3 y0 y1 x0 x1 a).
Proof.
  unfold all3, slice3, py_slice. simpl. intros Ha.
  rewrite Forall_map. apply Forall_take, Forall_drop.
  eapply Forall_impl; [exact Ha|]. intros row Hrow. simpl.
  by apply Forall_take, Forall_drop.
Qed.

Lemma all3_fliplr {A : Type} (P : A -> Prop) (a : array3 A) :
  all3 P a -> all3 P (fliplr a).
Proof.
  unfold all3, fliplr. simpl. intros Ha.
  rewrite Forall_map. eapply Forall_impl; [exact Ha|]. intros row Hrow. simpl.
  by apply List.Forall_rev.
Qed.

Lemma pil_array3_wf (p : pil_image) : wf_pil p -> wf3 (pil_array3 p).
Proof.
  intros [Hlen Hrows]. split; simpl.
  - by rewrite length_map.
  - unfold wf_rows in *. rewrite Forall_map.
    eapply Forall_impl; [exact Hrows|]. intros row [Hw Hpx]. simpl. split.
    + by rewrite length_map.
    + rewrite Forall_map. eapply Forall_impl; [exact Hpx|].
      intros px Hc. simpl. by rewrite length_map.
Qed.

Section GetItemTest.
Context {G : Type} `{RandomSource G}.
Variable f32_pow : spec_float -> spec_float -> spec_float.
Variable args : Args.
Implicit Types (st : state spec_float G).

(** The image array of a test sample, from the decoded file. *)
Definition scaled_image (image : pil_image) : array3 spec_float :=
  map3 (fun x => F32.div x (f32_of_f64 (F64.of_Z 255))) (pil_array3 image).

Definition test_image (image : pil_image) : array3 spec_float :=
  if do_kb_crop args
  then
    let top_margin := Z.of_nat (pil_height image) - 352 in
    let left_margin := Z.quot (Z.of_nat (pil_width image) - 1216) 2 in
    slice3 top_margin (top_margin + 352) left_margin (left_margin + 1216)
           (scaled_image image)
  else scaled_image image.

Lemma half_spare (w : nat) :
  (1216 <= w)%nat ->
  0 <= (Z.of_nat w - 1216) / 2 <= Z.of_nat w - 1216.
Proof.
  intros Hw. split; [apply Z.div_pos; lia|].
  apply Z.div_le_upper_bound; lia.
Qed.

Lemma scaled_image_wf (image : pil_image) : wf_pil image -> wf3 (scaled_image image).
Proof. intros Hwf. by apply map3_wf, pil_array3_wf. Qed.

(** The test branch on a file of more than one band. *)
Lemma getitem_test_run_bands st (image : pil_image) (focal : spec_float) :
  getmodebands (pil_mode image) <> 1%nat ->
  exists (s : sample) st',
    getitem_test args image focal st = (Ok s, st')
    /\ heap st ⊆ heap st'
    /\ sample_depth s = None
    /\ sample_focal s = focal
    /\ heap st' !! sample_image s = Some (Nd3 (test_image image)).
Proof.
  intros Hb. unfold getitem_test, test_image, np_asarray_f32.
  rewrite (proj2 (Nat.eqb_neq _ _) Hb).
  cbn [nd_map]. fold (scaled_image image).
  run_step.
  set (l1 := fresh (dom (heap st))).
  set (st1 := {| heap := <[l1 := _]> _; rng := _ |}).
  assert (Hl1 : heap st1 !! l1 = Some (Nd3 (scaled_image image)))
    by apply lookup_insert_eq.
  assert (Hsub1 : heap st ⊆ heap st1) by apply alloc_extends.
  rewrite run_bind. destruct (do_kb_crop args).
  - run_step. run_step. run_step. rewrite run_alloc. rewrite run_ret.
    eexists _, _. split; [reflexivity|]. simpl.
    split; [|split; [done|split; [done|apply lookup_insert_eq]]].
    etransitivity; [exact Hsub1|]. apply (alloc_extends _ st1).
  - rewrite run_ret. cbn beta iota. rewrite run_ret.
    eexists _, _. split; [reflexivity|]. by repeat split.
Qed.

Lemma getitem_test_run st (image : pil_image) (focal : spec_float) :
  getmodebands (pil_mode image) = 3%nat ->
  exists (s : sample) st',
    getitem_test args image focal st = (Ok s, st')
    /\ heap st ⊆ heap st'
    /\ sample_depth s = None
    /\ sample_focal s = focal
    /\ heap st' !! sample_image s = Some (Nd3 (test_image image)).
Proof. intros Hb. apply getitem_test_run_bands. by rewrite Hb. Qed.

Lemma test_image_shape (image : pil_image) :
  (do_kb_crop args = true ->
   (352 <= pil_height image)%nat /\ (1216 <= pil_width image)%nat) ->
  shape3 (test_image image)
  = if do_kb_crop args
    then (352%nat, 1216%nat, getmodebands (pil_mode image))
    else (pil_height image, pil_width image, getmodebands (pil_mode image)).
Proof.
  intros Hsize. unfold test_image. destruct (do_kb_crop args); [|done].
  destruct (Hsize eq_refl) as [Hh Hw].
  unfold shape3, slice3. simpl.
  rewrite Z.quot_div_nonneg by lia.
  pose proof (half_spare (pil_width image) Hw) as Hleft.
  rewrite !slice_len_window by lia. done.
Qed.

Lemma test_image_wf (image : pil_image) : wf_pil image -> wf3 (test_image image).
Proof.
  intros Hwf. unfold test_image. destruct (do_kb_crop args).
  - by apply slice3_wf, scaled_image_wf.
  - by apply scaled_image_wf.
Qed.

(** With the crop, the sample is the bottom 352 rows and the middle
    1216 columns of the image. *)
Lemma test_image_get (image : pil_image) (i j k : nat) :
  wf_pil image -> do_kb_crop args = true ->
  (352 <= pil_height image)%nat -> (1216 <= pil_width image)%nat ->
  (i < 352)%nat -> (j < 1216)%nat ->
  get3 (test_image image) i j k
  = get3 (scaled_image image)
      (pil_height image - 352 + i) ((pil_width image - 1216) / 2 + j) k.
Proof.
  intros Hwf Hkb Hh Hw Hi Hj. unfold test_image. rewrite Hkb.
  rewrite Z.quot_div_nonneg by lia.
  pose proof (half_spare (pil_width image) Hw) as Hleft.
  rewrite slice3_get; try (by apply scaled_image_wf); simpl; try lia.
  f_equal; [lia|].
  rewrite Z2Nat.inj_div by lia. rewrite Z2Nat.inj_sub by lia.
  rewrite !Nat2Z.id. done.
Qed.

(** C3, as the code has it. In test mode the loader does not convert
    the mode of the file: for a decoded image of more than one band,
    the sample's image array has as many channels as the image has
    bands, three for an RGB file; with [do_kb_crop] and a source of at
    least 352 by 1216 it has height 352 and width 1216 and is the
    window whose top margin is the height minus 352 and whose left
    margin is half the spare width; without [do_kb_crop] it has the
    source's height and width.  For three bands the adapter turns it
    into a tensor of three channels with the same height and width;
    for another number of bands the adapter's normalization raises
    [RuntimeError]. *)
Theorem getitem_test_shape st (image depth_gt : pil_image) (focal : spec_float) :
  wf_pil image ->
  getmodebands (pil_mode image) <> 1%nat ->
  String.eqb (mode args) "train" = false ->
  (do_kb_crop args = true ->
   (352 <= pil_height image)%nat /\ (1216 <= pil_width image)%nat) ->
  (exists (s : sample) st' (out : array3 spec_float),
     getitem f32_pow args None image depth_gt focal st = (Ok s, st')
     /\ heap st' !! sample_image s = Some (Nd3 out)
     /\ wf3 out
     /\ shape3 out = (if do_kb_crop args
                      then (352%nat, 1216%nat, getmodebands (pil_mode image))
                      else (pil_height image, pil_width image,
                            getmodebands (pil_mode image)))
     /\ (do_kb_crop args = true ->
         forall i j k : nat, (i < 352)%nat -> (j < 1216)%nat ->
           get3 out i j k
           = get3 (scaled_image image)
               (pil_height image - 352 + i)
               ((pil_width image - 1216) / 2 + j) k))
  /\ (getmodebands (pil_mode image) = 3%nat ->
      exists (s : sample) st' (t : array3 spec_float),
        getitem f32_pow args (Some (preprocessing_transforms true))
                image depth_gt focal st = (Ok s, st')
        /\ heap st' !! sample_image s = Some (Nd3 t)
        /\ shape3 t = (if do_kb_crop args
                       then (3%nat, 352%nat, 1216%nat)
                       else (3%nat, pil_height image, pil_width image)))
  /\ (getmodebands (pil_mode image) <> 3%nat ->
      fst (getitem f32_pow args (Some (preprocessing_transforms true))
             image depth_gt focal st) = Raise RuntimeError).
Proof.
  intros Hwf Hb Hmode Hsize.
  destruct (getitem_test_run_bands st image focal Hb)
    as (s & st' & Hrun & Hsub & Hnone & Hfocal & Hout).
  pose proof (test_image_shape image Hsize) as Hshape.
  split; [|split].
  - exists s, st', (test_image image). unfold getitem.
    rewrite run_bind, Hmode, Hrun, run_ret.
    split; [done|]. split; [done|]. split; [by apply test_image_wf|].
    split; [done|].
    intros Hkb i j k Hi Hj. destruct (Hsize Hkb) as [Hh Hw].
    by apply test_image_get.
  - intros Hb3. rewrite Hb3 in Hshape.
    unfold getitem. rewrite run_bind, Hmode, Hrun.
    destruct (ToTensor_call_run F32.sub F32.div
                (fun n d => f32_of_f64 (F64.lit n d)) F32.of_Z true st' s
                (test_image image) Hout) as (s2 & st2 & Hrun2 & _ & _ & Ht & _).
    { unfold shape3 in Hshape. by destruct (do_kb_crop args); injection Hshape. }
    { done. }
    eexists s2, st2, _. split; [exact Hrun2|]. split; [exact Ht|].
    unfold shape3 in *. simpl.
    by destruct (do_kb_crop args); injection Hshape as -> -> ->.
  - intros Hb3. unfold getitem. rewrite run_bind, Hmode, Hrun.
    apply (ToTensor_call_rejects F32.sub F32.div
             (fun n d => f32_of_f64 (F64.lit n d)) F32.of_Z true st' s
             (test_image image) Hout).
    unfold shape3 in Hshape.
    destruct (do_kb_crop args); injection Hshape as _ _ ->; exact Hb3.
Qed.
End GetItemTest.

Section GetItemTrain.
Context {G : Type} `{RandomSourceLaws G}.
Variable f32_pow : spec_float -> spec_float -> spec_float.
Variable args : Args.
Implicit Types (st : state spec_float G).

(** The decoded depth values: [np.asarray(depth_gt, dtype=np.float32)]
    in row-major order. *)
Definition raw_depth (depth_gt : pil_image) : list spec_float :=
  ravel (pil_array3 depth_gt).

(** The depth array in physical units, before the random crop. *)
Definition scaled_depth (depth_gt : pil_image) : array3 spec_float :=
  map3 (fun x => F32.div x (depth_divisor args))
       (reshape3 (pil_height depth_gt) (pil_width depth_gt) 1 (raw_depth depth_gt)).

Lemma raw_depth_length (depth_gt : pil_image) :
  wf_pil depth_gt -> getmodebands (pil_mode depth_gt) = 1%nat ->
  length (raw_depth depth_gt)
  = (pil_height depth_gt * (pil_width depth_gt * 1))%nat.
Proof.
  intros Hwf Hb. unfold raw_depth.
  rewrite ravel_length by (by apply pil_array3_wf). simpl. by rewrite Hb.
Qed.

Lemma scaled_depth_wf (depth_gt : pil_image) :
  wf_pil depth_gt -> getmodebands (pil_mode depth_gt) = 1%nat ->
  wf3 (scaled_depth depth_gt).
Proof.
  intros Hwf Hb. apply map3_wf, reshape3_wf. by apply raw_depth_length.
Qed.

(** An emitted depth value: a decoded value divided by the divisor. *)
Definition scaled_from (depth_gt : pil_image) (v' : spec_float) : Prop :=
  exists v, In v (raw_depth depth_gt) /\ v' = F32.div v (depth_divisor args).

Lemma scaled_depth_all (depth_gt : pil_image) :
  wf_pil depth_gt -> getmodebands (pil_mode depth_gt) = 1%nat ->
  all3 (scaled_from depth_gt) (scaled_depth depth_gt).
Proof.
  intros Hwf Hb. apply all3_ravel. unfold scaled_depth.
  rewrite map3_ravel, reshape3_ravel by (by apply raw_depth_length).
  rewrite Forall_map, Forall_forall. intros v Hv. simpl.
  exists v. split; [by apply list_elem_of_In|done].
Qed.

Lemma getitem_train_run st (image depth_gt : pil_image) (focal : spec_float) :
  wf_pil image -> getmodebands (pil_mode image) = 3%nat ->
  wf_pil depth_gt -> getmodebands (pil_mode depth_gt) = 1%nat ->
  pil_height image = pil_height depth_gt ->
  pil_width image = pil_width depth_gt ->
  (input_height args <= pil_height image)%nat ->
  (input_width args <= pil_width image)%nat ->
  exists (s : sample) st' (x y : Z) (d : nat),
    getitem_train f32_pow args image depth_gt focal st = (Ok s, st')
    /\ sample_depth s = Some d
    /\ sample_focal s = focal
    /\ 0 <= x <= Z.of_nat (pil_width image) - Z.of_nat (input_width args)
    /\ 0 <= y <= Z.of_nat (pil_height image) - Z.of_nat (input_height args)
    /\ (heap st' !! d
        = Some (Nd3 (window x y (input_height args) (input_width args)
                       (scaled_depth depth_gt)))
        \/ heap st' !! d
           = Some (Nd3 (fliplr (window x y (input_height args) (input_width args)
                                  (scaled_depth depth_gt))))).
Proof.
  intros Hwfi Hbi Hwfd Hbd Hh Hw Hih Hiw.
  unfold getitem_train, np_asarray_f32. rewrite Hbi, Hbd.
  cbn [Nat.eqb nd_map]. fold (scaled_image image). fold (raw_depth depth_gt).
  run_step.
  set (l1 := fresh (dom (heap st))).
  set (st1 := {| heap := <[l1 := _]> _; rng := _ |}).
  assert (Hl1 : heap st1 !! l1 = Some (Nd3 (scaled_image image)))
    by apply lookup_insert_eq.
  run_step.
  set (l2 := fresh (dom (heap st1))).
  set (st2 := {| heap := <[l2 := _]> _; rng := _ |}).
  assert (Hl2 : heap st2 !! l2
                = Some (NdFlat [pil_height depth_gt; pil_width depth_gt]
                          (raw_depth depth_gt))) by apply lookup_insert_eq.
  rewrite run_bind, (run_load _ _ _ Hl2). cbn beta iota.
  rewrite run_bind. cbn [expand_dims2 lift]. rewrite run_ret. cbn beta iota.
  run_step.
  set (l3 := fresh (dom (heap st2))).
  set (st3 := {| heap := <[l3 := _]> _; rng := _ |}).
  assert (Hl3 : heap st3 !! l3
                = Some (Nd3 (reshape3 (pil_height depth_gt) (pil_width depth_gt) 1
                               (raw_depth depth_gt)))) by apply lookup_insert_eq.
  rewrite run_bind, (run_load _ _ _ Hl3). cbn beta iota.
  run_step. cbn [nd_map]. fold (scaled_depth depth_gt).
  set (l4 := fresh (dom (heap st3))).
  set (st4 := {| heap := <[l4 := _]> _; rng := _ |}).
  assert (Hl4 : heap st4 !! l4 = Some (Nd3 (scaled_depth depth_gt)))
    by apply lookup_insert_eq.
  assert (Hl1' : heap st4 !! l1 = Some (Nd3 (scaled_image image))).
  { assert (Hs12 : heap st1 ⊆ heap st2) by apply alloc_extends.
    assert (Hs23 : heap st2 ⊆ heap st3) by apply alloc_extends.
    assert (Hs34 : heap st3 ⊆ heap st4) by apply alloc_extends.
    eapply lookup_weaken; [exact Hl1|].
    by do 2 (etransitivity; [eassumption|]). }
  destruct (random_crop_run st4 l1 l4 _ _ (input_height args) (input_width args)
              Hl1' Hl4)
    as (x & y & img' & depth' & st5 & Hrun & Hx & Hy & Hi' & Hd');
    try done.
  rewrite run_bind, Hrun. cbn beta iota.
  destruct (train_preprocess_run f32_pow args st5 img' depth' _ _ Hi' Hd')
    as (r & st6 & Hrun' & Hkept & Hok & _ & Hres).
  rewrite run_bind, Hrun'.
  destruct Hok as (image2 & depth2 & ->).
  { exact Hbi. }
  cbn beta iota. rewrite run_ret.
  assert (Hcases :
    heap st6 !! depth2
    = Some (Nd3 (window x y (input_height args) (input_width args)
                   (scaled_depth depth_gt)))
    \/ heap st6 !! depth2
       = Some (Nd3 (fliplr (window x y (input_height args) (input_width args)
                              (scaled_depth depth_gt))))).
  { specialize (Hres image2 depth2 eq_refl).
    destruct (SFltb (F64.lit 1 2) (fst (gen_random (rng st5)))).
    - by right.
    - left. by rewrite Hres. }
  exists {| sample_image := image2; sample_depth := Some depth2;
            sample_focal := focal |}, st6, x, y, depth2.
  simpl in Hx, Hy.
  split; [done|]. split; [done|]. split; [done|].
  split; [exact Hx|]. split; [exact Hy|]. exact Hcases.
Qed.
End GetItemTrain.

(** ** Round-off of the standardization

    Floating-point arithmetic in the standard model: every operation is
    the exact operation followed by a rounding [rnd] whose error is at
    most the relative error [u] (the unit round-off, [2^-24] for
    float32) plus the absolute error [eta] (underflow), as long as
    nothing overflows. *)

Lemma Rabs_bound (x b : R) : (Rabs x <= b -> - b <= x <= b)%R.
Proof.
  intros Hx. pose proof (Rle_abs x). pose proof (Rle_abs (- x)) as Hn.
  rewrite Rabs_Ropp in Hn. lra.
Qed.

Section RoundOff.
Context {G : Type}.
Variables (rnd : R -> R) (u eta : R).
Local Open Scope R_scope.

Hypothesis u_small : 0 <= u <= 1 / 1000.
Hypothesis eta_small : 0 <= eta <= 1 / 1000.
Hypothesis rnd_error : forall x : R,
  Rabs x <= 16 -> Rabs (rnd x - x) <= u * Rabs x + eta.

Definition r_sub (x y : R) : R := rnd (x - y).
Definition r_div (x y : R) : R := rnd (x / y).
Definition r_lit (n d : Z) : R := rnd (IZR n / IZR d).
Definition r_int (n : Z) : R := rnd (IZR n).

(** The inverse map the specification names, [image*std+mean], per
    channel. *)
Definition destandardize (ms : R * R) (y : R) : R :=
  rnd (rnd (y * snd ms) + fst ms).

Definition denormalize (t : array3 R) : array3 R :=
  per_channel destandardize (combine (mean r_lit) (std r_lit)) t.

Lemma rnd_bound (x b : R) :
  0 <= b <= 16 -> - b <= x <= b ->
  - (u * b + eta) <= rnd x - x <= u * b + eta.
Proof.
  intros Hb Hx.
  assert (Hax : Rabs x <= b) by (apply Rabs_le; lra).
  assert (He : Rabs (rnd x - x) <= u * b + eta).
  { eapply Rle_trans; [apply rnd_error; lra|].
    apply Rplus_le_compat_r, Rmult_le_compat_l; lra. }
  apply Rabs_bound in He. lra.
Qed.

(** Standardizing and destandardizing one value: four rounded
    operations, each contributing about one unit round-off. *)
Lemma roundtrip_error (x m s : R) :
  0 <= x <= 1 -> 0 <= m <= 1 / 2 -> 1 / 5 <= s <= 1 / 4 ->
  Rabs (destandardize (m, s) (standardize r_sub r_div (m, s) x) - x)
  <= 6 * u + 4 * eta.
Proof.
  intros Hx Hm Hs. unfold destandardize, standardize, r_sub, r_div.
  cbn [fst snd].
  pose proof (rnd_bound (x - m) 1 ltac:(lra) ltac:(lra)) as H1.
  generalize dependent (rnd (x - m)). intros a H1.
  assert (Hinv : 4 <= / s <= 5).
  { split.
    - apply Rmult_le_reg_l with s; [lra|]. rewrite Rinv_r by lra. lra.
    - apply Rmult_le_reg_l with s; [lra|]. rewrite Rinv_r by lra. lra. }
  assert (Hsi : s * / s = 1) by (apply Rinv_r; lra).
  unfold Rdiv at 1.
  generalize dependent (/ s). intros si Hinv Hsi.
  assert (Ha : -1002/1000 <= a <= 1002/1000) by nra.
  assert (Hd2 : - (5010/1000) <= a * si <= 5010/1000) by nra.
  pose proof (rnd_bound (a * si) (5010/1000) ltac:(lra) Hd2) as H2.
  generalize dependent (rnd (a * si)). intros b H2.
  assert (Hb : -5020/1000 <= b <= 5020/1000) by nra.
  assert (Hd3 : - (13/10) <= b * s <= 13/10) by nra.
  pose proof (rnd_bound (b * s) (13/10) ltac:(lra) Hd3) as H3.
  generalize dependent (rnd (b * s)). intros c H3.
  assert (Hc : -131/100 <= c <= 131/100) by nra.
  pose proof (rnd_bound (c + m) 2 ltac:(lra) ltac:(lra)) as H4.
  generalize dependent (rnd (c + m)). intros d H4.
  assert (Hbs : - ((u * (5010/1000) + eta) / 4) <= b * s - a
                <= (u * (5010/1000) + eta) / 4).
  { replace (b * s - a) with (s * (b - a * si)).
    - nra.
    - rewrite Rmult_minus_distr_l.
      replace (s * (a * si)) with (a * (s * si)) by ring. rewrite Hsi. ring. }
  apply Rabs_le. lra.
Qed.

(** The rounded means and deviations stay in the ranges the bound
    uses. *)
Lemma means_in_range (c : nat) (p : R * R) :
  combine (mean r_lit) (std r_lit) !! c = Some p ->
  0 <= fst p <= 1 / 2 /\ 1 / 5 <= snd p <= 1 / 4.
Proof.
  unfold mean, std, r_lit. intros Hp.
  destruct c as [|[|[|c]]]; simpl in Hp; try done; injection Hp as <-;
    cbn [fst snd].
  - pose proof (rnd_bound (485 / 1000) 1 ltac:(lra) ltac:(lra)).
    pose proof (rnd_bound (229 / 1000) 1 ltac:(lra) ltac:(lra)). lra.
  - pose proof (rnd_bound (456 / 1000) 1 ltac:(lra) ltac:(lra)).
    pose proof (rnd_bound (224 / 1000) 1 ltac:(lra) ltac:(lra)). lra.
  - pose proof (rnd_bound (406 / 1000) 1 ltac:(lra) ltac:(lra)).
    pose proof (rnd_bound (225 / 1000) 1 ltac:(lra) ltac:(lra)). lra.
Qed.

(** C4. For an H by W by 3 image with values in [[0, 1]], the adapter
    returns the 3 by H by W tensor of the standardized values, and
    applying [image*std+mean] to that tensor gives back every value
    of the image up to the round-off of the four operations: at most
    six unit round-offs (plus four underflow units). *)
Theorem standardize_roundtrip (is_test : bool) (st : state R G) (s : sample)
    (ai : array3 R) :
  heap st !! sample_image s = Some (Nd3 ai) ->
  wf3 ai -> shape2 ai = 3%nat ->
  all3 (fun x => 0 <= x <= 1) ai ->
  (is_test = false ->
   exists d ad, sample_depth s = Some d /\ heap st !! d = Some (Nd3 ad)) ->
  exists (s' : sample) (st' : state R G) (t : array3 R),
    ToTensor_call r_sub r_div r_lit r_int is_test s st = (Ok s', st')
    /\ heap st' !! sample_image s' = Some (Nd3 t)
    /\ shape3 t = (3%nat, shape0 ai, shape1 ai)
    /\ (forall (i j c : nat) (x : R),
          get3 ai i j c = Some x ->
          exists y : R,
            get3 (denormalize t) c i j = Some y
            /\ Rabs (y - x) <= 6 * u + 4 * eta).
Proof.
  intros Himg Hwf Hc Hunit Hdepth.
  destruct (ToTensor_call_run r_sub r_div r_lit r_int is_test st s ai
              Himg Hc Hdepth) as (s' & st' & Hrun & _ & _ & Ht & _).
  eexists s', st', _. split; [exact Hrun|]. split; [exact Ht|].
  split; [unfold shape3; simpl; by rewrite Hc|].
  intros i j c x Hx.
  destruct (get3_ext_shape _ _ _ _ _ Hwf Hx) as (_ & _ & Hlt).
  rewrite Hc in Hlt.
  destruct (lookup_lt_is_Some_2 (combine (mean r_lit) (std r_lit)) c)
    as [p Hp]; [simpl; lia|].
  assert (Hxt : get3 (transpose201 ai) c i j = Some x)
    by (by rewrite transpose201_get).
  eexists. split.
  - unfold denormalize. eapply per_channel_get; [exact Hp|].
    eapply per_channel_get; [exact Hp|exact Hxt].
  - destruct (means_in_range c p Hp) as [Hm Hs].
    destruct p as [m sd]. apply roundtrip_error; [|exact Hm|exact Hs].
    exact (all3_get _ _ _ _ _ _ Hunit Hx).
Qed.
End RoundOff.

(** ** The list of samples *)

Section IndexFacts.
Context {A : Type}.
Implicit Types (l : list A).

Lemma py_index_spec l (i : Z) :
  match py_index l i with
  | Ok x =>
      - Z.of_nat (length l) <= i < Z.of_nat (length l)
      /\ l !! Z.to_nat (if i <? 0 then i + Z.of_nat (length l) else i) = Some x
  | Raise e =>
      e = IndexError /\ ~ (- Z.of_nat (length l) <= i < Z.of_nat (length l))
  end.
Proof.
  unfold py_index.
  destruct (i <? 0) eqn:Ei; [apply Z.ltb_lt in Ei|apply Z.ltb_ge in Ei].
  - destruct (i + Z.of_nat (length l) <? 0) eqn:Ej;
      [apply Z.ltb_lt in Ej|apply Z.ltb_ge in Ej]; [split; [done|lia]|].
    destruct (l !! Z.to_nat (i + Z.of_nat (length l))) as [x|] eqn:El.
    + split; [lia|done].
    + apply lookup_ge_None in El. lia.
  - destruct (i <? 0) eqn:Ej; [apply Z.ltb_lt in Ej; lia|].
    destruct (l !! Z.to_nat i) as [x|] eqn:El.
    + apply lookup_lt_Some in El. split; [lia|done].
    + apply lookup_ge_None in El. split; [done|lia].
Qed.

Lemma py_index_nat l (i : nat) x : l !! i = Some x -> py_index l (Z.of_nat i) = Ok x.
Proof.
  intros Hx. unfold py_index.
  destruct (Z.of_nat i <? 0) eqn:E; [apply Z.ltb_lt in E; lia|].
  rewrite E, Nat2Z.id. by rewrite Hx.
Qed.

Lemma py_index_first l x : l !! 0%nat = Some x -> py_index l 0 = Ok x.
Proof. apply (py_index_nat l 0). Qed.

Lemma py_index_second l x : l !! 1%nat = Some x -> py_index l 1 = Ok x.
Proof. apply (py_index_nat l 1). Qed.

Lemma py_index_last l x : last l = Some x -> py_index l (-1) = Ok x.
Proof.
  intros Hx. unfold py_index. simpl.
  rewrite last_lookup in Hx.
  assert (Hlen : (0 < length l)%nat).
  { destruct l; simpl in *; [done|lia]. }
  destruct (-1 + Z.of_nat (length l) <? 0) eqn:E; [apply Z.ltb_lt in E; lia|].
  replace (Z.to_nat (-1 + Z.of_nat (length l))) with (Nat.pred (length l)) by lia.
  by rewrite Hx.
Qed.
End IndexFacts.

(** Fields and white space. *)

Fixpoint no_space (s : string) : bool :=
  match s with
  | EmptyString => true
  | String c s' => negb (py_isspace c) && no_space s'
  end.

Fixpoint all_space (s : string) : bool :=
  match s with
  | EmptyString => true
  | String c s' => py_isspace c && all_space s'
  end.

(** A field of a line: not empty and free of white space. *)
Definition is_field (s : string) : Prop := s <> EmptyString /\ no_space s = true.

(** [" ".join(fs)] *)
Fixpoint join_fields (fs : list string) : string :=
  match fs with
  | [] => EmptyString
  | f :: fs' =>
      match fs' with
      | [] => f
      | _ :: _ => f +:+ " " +:+ join_fields fs'
      end
  end.

Lemma append_cons (c : Ascii.ascii) (s t : string) :
  String c s +:+ t = String c (s +:+ t).
Proof. reflexivity. Qed.

Lemma append_nil (t : string) : EmptyString +:+ t = t.
Proof. reflexivity. Qed.

Lemma append_assoc (s t u : string) : (s +:+ t) +:+ u = s +:+ (t +:+ u).
Proof.
  induction s as [|c s IH]; [done|]. rewrite !append_cons. by f_equal.
Qed.

Lemma append_empty_r (s : string) : s +:+ EmptyString = s.
Proof. induction s as [|c s IH]; [done|]. rewrite append_cons. by f_equal. Qed.

Lemma split_ws_word (word f s : string) :
  no_space f = true -> split_ws word (f +:+ s) = split_ws (word +:+ f) s.
Proof.
  revert word. induction f as [|c f IH]; intros word Hf.
  - by rewrite append_nil, append_empty_r.
  - simpl in Hf. apply andb_true_iff in Hf as [Hc Hf].
    apply negb_true_iff in Hc. rewrite append_cons. simpl.
    rewrite Hc, IH by done. by rewrite append_assoc.
Qed.

Lemma split_ws_tail (word tail : string) :
  all_space tail = true ->
  split_ws word tail = match word with EmptyString => [] | _ => [word] end.
Proof.
  revert word. induction tail as [|c tail IH]; intros word Ht; simpl; [done|].
  simpl in Ht. apply andb_true_iff in Ht as [Hc Ht]. rewrite Hc.
  destruct word; rewrite IH by done; done.
Qed.

(** [split] undoes [join]: a line of fields separated by single
    spaces, with any white space after them, splits into its fields. *)
Lemma py_split_join (fs : list string) (tail : string) :
  Forall is_field fs -> all_space tail = true ->
  py_split (join_fields fs +:+ tail) = fs.
Proof.
  intros Hfs Ht. unfold py_split.
  induction Hfs as [|f fs [Hne Hf] Hfs IH]; simpl.
  - by rewrite append_nil, split_ws_tail.
  - destruct fs as [|f2 fs].
    + rewrite split_ws_word by done. rewrite append_nil.
      rewrite split_ws_tail by done. by destruct f.
    + rewrite append_assoc, split_ws_word by done. rewrite append_nil.
      rewrite append_assoc, append_cons, append_nil.
      cbn [split_ws].
      destruct (py_isspace _) eqn:Esp; [|by vm_compute in Esp].
      destruct f; [done|]. f_equal. exact IH.
Qed.

(** A line of white space has no field. *)
Lemma py_split_blank (s : string) : all_space s = true -> py_split s = [].
Proof. intros Hs. unfold py_split. by rewrite split_ws_tail. Qed.

Lemma no_space_snoc (word : string) (c : Ascii.ascii) :
  no_space word = true -> py_isspace c = false ->
  no_space (word +:+ String c EmptyString) = true.
Proof.
  intros Hw Hc. induction word as [|d word IH].
  - rewrite append_nil. simpl. by rewrite Hc.
  - rewrite append_cons. simpl in *. apply andb_true_iff in Hw as [Hd Hw].
    rewrite Hd. by apply IH.
Qed.

(** Every string [split] returns is a field. *)
Lemma split_ws_fields (word s : string) :
  no_space word = true -> Forall is_field (split_ws word s).
Proof.
  revert word. induction s as [|c s IH]; intros word Hw; simpl.
  - destruct word; [done|]. by repeat constructor.
  - destruct (py_isspace c) eqn:Ec.
    + destruct word; [by apply IH|].
      constructor; [done|by apply IH].
    + by apply IH, no_space_snoc.
Qed.

Lemma prefix_append (a b : string) : String.prefix a (a +:+ b) = true.
Proof.
  induction a as [|c a IH]; [by destruct b|]. rewrite append_cons. simpl.
  destruct (Ascii.ascii_dec c c); [done|congruence].
Qed.

(** A name behind ["./"] never replaces the directory it is joined
    to, whatever it starts with. *)
Lemma posix_join_dot (a name : string) :
  posix_join a ("./" +:+ name)
  = a +:+ (if String.eqb a "" || endswith_sep a then "" else "/")
      +:+ "./" +:+ name.
Proof.
  unfold posix_join. rewrite !append_cons, append_nil. simpl String.prefix.
  destruct (String.eqb a "" || endswith_sep a); [by rewrite append_nil|].
  by rewrite !append_cons, append_nil.
Qed.

Lemma py_index_mod {A : Type} (l : list A) (i : Z) x :
  - Z.of_nat (length l) <= i < Z.of_nat (length l) ->
  l !! Z.to_nat (i mod Z.of_nat (length l)) = Some x ->
  py_index l i = Ok x.
Proof.
  intros Hi Hx. pose proof (py_index_spec l i) as Hspec.
  destruct (py_index l i) as [y|e]; [|by destruct Hspec].
  destruct Hspec as [_ Hy].
  replace (if i <? 0 then i + Z.of_nat (length l) else i)
    with (i mod Z.of_nat (length l)) in Hy; [congruence|].
  destruct (i <? 0) eqn:Ei; [apply Z.ltb_lt in Ei|apply Z.ltb_ge in Ei].
  - symmetry. apply Z.mod_unique with (q := -1); lia.
  - apply Z.mod_small. lia.
Qed.

Lemma py_index_in_range {A : Type} (l : list A) (i : Z) x :
  py_index l i = Ok x ->
  - Z.of_nat (length l) <= i < Z.of_nat (length l)
  /\ l !! Z.to_nat (i mod Z.of_nat (length l)) = Some x.
Proof.
  intros Hx. pose proof (py_index_spec l i) as Hspec. rewrite Hx in Hspec.
  destruct Hspec as [Hi Hy]. split; [done|].
  replace (i mod Z.of_nat (length l))
    with (if i <? 0 then i + Z.of_nat (length l) else i); [done|].
  destruct (i <? 0) eqn:Ei; [apply Z.ltb_lt in Ei|apply Z.ltb_ge in Ei].
  - apply Z.mod_unique with (q := -1); lia.
  - symmetry. apply Z.mod_small. lia.
Qed.

Lemma py_index_raises {A : Type} (l : list A) (i : Z) e :
  py_index l i = Raise e -> e = IndexError.
Proof.
  intros He. pose proof (py_index_spec l i) as Hspec. rewrite He in Hspec.
  by destruct Hspec.
Qed.

Lemma py_index_last_inv {A : Type} (l : list A) x :
  py_index l (-1) = Ok x -> last l = Some x.
Proof.
  intros Hx. pose proof (py_index_spec l (-1)) as Hspec. rewrite Hx in Hspec.
  destruct Hspec as [Hi Hy]. simpl in Hy. rewrite last_lookup.
  by replace (Nat.pred (length l)) with (Z.to_nat (-1 + Z.of_nat (length l))) by lia.
Qed.

Section SampleListProperties.
Variable py_float : string -> option spec_float.
Variable args : Args.
Variables (data_path gt_path : string).

Local Abbreviation getitem_files' := (getitem_files py_float args data_path gt_path).

(** The path of a file named in a line, under a directory. *)
Definition dir_file (dir name : string) : string :=
  dir +:+ (if String.eqb dir "" || endswith_sep dir then "" else "/")
      +:+ "./" +:+ name.

(** X1. A line of fields separated by single spaces and ended by white
    space (the newline) is read back field by field: the image is the
    first field, the focal length the last, and in train mode the
    depth file the second; each file name is put under its directory
    behind ["./"]. *)
Theorem getitem_files_fields (filenames : list string) (idx : Z)
    (fs : list string) (tail image depth focal_text : string) (focal : spec_float) :
  - Z.of_nat (length filenames) <= idx < Z.of_nat (length filenames) ->
  filenames !! Z.to_nat (idx mod Z.of_nat (length filenames))
  = Some (join_fields fs +:+ tail) ->
  Forall is_field fs -> all_space tail = true ->
  fs !! 0%nat = Some image ->
  (String.eqb (mode args) "train" = true -> fs !! 1%nat = Some depth) ->
  last fs = Some focal_text ->
  py_float focal_text = Some focal ->
  getitem_files' filenames idx
  = Ok {| file_focal := focal;
          file_image := dir_file data_path image;
          file_depth := if String.eqb (mode args) "train"
                        then Some (dir_file gt_path depth) else None |}.
Proof.
  intros Hidx Hline Hfs Htail Himage Hdepth Hlast Hfloat.
  unfold getitem_files. rewrite (py_index_mod _ _ _ Hidx Hline). cbn [and_then].
  rewrite py_split_join by done.
  rewrite (py_index_last _ _ Hlast). cbn [and_then]. rewrite Hfloat. cbn [and_then].
  rewrite (py_index_first _ _ Himage).
  destruct (String.eqb (mode args) "train"); cbn [and_then].
  - rewrite (py_index_second fs depth) by (by apply Hdepth). cbn [and_then].
    by rewrite !posix_join_dot.
  - by rewrite posix_join_dot.
Qed.

(** X2. [__getitem__] gets through reading the line exactly when the
    index is within [-len, len), the line has a field (two fields in
    train mode) and its last field is the text of a float.  Otherwise
    it raises [IndexError] (index out of range, a blank line, a train
    line of one field) or [ValueError] (the last field is no float). *)
Theorem getitem_files_returns (filenames : list string) (idx : Z) :
  ((exists r, getitem_files' filenames idx = Ok r)
   <-> exists line focal_text,
        - Z.of_nat (__len__ filenames) <= idx < Z.of_nat (__len__ filenames)
        /\ filenames !! Z.to_nat (idx mod Z.of_nat (__len__ filenames)) = Some line
        /\ last (py_split line) = Some focal_text
        /\ py_float focal_text <> None
        /\ (String.eqb (mode args) "train" = true ->
            (2 <= length (py_split line))%nat))
  /\ (forall e, getitem_files' filenames idx = Raise e ->
        e = IndexError \/ e = ValueError)
  /\ (forall line,
        - Z.of_nat (__len__ filenames) <= idx < Z.of_nat (__len__ filenames) ->
        filenames !! Z.to_nat (idx mod Z.of_nat (__len__ filenames)) = Some line ->
        all_space line = true ->
        getitem_files' filenames idx = Raise IndexError).
Proof.
  unfold __len__. split; [split|split].
  - intros [r Hr]. unfold getitem_files in Hr.
    destruct (py_index filenames idx) as [line|e] eqn:Eline; [|done].
    apply py_index_in_range in Eline as [Hidx Hline]. cbn [and_then] in Hr.
    destruct (py_index (py_split line) (-1)) as [focal_text|e] eqn:Elast; [|done].
    apply py_index_last_inv in Elast. cbn [and_then] in Hr.
    exists line, focal_text. split; [done|]. split; [done|]. split; [done|].
    destruct (py_float focal_text) as [focal|] eqn:Ef; [|done].
    split; [done|]. intros Htrain. rewrite Htrain in Hr. cbn [and_then] in Hr.
    destruct (py_index (py_split line) 0) as [n0|e] eqn:E0; [|done].
    cbn [and_then] in Hr.
    destruct (py_index (py_split line) 1) as [n1|e] eqn:E1; [|done].
    apply py_index_in_range in E1 as [Hlen _]. lia.
  - intros (line & focal_text & Hidx & Hline & Hlast & Hfloat & Htrain).
    unfold getitem_files. rewrite (py_index_mod _ _ _ Hidx Hline). cbn [and_then].
    rewrite (py_index_last _ _ Hlast). cbn [and_then].
    destruct (py_float focal_text) as [focal|]; [|done]. cbn [and_then].
    assert (Hlen : (0 < length (py_split line))%nat).
    { destruct (py_split line); simpl in *; [done|lia]. }
    destruct (lookup_lt_is_Some_2 (py_split line) 0 Hlen) as [n0 Hn0].
    rewrite (py_index_first _ _ Hn0).
    destruct (String.eqb (mode args) "train"); cbn [and_then]; [|by eauto].
    destruct (lookup_lt_is_Some_2 (py_split line) 1 (Htrain eq_refl)) as [n1 Hn1].
    rewrite (py_index_second _ _ Hn1). cbn [and_then]. by eauto.
  - intros e He. unfold getitem_files in He.
    destruct (py_index filenames idx) as [line|e1] eqn:Eline;
      [|injection He as <-; left; by eapply py_index_raises].
    cbn [and_then] in He.
    destruct (py_index (py_split line) (-1)) as [focal_text|e1] eqn:Elast;
      [|injection He as <-; left; by eapply py_index_raises].
    cbn [and_then] in He.
    destruct (py_float focal_text) as [focal|];
      [|injection He as <-; by right].
    cbn [and_then] in He.
    destruct (String.eqb (mode args) "train").
    + destruct (py_index (py_split line) 0) as [n0|e1] eqn:E0;
        [|injection He as <-; left; by eapply py_index_raises].
      cbn [and_then] in He.
      destruct (py_index (py_split line) 1) as [n1|e1] eqn:E1;
        [done|injection He as <-; left; by eapply py_index_raises].
    + destruct (py_index (py_split line) 0) as [n0|e1] eqn:E0;
        [done|injection He as <-; left; by eapply py_index_raises].
  - intros line Hidx Hline Hblank.
    unfold getitem_files. rewrite (py_index_mod _ _ _ Hidx Hline). cbn [and_then].
    by rewrite py_split_blank.
Qed.

(** X3. Whatever the line names, the paths [__getitem__] opens stay
    under the configured directories: the image path starts with
    [data_path] and the depth path with [gt_path], also when the name
    in the line is absolute. *)
Theorem getitem_files_under_root (filenames : list string) (idx : Z)
    (r : sample_files) :
  getitem_files' filenames idx = Ok r ->
  String.prefix data_path (file_image r) = true
  /\ (forall d, file_depth r = Some d -> String.prefix gt_path d = true)
  /\ (String.eqb (mode args) "train" = true <-> file_depth r <> None).
Proof.
  intros Hr. unfold getitem_files in Hr.
  destruct (py_index filenames idx) as [line|e]; [|done]. cbn [and_then] in Hr.
  destruct (py_index (py_split line) (-1)) as [focal_text|e]; [|done].
  cbn [and_then] in Hr.
  destruct (py_float focal_text) as [focal|]; [|done]. cbn [and_then] in Hr.
  destruct (py_index (py_split line) 0) as [n0|e];
    [|by destruct (String.eqb (mode args) "train")].
  destruct (String.eqb (mode args) "train"); cbn [and_then] in Hr.
  - destruct (py_index (py_split line) 1) as [n1|e]; [|done].
    injection Hr as <-. simpl. rewrite !posix_join_dot.
    split; [apply prefix_append|]. split; [|done].
    intros d [= <-]. apply prefix_append.
  - injection Hr as <-. simpl. rewrite posix_join_dot.
    split; [apply prefix_append|]. split; [done|]. split; [done|].
    intros Hd. by destruct Hd.
Qed.
End SampleListProperties.

(** ** More on the random crop *)

Lemma py_slice_all {A : Type} (l : list A) :
  py_slice 0 (0 + Z.of_nat (length l)) l = l.
Proof.
  unfold py_slice. rewrite slice_len_window by lia.
  rewrite slice_index_nonneg by lia. rewrite Nat2Z.id.
  change (Z.to_nat 0) with 0%nat. rewrite drop_0. apply firstn_all.
Qed.

Lemma slice3_all {A : Type} (a : array3 A) :
  wf3 a ->
  slice3 0 (0 + Z.of_nat (shape0 a)) 0 (0 + Z.of_nat (shape1 a)) a = a.
Proof.
  intros [Hlen Hrows]. destruct a as [h w c rows]. simpl in Hlen, Hrows.
  unfold slice3. cbn [shape0 shape1 shape2 data].
  rewrite !slice_len_window by lia. rewrite !Nat2Z.id. f_equal.
  subst h. rewrite py_slice_all.
  rewrite <- (map_id rows) at 2. apply List.map_ext_Forall.
  eapply Forall_impl; [exact Hrows|]. intros row [Hw _]. cbv beta.
  rewrite <- Hw. apply py_slice_all.
Qed.

Section RandomCropEdges.
Context {G : Type} `{RandomSourceLaws G}.
Implicit Types (st : state spec_float G) (a : array3 spec_float).

(** A call whose assertions fail, on arrays of any rank with a height
    and a width. *)
Lemma random_crop_rejects st (img depth : nat) (oi od : ndarray spec_float)
    (h w dh dw height width : nat) :
  heap st !! img = Some oi -> heap st !! depth = Some od ->
  nd_shape oi !! 0%nat = Some h -> nd_shape oi !! 1%nat = Some w ->
  nd_shape od !! 0%nat = Some dh -> nd_shape od !! 1%nat = Some dw ->
  ~ ((height <= h)%nat /\ (width <= w)%nat /\ h = dh /\ w = dw) ->
  random_crop img depth height width st = (Raise AssertionError, st).
Proof.
  intros Himg Hdepth Hh Hw Hdh Hdw Hno.
  unfold random_crop. run_step. rewrite run_bind.
  destruct (height <=? h)%nat eqn:E1; [|done].
  rewrite run_assert by done. cbn beta iota.
  run_step. rewrite run_bind.
  destruct (width <=? w)%nat eqn:E2; [|done].
  rewrite run_assert by done. cbn beta iota.
  run_step. run_step. rewrite run_bind.
  destruct (h =? dh)%nat eqn:E3; [|done].
  rewrite run_assert by done. cbn beta iota.
  run_step. run_step. rewrite run_bind.
  destruct (w =? dw)%nat eqn:E4; [|done].
  exfalso. apply Hno.
  apply Nat.leb_le in E1, E2. apply Nat.eqb_eq in E3, E4. done.
Qed.

(** A call on an image array of two dimensions: the assertions pass,
    the offsets are drawn, and the subscript with three indices raises
    [IndexError]. *)
Lemma random_crop_two_dims st (img depth : nat) (h w : nat)
    (flat : list spec_float) (ad : array3 spec_float) (height width : nat) :
  heap st !! img = Some (NdFlat [h; w] flat) ->
  heap st !! depth = Some (Nd3 ad) ->
  h = shape0 ad -> w = shape1 ad ->
  (height <= h)%nat -> (width <= w)%nat ->
  fst (random_crop img depth height width st) = Raise IndexError.
Proof.
  intros Himg Hdepth Hh Hw Hhe Hwi.
  unfold random_crop.
  do 2 (run_step; rewrite run_bind, run_assert by (by apply Nat.leb_le);
        cbn beta iota).
  do 2 (run_step; run_step; rewrite run_bind, run_assert by (by apply Nat.eqb_eq);
        cbn beta iota).
  run_step. rewrite run_bind, run_randint by lia. cbn beta iota.
  run_step. rewrite run_bind, run_randint by lia. cbn beta iota.
  rewrite run_bind. unfold load3, bind.
  erewrite run_load by (simpl; exact Himg). done.
Qed.

(** X4. [random_crop] raises [AssertionError] exactly when the image
    is lower or narrower than the target, or the depth array differs
    from the image in height or width.  The assertions come first: a
    failing call draws no random number and creates no array. *)
Theorem random_crop_assertion st (img depth : nat) (ai ad : array3 spec_float)
    (height width : nat) :
  heap st !! img = Some (Nd3 ai) ->
  heap st !! depth = Some (Nd3 ad) ->
  (fst (random_crop img depth height width st) = Raise AssertionError
   <-> ~ ((height <= shape0 ai)%nat /\ (width <= shape1 ai)%nat
          /\ shape0 ai = shape0 ad /\ shape1 ai = shape1 ad))
  /\ (fst (random_crop img depth height width st) = Raise AssertionError ->
      snd (random_crop img depth height width st) = st).
Proof.
  intros Himg Hdepth.
  destruct (decide ((height <= shape0 ai)%nat /\ (width <= shape1 ai)%nat
                    /\ shape0 ai = shape0 ad /\ shape1 ai = shape1 ad))
    as [(Hh & Hw & Hdh & Hdw)|Hno].
  - destruct (random_crop_run st img depth ai ad height width
                Himg Hdepth Hdh Hdw Hh Hw)
      as (x & y & img' & depth' & st' & Hrun & _).
    rewrite Hrun. simpl. split; [|done]. split; [done|]. intros Hn. by destruct Hn.
  - rewrite (random_crop_rejects st img depth _ _ _ _ _ _ height width
               Himg Hdepth eq_refl eq_refl eq_refl eq_refl Hno).
    done.
Qed.

(** X5. A crop to the full size of the arrays is no crop: the only
    offset is [(0, 0)], and the arrays returned are, element for
    element, the image and the depth array. *)
Theorem random_crop_full_size st (img depth : nat) (ai ad : array3 spec_float) :
  heap st !! img = Some (Nd3 ai) ->
  heap st !! depth = Some (Nd3 ad) ->
  wf3 ai -> wf3 ad ->
  shape0 ai = shape0 ad -> shape1 ai = shape1 ad ->
  exists (img' depth' : nat) st',
    random_crop img depth (shape0 ai) (shape1 ai) st = (Ok (img', depth'), st')
    /\ heap st' !! img' = Some (Nd3 ai)
    /\ heap st' !! depth' = Some (Nd3 ad).
Proof.
  intros Himg Hdepth Hwfi Hwfd Hh Hw.
  destruct (random_crop_run st img depth ai ad (shape0 ai) (shape1 ai)
              Himg Hdepth Hh Hw (Nat.le_refl _) (Nat.le_refl _))
    as (x & y & img' & depth' & st' & Hrun & Hx & Hy & Hi & Hd).
  assert (x = 0) as -> by lia. assert (y = 0) as -> by lia.
  exists img', depth', st'. split; [exact Hrun|].
  unfold window in Hi, Hd. rewrite slice3_all in Hi by done.
  rewrite Hh, Hw, slice3_all in Hd by done. done.
Qed.
End RandomCropEdges.

(** ** Mirror and augmentation together *)

Lemma chunks_repeat {A : Type} (x : A) (n k : nat) :
  chunks n k (repeat x (n * k)) = repeat (repeat x k) n.
Proof.
  induction n as [|n IH]; [done|]. cbn [chunks Nat.mul repeat].
  rewrite repeat_app.
  rewrite take_app_length' by (by rewrite repeat_length).
  rewrite drop_app_length' by (by rewrite repeat_length).
  by rewrite IH.
Qed.

Lemma take1_drop_repeat {A : Type} (x : A) (n k : nat) :
  (n < k)%nat -> firstn 1 (skipn n (repeat x k)) = [x].
Proof.
  intros Hn. replace k with (n + S (k - n - 1))%nat by lia.
  rewrite repeat_app, drop_app_length' by (by rewrite repeat_length). done.
Qed.

Lemma zip_with_rev {A B C : Type} (f : A -> B -> C) (l1 : list A) (l2 : list B) :
  length l1 = length l2 ->
  zip_with f (rev l1) (rev l2) = rev (zip_with f l1 l2).
Proof.
  revert l2. induction l1 as [|x l1 IH]; intros [|y l2] Hlen; try done.
  simpl in *. rewrite zip_with_app by (rewrite !length_rev; lia).
  rewrite IH by lia. done.
Qed.

Lemma map3_fliplr {A B : Type} (f : A -> B) (a : array3 A) :
  map3 f (fliplr a) = fliplr (map3 f a).
Proof.
  unfold map3, fliplr. simpl. f_equal. rewrite !map_map.
  apply map_ext. intros row. by rewrite map_rev.
Qed.

Lemma zip3_fliplr {A B C : Type} (f : A -> B -> C) (a : array3 A) (b : array3 B) :
  wf3 a -> wf3 b -> shape1 a = shape1 b ->
  zip3 f (fliplr a) (fliplr b) = fliplr (zip3 f a b).
Proof.
  intros [_ Ha] [_ Hb] Hw. unfold zip3, fliplr. simpl. f_equal.
  rewrite <- Hw in Hb. clear Hw. revert Hb. generalize (data b).
  induction Ha as [|r1 ra [Hr1 _] _ IH]; intros rb Hb; [done|].
  destruct Hb as [|r2 rb [Hr2 _] Hb]; [done|]. simpl.
  rewrite zip_with_rev by lia. f_equal. by apply IH.
Qed.

(** The pixel of the color image. *)
Definition color_pixel (colors : list spec_float) : list spec_float :=
  flat_map (fun i : nat => match colors !! i with
                           | Some c => [F64.mul F64.one c]
                           | None => []
                           end) (seq 0 3).

Lemma color_planes_pixel (k n : nat) (colors : list spec_float) :
  (n < k)%nat ->
  flat_map (fun pl => firstn 1 (skipn n pl)) (color_planes (repeat F64.one k) colors)
  = color_pixel colors.
Proof.
  intros Hn. unfold color_planes, color_pixel.
  rewrite flat_map_concat_map, map_map, <- flat_map_concat_map.
  apply flat_map_ext. intros i.
  destruct (colors !! i) as [c|]; [|by destruct n].
  rewrite map_repeat. by apply take1_drop_repeat.
Qed.

(** Every pixel of the color image is the same. *)
Lemma color_image_const (h w : nat) (colors : list spec_float) :
  color_image h w colors
  = {| shape0 := h; shape1 := w; shape2 := 3;
       data := repeat (repeat (color_pixel colors) w) h |}.
Proof.
  unfold color_image, stack_axis2. f_equal.
  rewrite <- chunks_repeat. f_equal.
  rewrite <- (length_seq (h * w) 0) at 2. rewrite <- map_const.
  apply map_ext_in. intros n Hn. apply in_seq in Hn.
  apply color_planes_pixel. lia.
Qed.

Lemma color_image_fliplr (h w : nat) (colors : list spec_float) :
  fliplr (color_image h w colors) = color_image h w colors.
Proof.
  rewrite color_image_const. unfold fliplr. simpl. f_equal.
  rewrite map_repeat. by rewrite rev_repeat.
Qed.

Section AugmentMore.
Context {G : Type} `{RandomSource G}.
Variable f32_pow : spec_float -> spec_float -> spec_float.
Variable args : Args.
Implicit Types (st : state spec_float G) (a : array3 spec_float).

(** The array [augment_image] computes is the same function of every
    pixel, so it commutes with the mirror. *)
Lemma augmented_fliplr (gamma brightness : spec_float) (colors : list spec_float) a :
  wf3 a -> shape2 a = 3%nat -> length colors = 3%nat ->
  augmented f32_pow gamma brightness colors (fliplr a)
  = fliplr (augmented f32_pow gamma brightness colors a).
Proof.
  intros Hwf Hc Hlen. unfold augmented.
  rewrite !map3_fliplr. cbn [fliplr shape0 shape1].
  rewrite <- (color_image_fliplr (shape0 a) (shape1 a) colors) at 1.
  rewrite zip3_fliplr.
  - by rewrite map3_fliplr.
  - by do 2 apply map3_wf.
  - by apply color_image_wf.
  - by rewrite color_image_const.
Qed.

(** X6. [augment_image] accepts exactly the images of three channels:
    on such an array it returns a new array of the same shape, on an
    array of three dimensions with another number of channels the
    in-place product with the color image raises [ValueError]. *)
Theorem augment_image_channels st (image : nat) a :
  heap st !! image = Some (Nd3 a) ->
  wf3 a ->
  (shape2 a = 3%nat ->
   exists (image_aug : nat) st' (out : array3 spec_float),
     augment_image f32_pow args image st = (Ok image_aug, st')
     /\ heap st' !! image_aug = Some (Nd3 out)
     /\ wf3 out /\ shape3 out = shape3 a)
  /\ (shape2 a <> 3%nat ->
      fst (augment_image f32_pow args image st) = Raise ValueError).
Proof.
  intros Himg Hwf.
  destruct (augment_image_run f32_pow args st image _ Himg)
    as (r & st' & Hrun & _ & Hres).
  cbn iota in Hres. split.
  - intros Hc. rewrite Hc in Hres. cbn in Hres.
    destruct Hres as (l' & -> & _ & Hout).
    eexists l', st', _. split; [exact Hrun|]. split; [exact Hout|].
    by apply augmented_wf, draw_colors_length.
  - intros Hc. apply Nat.eqb_neq in Hc. rewrite Hc in Hres.
    by rewrite Hrun, Hres.
Qed.

(** X7. Mirror and augmentation commute: with the same draws, the
    augmentation of the mirrored image is the mirror of the augmented
    image. *)
Theorem augment_image_mirror st (image mirrored : nat) a :
  heap st !! image = Some (Nd3 a) ->
  heap st !! mirrored = Some (Nd3 (fliplr a)) ->
  wf3 a -> shape2 a = 3%nat ->
  exists (l1 l2 : nat) st1 st2 (out : array3 spec_float),
    augment_image f32_pow args image st = (Ok l1, st1)
    /\ augment_image f32_pow args mirrored st = (Ok l2, st2)
    /\ heap st1 !! l1 = Some (Nd3 out)
    /\ heap st2 !! l2 = Some (Nd3 (fliplr out)).
Proof.
  intros Himg Hmir Hwf Hc.
  destruct (augment_image_run f32_pow args st image _ Himg)
    as (r1 & st1 & Hrun1 & _ & Hres1).
  destruct (augment_image_run f32_pow args st mirrored _ Hmir)
    as (r2 & st2 & Hrun2 & _ & Hres2).
  cbn iota in Hres1, Hres2. cbn [fliplr shape2] in Hres2.
  rewrite Hc in Hres1, Hres2. cbn in Hres1, Hres2.
  destruct Hres1 as (l1 & -> & _ & Hout1).
  destruct Hres2 as (l2 & -> & _ & Hout2).
  eexists l1, l2, st1, st2, _.
  split; [exact Hrun1|]. split; [exact Hrun2|]. split; [exact Hout1|].
  rewrite Hout2. do 2 f_equal.
  by apply augmented_fliplr, draw_colors_length.
Qed.
End AugmentMore.

(** ** The whole of [train_preprocess] *)

Section TrainPreprocessMore.
Context {G : Type} `{RandomSource G}.
Variable f32_pow : spec_float -> spec_float -> spec_float.
Variable args : Args.
Implicit Types (st : state spec_float G) (a : array3 spec_float) (g : G).

(** The two decisions of a call, from the generator it starts with. *)
Definition draws_flip g : bool := SFltb (F64.lit 1 2) (fst (gen_random g)).

Definition draws_augment g : bool :=
  SFltb (F64.lit 1 2) (fst (gen_random (snd (gen_random g)))).

(** The augmentation with the draws made from [g]. *)
Definition augmented_from g a : array3 spec_float :=
  augmented f32_pow
    (fst (draw_gamma g))
    (fst (draw_brightness args (snd (draw_gamma g))))
    (fst (draw_colors (snd (draw_brightness args (snd (draw_gamma g))))))
    a.

Definition mirror_if (b : bool) a : array3 spec_float := if b then fliplr a else a.

Definition preprocessed_image g a : array3 spec_float :=
  let x := mirror_if (draws_flip g) a in
  if draws_augment g
  then augmented_from (snd (gen_random (snd (gen_random g)))) x
  else x.

Lemma train_preprocess_arrays st (image depth_gt : nat) ai ad :
  heap st !! image = Some (Nd3 ai) ->
  heap st !! depth_gt = Some (Nd3 ad) ->
  shape2 ai = 3%nat ->
  exists (image' depth' : nat) st',
    train_preprocess f32_pow args image depth_gt st = (Ok (image', depth'), st')
    /\ heap st ⊆ heap st'
    /\ heap st' !! image' = Some (Nd3 (preprocessed_image (rng st) ai))
    /\ heap st' !! depth' = Some (Nd3 (mirror_if (draws_flip (rng st)) ad))
    /\ (draws_flip (rng st) = false -> draws_augment (rng st) = false ->
        image' = image /\ depth' = depth_gt /\ heap st' = heap st).
Proof.
  intros Himg Hdepth Hc. unfold train_preprocess, preprocessed_image.
  rewrite run_bind. unfold random_random. rewrite run_draw. cbn beta iota.
  unfold draws_augment, draws_flip.
  set (g1 := snd (gen_random (rng st))).
  set (st1 := {| heap := heap st; rng := g1 |}).
  rewrite run_bind.
  destruct (SFltb (F64.lit 1 2) (fst (gen_random (rng st)))) eqn:Eflip.
  - destruct (flip_both_run st1 image depth_gt ai ad Himg Hdepth)
      as (image1 & depth1 & st2 & Hrun & Hsub & Hrng & Hnew & Hi1 & Hd1).
    rewrite Hrun. cbn beta iota.
    rewrite run_bind, run_draw. cbn beta iota. rewrite Hrng. cbn [rng st1].
    set (st3 := {| heap := heap st2; rng := snd (gen_random g1) |}).
    rewrite run_bind.
    destruct (SFltb (F64.lit 1 2) (fst (gen_random g1))) eqn:Eaug.
    + destruct (augment_image_run f32_pow args st3 image1 _ Hi1)
        as (r & st4 & Hrun' & Hsub' & Hres).
      cbn [fliplr shape2] in Hres. rewrite Hc in Hres. cbn in Hres.
      destruct Hres as (l' & -> & _ & Hout).
      rewrite Hrun'. cbn beta iota. rewrite run_ret.
      eexists _, _, _. split; [reflexivity|].
      split; [by etransitivity|]. split; [exact Hout|].
      split; [by eapply lookup_weaken|done].
    + rewrite run_ret. cbn beta iota. rewrite run_ret.
      eexists _, _, _. split; [reflexivity|]. by repeat split.
  - rewrite run_ret. cbn beta iota.
    rewrite run_bind, run_draw. cbn beta iota. cbn [rng st1].
    set (st3 := {| heap := heap st1; rng := snd (gen_random g1) |}).
    rewrite run_bind.
    destruct (SFltb (F64.lit 1 2) (fst (gen_random g1))) eqn:Eaug.
    + destruct (augment_image_run f32_pow args st3 image _ Himg)
        as (r & st4 & Hrun' & Hsub' & Hres).
      cbn iota in Hres. rewrite Hc in Hres. cbn in Hres.
      destruct Hres as (l' & -> & _ & Hout).
      rewrite Hrun'. cbn beta iota. rewrite run_ret.
      eexists _, _, _. split; [reflexivity|].
      split; [done|]. split; [exact Hout|].
      split; [by eapply lookup_weaken|done].
    + rewrite run_ret. cbn beta iota. rewrite run_ret.
      eexists _, _, _. split; [reflexivity|]. by repeat split.
Qed.

Lemma mirror_if_wf (b : bool) a : wf3 a -> wf3 (mirror_if b a).
Proof. intros Hwf. destruct b; [by apply fliplr_wf|done]. Qed.

Lemma preprocessed_image_wf g a :
  wf3 a -> shape2 a = 3%nat ->
  wf3 (preprocessed_image g a) /\ shape3 (preprocessed_image g a) = shape3 a.
Proof.
  intros Hwf Hc. unfold preprocessed_image.
  assert (Hs : shape3 (mirror_if (draws_flip g) a) = shape3 a)
    by (by destruct (draws_flip g)).
  destruct (draws_augment g); [|split; [by apply mirror_if_wf|done]].
  rewrite <- Hs. apply augmented_wf.
  - by apply mirror_if_wf.
  - by destruct (draws_flip g).
  - apply draw_colors_length.
Qed.

(** X8. [train_preprocess] keeps image and depth aligned: both are
    mirrored or neither is.  The depth returned is the depth array or
    its mirror, and the image returned is the same mirror of the image
    or of the augmented image; both keep their shapes.  When neither
    the flip nor the augmentation is drawn, the call returns the very
    objects it was given and creates no array. *)
Theorem train_preprocess_aligned st (image depth_gt : nat) ai ad :
  heap st !! image = Some (Nd3 ai) ->
  heap st !! depth_gt = Some (Nd3 ad) ->
  wf3 ai -> shape2 ai = 3%nat ->
  exists (image' depth' : nat) st' (oi od : array3 spec_float) (mirrored : bool),
    train_preprocess f32_pow args image depth_gt st = (Ok (image', depth'), st')
    /\ heap st' !! image' = Some (Nd3 oi)
    /\ heap st' !! depth' = Some (Nd3 od)
    /\ od = mirror_if mirrored ad
    /\ (oi = mirror_if mirrored ai
        \/ exists g, oi = mirror_if mirrored (augmented_from g ai))
    /\ shape3 oi = shape3 ai /\ shape3 od = shape3 ad
    /\ (draws_flip (rng st) = false -> draws_augment (rng st) = false ->
        image' = image /\ depth' = depth_gt /\ heap st' = heap st).
Proof.
  intros Himg Hdepth Hwf Hc.
  destruct (train_preprocess_arrays st image depth_gt ai ad Himg Hdepth Hc)
    as (image' & depth' & st' & Hrun & _ & Hi & Hd & Hsame).
  exists image', depth', st', (preprocessed_image (rng st) ai),
    (mirror_if (draws_flip (rng st)) ad), (draws_flip (rng st)).
  split; [exact Hrun|]. split; [exact Hi|]. split; [exact Hd|].
  split; [reflexivity|]. split; [|split; [|split; [|exact Hsame]]].
  - unfold preprocessed_image. destruct (draws_augment (rng st)); [|by left].
    right. eexists. unfold augmented_from, mirror_if.
    destruct (draws_flip (rng st)); [|reflexivity].
    apply augmented_fliplr; [done..|apply draw_colors_length].
  - by apply preprocessed_image_wf.
  - by destruct (draws_flip (rng st)).
Qed.
End TrainPreprocessMore.

(** ** More on the tensor adapter *)

Lemma chunks_concat {A : Type} (n k : nat) (l : list (list A)) :
  length l = n -> Forall (fun x => length x = k) l ->
  chunks n k (concat l) = l.
Proof.
  intros <- Hl. induction Hl as [|x l Hx _ IH]; [done|].
  cbn [length chunks concat].
  rewrite take_app_length', drop_app_length' by done. by rewrite IH.
Qed.

(** Reshaping the elements of an array to its shape gives the array. *)
Lemma reshape3_of_ravel {A : Type} (a : array3 A) :
  wf3 a -> reshape3 (shape0 a) (shape1 a) (shape2 a) (ravel a) = a.
Proof.
  intros [Hlen Hrows]. destruct a as [h w c rows]. simpl in Hlen, Hrows.
  unfold reshape3, ravel. cbn [shape0 shape1 shape2 data]. f_equal.
  rewrite <- concat_map_concat.
  rewrite (chunks_concat h (w * c)).
  - rewrite map_map. rewrite <- (map_id rows) at 2.
    apply List.map_ext_Forall. eapply Forall_impl; [exact Hrows|].
    intros row [Hw Hpx]. cbv beta. by apply chunks_concat.
  - by rewrite length_map.
  - rewrite Forall_map. eapply Forall_impl; [exact Hrows|].
    intros row [Hw Hpx]. cbv beta.
    by rewrite (concat_length_uniform c), Hw.
Qed.

(** The band values of an image as an array of integers. *)
Definition pil_pixels (p : pil_image) : array3 Z :=
  {| shape0 := pil_height p; shape1 := pil_width p;
     shape2 := getmodebands (pil_mode p); data := pil_px p |}.

Lemma pil_pixels_wf (p : pil_image) : wf_pil p -> wf3 (pil_pixels p).
Proof. done. Qed.

Section AdapterMore.
Context {A G : Type}.
Variables (t_sub t_div : A -> A -> A) (of_lit : Z -> Z -> A) (of_int : Z -> A).
Implicit Types (st : state A G) (a : array3 A).

(** The modes of one byte per band, among those the source lists. *)
Definition byte_modes : list string := ["L"; "P"; "RGB"; "YCbCr"; "RGBA"; "CMYK"].

(** X9. On a PIL image of a mode with one byte per band, whose buffer
    holds the band values pixel by pixel and row by row, [to_tensor]
    returns the channel-first tensor of the band values: its shape is
    (bands, height, width) and element [(c, i, j)] is the value of band
    [c] of the pixel in row [i] and column [j]. *)
Theorem to_tensor_pil_bytes st (p : pil_image) :
  wf_pil p ->
  In (pil_mode p) byte_modes ->
  pil_bytes p = ravel (pil_pixels p) ->
  exists (t : nat) st' (out : array3 A),
    to_tensor of_int (ObjPil p) st = (Ok t, st')
    /\ heap st' !! t = Some (Nd3 out)
    /\ heap st ⊆ heap st'
    /\ wf3 out
    /\ shape3 out = (getmodebands (pil_mode p), pil_height p, pil_width p)
    /\ (forall c i j : nat,
          get3 out c i j = of_int <$> get3 (pil_pixels p) i j c).
Proof.
  intros Hwf Hmode Hbytes.
  assert (Hn : (if String.eqb (pil_mode p) "YCbCr" then 3%nat
                else if String.eqb (pil_mode p) "I;16" then 1%nat
                else String.length (pil_mode p)) = getmodebands (pil_mode p)
               /\ String.eqb (pil_mode p) "I" = false
               /\ String.eqb (pil_mode p) "I;16" = false).
  { unfold byte_modes in Hmode. simpl in Hmode.
    destruct Hmode as [<-|[<-|[<-|[<-|[<-|[<-|[]]]]]]]; by vm_compute. }
  destruct Hn as (Hn & HI & HI16).
  pose proof (pil_pixels_wf p Hwf) as Hwfp.
  unfold to_tensor. rewrite run_bind. cbn [_is_numpy_image]. rewrite run_ret.
  cbn [_is_pil_image orb negb]. cbn iota.
  rewrite run_bind, Hn, HI, HI16, run_ret, Hbytes.
  rewrite (ravel_length _ Hwfp). cbn [pil_pixels shape0 shape1 shape2].
  rewrite Nat.eqb_refl, run_alloc.
  assert (Hre : reshape3 (pil_height p) (pil_width p) (getmodebands (pil_mode p))
                   (map of_int (ravel (pil_pixels p)))
                 = map3 of_int (pil_pixels p)).
  { rewrite <- map3_ravel.
    apply (reshape3_of_ravel (map3 of_int (pil_pixels p))). by apply map3_wf. }
  rewrite Hre.
  eexists _, _, _. split; [reflexivity|]. cbn [heap].
  split; [apply lookup_insert_eq|]. split; [apply alloc_extends|].
  split; [by apply transpose201_wf, map3_wf|]. split; [done|].
  intros c i j. rewrite transpose201_get by (by apply map3_wf).
  apply map3_get.
Qed.

(** X10. An image of mode F (one 32-bit float per pixel) is turned
    away: its buffer has four bytes per pixel, the code takes the mode
    name's length, one, for the number of channels, and the [view] of
    the bytes as (height, width, 1) raises [RuntimeError]. *)
Theorem to_tensor_pil_mode_F st (p : pil_image) :
  pil_mode p = "F" ->
  length (pil_bytes p) = (4 * (pil_height p * pil_width p))%nat ->
  (0 < pil_height p)%nat -> (0 < pil_width p)%nat ->
  to_tensor of_int (ObjPil p) st = (Raise RuntimeError, st).
Proof.
  intros Hmode Hbytes Hh Hw.
  unfold to_tensor. rewrite run_bind. cbn [_is_numpy_image]. rewrite run_ret.
  cbn [_is_pil_image orb negb]. cbn iota.
  rewrite run_bind, Hmode.
  cbn [String.eqb Ascii.eqb Bool.eqb String.length]. cbn iota.
  rewrite run_ret, Hbytes.
  destruct (_ =? _)%nat eqn:E; [|done].
  apply Nat.eqb_eq in E. nia.
Qed.
End AdapterMore.

Section CallMore.
Context {A G : Type}.
Variables (t_sub t_div : A -> A -> A) (of_lit : Z -> Z -> A) (of_int : Z -> A).
Implicit Types (st : state A G) (a : array3 A).

Local Abbreviation call := (ToTensor_call (G := G) t_sub t_div of_lit of_int).

(** X11. What [__call__] does about the depth: in train mode
    ([is_test] false) a sample without a depth entry raises [KeyError],
    after the image has been converted; in test mode a depth entry is
    not looked at, and the sample returned has none. *)
Theorem ToTensor_call_depth_entry st (s : sample) ai :
  heap st !! sample_image s = Some (Nd3 ai) ->
  shape2 ai = 3%nat ->
  (sample_depth s = None -> fst (call false s st) = Raise KeyError)
  /\ (exists (s' : sample) st',
        call true s st = (Ok s', st')
        /\ sample_depth s' = None
        /\ sample_focal s' = sample_focal s
        /\ heap st ⊆ heap st').
Proof.
  intros Hi Hc. split.
  - intros Hd. unfold ToTensor_call.
    rewrite run_bind, (to_tensor_array3_run _ _ _ _ Hi).
    set (l1 := fresh (dom (heap st))).
    set (st1 := {| heap := <[l1 := _]> _; rng := _ |}).
    assert (Hl1 : heap st1 !! l1 = Some (Nd3 (transpose201 ai)))
      by apply lookup_insert_eq.
    rewrite run_bind, (normalize_run _ _ _ _ _ _ Hl1) by done.
    cbn beta iota. cbn [negb]. cbn iota. rewrite Hd. by rewrite run_bind.
  - destruct (ToTensor_call_run t_sub t_div of_lit of_int true st s ai Hi Hc)
      as (s' & st' & Hrun & Hsub & Hfocal & _ & Hnone); [done|].
    by exists s', st'.
Qed.

(** X12. The image must have three channels: on an array of three
    dimensions with another number of channels, the normalization by
    three means raises [RuntimeError], in train and in test mode. *)
Theorem ToTensor_call_channels (is_test : bool) st (s : sample) ai :
  heap st !! sample_image s = Some (Nd3 ai) ->
  shape2 ai <> 3%nat ->
  fst (call is_test s st) = Raise RuntimeError.
Proof.
  intros Hi Hc. unfold ToTensor_call.
  rewrite run_bind, (to_tensor_array3_run _ _ _ _ Hi).
  set (l1 := fresh (dom (heap st))).
  set (st1 := {| heap := <[l1 := _]> _; rng := _ |}).
  assert (Hl1 : heap st1 !! l1 = Some (Nd3 (transpose201 ai)))
    by apply lookup_insert_eq.
  rewrite run_bind. unfold normalize. rewrite run_bind, (run_load _ _ _ Hl1).
  cbn beta iota. cbn [transpose201 shape0 mean length].
  apply Nat.eqb_neq in Hc. by rewrite Hc.
Qed.
End CallMore.

(** X13. The image tensor of the loader's transform: element
    [(c, i, j)] is the image's element [(i, j, c)] minus the mean of
    channel [c], divided by the channel's deviation, in binary32 with
    the constants rounded to binary32; the tensor has shape
    (3, height, width), and the image array stays as it was. *)
Theorem preprocessing_transforms_image {G : Type} (is_test : bool)
    (st : state spec_float G) (s : sample) (ai : array3 spec_float) :
  heap st !! sample_image s = Some (Nd3 ai) ->
  wf3 ai -> shape2 ai = 3%nat ->
  (is_test = false ->
   exists d ad, sample_depth s = Some d /\ heap st !! d = Some (Nd3 ad)) ->
  exists (s' : sample) st' (t : array3 spec_float),
    preprocessing_transforms is_test s st = (Ok s', st')
    /\ heap st' !! sample_image s' = Some (Nd3 t)
    /\ heap st' !! sample_image s = Some (Nd3 ai)
    /\ wf3 t
    /\ shape3 t = (3%nat, shape0 ai, shape1 ai)
    /\ (forall (c i j : nat) (x : spec_float),
          get3 ai i j c = Some x ->
          exists n d : Z,
            [(485, 229); (456, 224); (406, 225)] !! c = Some (n, d)
            /\ get3 t c i j
               = Some (F32.div (F32.sub x (f32_of_f64 (F64.lit n 1000)))
                               (f32_of_f64 (F64.lit d 1000)))).
Proof.
  intros Hi Hwf Hc Hd. unfold preprocessing_transforms.
  destruct (ToTensor_call_run F32.sub F32.div
              (fun n d => f32_of_f64 (F64.lit n d)) F32.of_Z is_test st s ai
              Hi Hc Hd) as (s' & st' & Hrun & Hsub & _ & Ht & _).
  eexists s', st', _. split; [exact Hrun|]. split; [exact Ht|].
  split; [by eapply lookup_weaken|].
  pose proof (transpose201_wf ai Hwf) as Hwft.
  split; [apply per_channel_wf; [done|by simpl]|].
  split; [by unfold shape3; simpl; rewrite Hc|].
  intros c i j x Hx.
  destruct (get3_ext_shape ai i j c x Hwf Hx) as (_ & _ & Hlt).
  rewrite Hc in Hlt.
  assert (Hx' : get3 (transpose201 ai) c i j = Some x)
    by (by rewrite transpose201_get).
  destruct c as [|[|[|c]]]; [| | |lia].
  - exists 485, 229. split; [done|].
    rewrite (per_channel_get (standardize F32.sub F32.div) _ _ 0 i j
               (f32_of_f64 (F64.lit 485 1000), f32_of_f64 (F64.lit 229 1000)) x);
      [reflexivity|reflexivity|exact Hx'].
  - exists 456, 224. split; [done|].
    rewrite (per_channel_get (standardize F32.sub F32.div) _ _ 1 i j
               (f32_of_f64 (F64.lit 456 1000), f32_of_f64 (F64.lit 224 1000)) x);
      [reflexivity|reflexivity|exact Hx'].
  - exists 406, 225. split; [done|].
    rewrite (per_channel_get (standardize F32.sub F32.div) _ _ 2 i j
               (f32_of_f64 (F64.lit 406 1000), f32_of_f64 (F64.lit 225 1000)) x);
      [reflexivity|reflexivity|exact Hx'].
Qed.

(** ** The crops of the train branch *)

Lemma lookupZ_nat {A : Type} (l : list A) (i : nat) :
  lookupZ l (Z.of_nat i) = l !! i.
Proof.
  unfold lookupZ. destruct (Z.of_nat i <? 0) eqn:E; [apply Z.ltb_lt in E; lia|].
  by rewrite Nat2Z.id.
Qed.

Lemma lookupZ_Some {A : Type} (l : list A) (i : Z) x :
  lookupZ l i = Some x -> 0 <= i < Z.of_nat (length l) /\ l !! Z.to_nat i = Some x.
Proof.
  unfold lookupZ. destruct (i <? 0) eqn:E; [done|]. apply Z.ltb_ge in E.
  intros Hx. split; [|done]. apply lookup_lt_Some in Hx. lia.
Qed.

Lemma lookupZ_None {A : Type} (l : list A) (i : Z) :
  lookupZ l i = None <-> i < 0 \/ Z.of_nat (length l) <= i.
Proof.
  unfold lookupZ. destruct (i <? 0) eqn:E.
  - apply Z.ltb_lt in E. split; [by left|done].
  - apply Z.ltb_ge in E. rewrite lookup_ge_None. lia.
Qed.

Section CropFacts.
Implicit Types (px : list (list (list Z))).

(** The pixel of a crop: the source pixel, or zeros outside. *)
Definition crop_pixel (bands : nat) (x0 y0 : Z) px (i j : nat) : list Z :=
  match row ← lookupZ px (y0 + Z.of_nat i); lookupZ row (x0 + Z.of_nat j) with
  | Some v => v
  | None => repeat 0 bands
  end.

Lemma crop_px_length bands x0 y0 w h px :
  length (crop_px bands x0 y0 w h px) = h.
Proof. unfold crop_px. by rewrite length_map, length_seq. Qed.

Lemma crop_px_lookup bands x0 y0 w h px (i j : nat) :
  (i < h)%nat -> (j < w)%nat ->
  (row ← crop_px bands x0 y0 w h px !! i; row !! j)
  = Some (crop_pixel bands x0 y0 px i j).
Proof.
  intros Hi Hj. unfold crop_px.
  rewrite list_lookup_fmap, lookup_seq_lt by done. simpl.
  rewrite list_lookup_fmap, lookup_seq_lt by done. done.
Qed.

Lemma crop_pixel_length bands w0 x0 y0 px (i j : nat) :
  wf_rows w0 bands px -> length (crop_pixel bands x0 y0 px i j) = bands.
Proof.
  intros Hpx. unfold crop_pixel.
  destruct (lookupZ px (y0 + Z.of_nat i)) as [row|] eqn:Erow; simpl;
    [|apply repeat_length].
  destruct (lookupZ row (x0 + Z.of_nat j)) as [v|] eqn:Ev; [|apply repeat_length].
  apply lookupZ_Some in Erow as [_ Erow]. apply lookupZ_Some in Ev as [_ Ev].
  unfold wf_rows in Hpx. rewrite Forall_lookup in Hpx.
  destruct (Hpx _ _ Erow) as [_ Hrow]. rewrite Forall_lookup in Hrow.
  by apply (Hrow _ _ Ev).
Qed.

Lemma crop_px_wf bands w0 x0 y0 w h px :
  wf_rows w0 bands px -> wf_rows w bands (crop_px bands x0 y0 w h px).
Proof.
  intros Hpx. unfold wf_rows, crop_px. rewrite Forall_map, Forall_forall.
  intros i _. cbv beta. split; [by rewrite length_map, length_seq|].
  rewrite Forall_map, Forall_forall. intros j _. cbv beta.
  by apply (crop_pixel_length bands w0 x0 y0 px i j).
Qed.

(** A region inside the image is the slice of the rows and of the
    columns. *)
Lemma crop_px_inside bands w0 x0 y0 w h px :
  wf_rows w0 bands px ->
  0 <= x0 -> x0 + Z.of_nat w <= Z.of_nat w0 ->
  0 <= y0 -> y0 + Z.of_nat h <= Z.of_nat (length px) ->
  crop_px bands x0 y0 w h px
  = map (py_slice x0 (x0 + Z.of_nat w)) (py_slice y0 (y0 + Z.of_nat h) px).
Proof.
  intros Hpx Hx0 Hx1 Hy0 Hy1.
  apply (list_eq_same_length _ _ h).
  - rewrite length_map, py_slice_length, slice_len_window by lia. lia.
  - apply crop_px_length.
  - intros i r1 r2 Hi Hr1 Hr2.
    unfold crop_px in Hr1.
    rewrite list_lookup_fmap, lookup_seq_lt in Hr1 by done.
    injection Hr1 as <-.
    rewrite list_lookup_fmap, py_slice_lookup in Hr2 by lia.
    destruct (px !! (Z.to_nat y0 + i)%nat) as [row|] eqn:Erow; [|done].
    injection Hr2 as <-.
    unfold wf_rows in Hpx. rewrite Forall_lookup in Hpx.
    destruct (Hpx _ _ Erow) as [Hw _].
    assert (Hrow : lookupZ px (y0 + Z.of_nat i) = Some row).
    { replace (y0 + Z.of_nat i) with (Z.of_nat (Z.to_nat y0 + i)) by lia.
      by rewrite lookupZ_nat. }
    apply (list_eq_same_length _ _ w).
    + rewrite py_slice_length, slice_len_window by lia. lia.
    + by rewrite length_map, length_seq.
    + intros j v1 v2 Hj Hv1 Hv2.
      rewrite list_lookup_fmap, lookup_seq_lt in Hv1 by done.
      injection Hv1 as <-. rewrite Hrow. simpl.
      rewrite py_slice_lookup in Hv2 by lia.
      replace (x0 + Z.of_nat j) with (Z.of_nat (Z.to_nat x0 + j)) by lia.
      rewrite lookupZ_nat. by rewrite Hv2.
Qed.
End CropFacts.

(** [Image.size] *)
Definition pil_size (p : pil_image) : nat * nat := (pil_width p, pil_height p).

Section TrainPil.
Variable tobytes : string -> list (list (list Z)) -> list Z.
Variable pil_rotate : spec_float -> resample -> pil_image -> pil_image.
Context {G : Type} `{RandomSource G}.
Variable args : Args.
Variables (do_random_rotate : bool) (degree : spec_float).
Implicit Types (st : state spec_float G) (p : pil_image).

Local Abbreviation crop := (pil_crop tobytes).

(** A rotation without [expand] returns an image of the size and the
    mode of its argument. *)
Hypothesis pil_rotate_keeps : forall angle flag p,
  wf_pil p ->
  wf_pil (pil_rotate angle flag p)
  /\ pil_size (pil_rotate angle flag p) = pil_size p
  /\ pil_mode (pil_rotate angle flag p) = pil_mode p.

Lemma pil_crop_wf (box : Z * Z * Z * Z) p : wf_pil p -> wf_pil (crop box p).
Proof.
  intros [_ Hrows]. destruct box as [[[x0 y0] x1] y1]. split; simpl.
  - apply crop_px_length.
  - by eapply crop_px_wf.
Qed.

Lemma pil_crop_size (x0 y0 x1 y1 : Z) p :
  pil_size (crop (x0, y0, x1, y1) p) = (Z.to_nat (x1 - x0), Z.to_nat (y1 - y0)).
Proof. done. Qed.

Lemma pil_crop_mode (box : Z * Z * Z * Z) p : pil_mode (crop box p) = pil_mode p.
Proof. by destruct box as [[[x0 y0] x1] y1]. Qed.

Lemma kb_crop_size (w h : nat) p : pil_size (crop (kb_crop_box w h) p) = (1216%nat, 352%nat).
Proof.
  unfold kb_crop_box. rewrite pil_crop_size. f_equal; lia.
Qed.

(** The rotation step. *)
Lemma rotate_step st (image depth_gt : pil_image) :
  wf_pil image -> wf_pil depth_gt ->
  exists (image' depth' : pil_image) st',
    (if do_random_rotate
     then
       r ← random_random;
       let random_angle :=
         F64.mul (F64.mul (SFsub F64.prec F64.emax r (F64.lit 1 2)) (F64.of_Z 2))
                 degree in
       let image := rotateImage pil_rotate image random_angle BILINEAR in
       let depth_gt := rotateImage pil_rotate depth_gt random_angle NEAREST in
       mret (image, depth_gt)
     else mret (image, depth_gt) : M spec_float G _) st
    = (Ok (image', depth'), st')
    /\ heap st' = heap st
    /\ wf_pil image' /\ wf_pil depth'
    /\ pil_mode image' = pil_mode image
    /\ pil_mode depth' = pil_mode depth_gt
    /\ pil_size image' = pil_size image
    /\ pil_size depth' = pil_size depth_gt.
Proof.
  intros Hwfi Hwfd. destruct do_random_rotate.
  - rewrite run_bind. unfold random_random. rewrite run_draw. cbn beta iota zeta.
    rewrite run_ret. unfold rotateImage.
    set (angle := F64.mul _ degree).
    destruct (pil_rotate_keeps angle BILINEAR image Hwfi) as (Hr1 & Hr2 & Hr3).
    destruct (pil_rotate_keeps angle NEAREST depth_gt Hwfd) as (Hq1 & Hq2 & Hq3).
    exists (pil_rotate angle BILINEAR image), (pil_rotate angle NEAREST depth_gt).
    eexists. split; [reflexivity|]. cbn [heap].
    split; [reflexivity|]. split; [exact Hr1|]. split; [exact Hq1|].
    split; [exact Hr3|]. split; [exact Hq3|]. split; [exact Hr2|exact Hq2].
  - rewrite run_ret. exists image, depth_gt, st. split; [reflexivity|].
    split; [reflexivity|]. split; [exact Hwfi|]. split; [exact Hwfd|]. done.
Qed.

(** The PIL crops of the train branch fix the size of what
    follows: after the crop for the dataset "nyu" image and depth map
    are 565 by 427, after the KITTI benchmark crop alone they are 1216
    by 352, whatever the sizes of the two files, and a rotation changes
    neither size nor mode.  The step never raises and creates no
    array. *)
Lemma getitem_train_pil_run st (image depth_gt : pil_image) :
  wf_pil image -> wf_pil depth_gt ->
  exists (image' depth' : pil_image) st',
    getitem_train_pil tobytes pil_rotate args do_random_rotate degree
      image depth_gt st = (Ok (image', depth'), st')
    /\ heap st' = heap st
    /\ wf_pil image' /\ wf_pil depth'
    /\ pil_mode image' = pil_mode image
    /\ pil_mode depth' = pil_mode depth_gt
    /\ (if String.eqb (dataset args) "nyu"
        then pil_size image' = (565%nat, 427%nat)
             /\ pil_size depth' = (565%nat, 427%nat)
        else if do_kb_crop args
        then pil_size image' = (1216%nat, 352%nat)
             /\ pil_size depth' = (1216%nat, 352%nat)
        else pil_size image' = pil_size image
             /\ pil_size depth' = pil_size depth_gt).
Proof.
  intros Hwfi Hwfd. unfold getitem_train_pil.
  set (box := kb_crop_box (pil_width image) (pil_height image)).
  pose proof (pil_crop_wf box image Hwfi) as Hk1.
  pose proof (pil_crop_wf box depth_gt Hwfd) as Hk2.
  destruct (do_kb_crop args); destruct (String.eqb (dataset args) "nyu");
    cbv beta iota zeta.
  - destruct (rotate_step st (crop (43, 45, 608, 472) (crop box image))
                (crop (43, 45, 608, 472) (crop box depth_gt)))
      as (i' & d' & st' & Hrun & Hheap & Hw1 & Hw2 & Hm1 & Hm2 & Hs1 & Hs2);
      [by apply pil_crop_wf..|].
    exists i', d', st'. split; [exact Hrun|]. split; [done|].
    split; [done|]. split; [done|].
    split; [by rewrite Hm1, !pil_crop_mode|].
    split; [by rewrite Hm2, !pil_crop_mode|]. by rewrite Hs1, Hs2.
  - destruct (rotate_step st (crop box image) (crop box depth_gt))
      as (i' & d' & st' & Hrun & Hheap & Hw1 & Hw2 & Hm1 & Hm2 & Hs1 & Hs2);
      [done..|].
    exists i', d', st'. split; [exact Hrun|]. split; [done|].
    split; [done|]. split; [done|].
    split; [by rewrite Hm1, pil_crop_mode|].
    split; [by rewrite Hm2, pil_crop_mode|].
    rewrite Hs1, Hs2. split; apply kb_crop_size.
  - destruct (rotate_step st (crop (43, 45, 608, 472) image)
                (crop (43, 45, 608, 472) depth_gt))
      as (i' & d' & st' & Hrun & Hheap & Hw1 & Hw2 & Hm1 & Hm2 & Hs1 & Hs2);
      [by apply pil_crop_wf..|].
    exists i', d', st'. split; [exact Hrun|]. split; [done|].
    split; [done|]. split; [done|].
    split; [by rewrite Hm1, pil_crop_mode|].
    split; [by rewrite Hm2, pil_crop_mode|]. by rewrite Hs1, Hs2.
  - destruct (rotate_step st image depth_gt)
      as (i' & d' & st' & Hrun & Hheap & Hw1 & Hw2 & Hm1 & Hm2 & Hs1 & Hs2);
      [done..|].
    by exists i', d', st'.
Qed.
End TrainPil.

(** ** The whole of [__getitem__] *)

(** The image array before any crop: the decoded values over 255. *)
Definition scaled_nd (image : pil_image) : ndarray spec_float :=
  nd_map (fun x => F32.div x (f32_of_f64 (F64.of_Z 255))) (np_asarray_f32 image).

Lemma scaled_nd_3 (image : pil_image) :
  getmodebands (pil_mode image) = 3%nat -> scaled_nd image = Nd3 (scaled_image image).
Proof. intros Hb. unfold scaled_nd, np_asarray_f32. by rewrite Hb. Qed.

Section TrainArrays.
Context {G : Type} `{RandomSource G}.
Variable f32_pow : spec_float -> spec_float -> spec_float.
Variable args : Args.
Implicit Types (st : state spec_float G).

(** The train branch up to the random crop: the two arrays it has
    made, and what is left to run. *)
Lemma getitem_train_arrays st (image depth_gt : pil_image) (focal : spec_float) :
  getmodebands (pil_mode depth_gt) = 1%nat ->
  exists (li ld : nat) st4,
    heap st ⊆ heap st4
    /\ rng st4 = rng st
    /\ heap st4 !! li = Some (scaled_nd image)
    /\ heap st4 !! ld = Some (Nd3 (scaled_depth args depth_gt))
    /\ getitem_train f32_pow args image depth_gt focal st
       = ('(image, depth_gt) ← random_crop li ld (input_height args) (input_width args);
          '(image, depth_gt) ← train_preprocess f32_pow args image depth_gt;
          mret {| sample_image := image; sample_depth := Some depth_gt;
                  sample_focal := focal |}) st4.
Proof.
  intros Hbd. unfold getitem_train. fold (scaled_nd image).
  unfold np_asarray_f32 at 1. rewrite Hbd. cbn [Nat.eqb].
  fold (raw_depth depth_gt).
  run_step.
  set (l1 := fresh (dom (heap st))).
  set (st1 := {| heap := <[l1 := _]> _; rng := _ |}).
  assert (Hl1 : heap st1 !! l1 = Some (scaled_nd image))
    by apply lookup_insert_eq.
  run_step.
  set (l2 := fresh (dom (heap st1))).
  set (st2 := {| heap := <[l2 := _]> _; rng := _ |}).
  assert (Hl2 : heap st2 !! l2
                = Some (NdFlat [pil_height depth_gt; pil_width depth_gt]
                          (raw_depth depth_gt))) by apply lookup_insert_eq.
  rewrite run_bind, (run_load _ _ _ Hl2). cbn beta iota.
  rewrite run_bind. cbn [expand_dims2 lift]. rewrite run_ret. cbn beta iota.
  run_step.
  set (l3 := fresh (dom (heap st2))).
  set (st3 := {| heap := <[l3 := _]> _; rng := _ |}).
  assert (Hl3 : heap st3 !! l3
                = Some (Nd3 (reshape3 (pil_height depth_gt) (pil_width depth_gt) 1
                               (raw_depth depth_gt)))) by apply lookup_insert_eq.
  rewrite run_bind, (run_load _ _ _ Hl3). cbn beta iota.
  run_step. cbn [nd_map]. fold (scaled_depth args depth_gt).
  set (l4 := fresh (dom (heap st3))).
  set (st4 := {| heap := <[l4 := _]> _; rng := _ |}).
  assert (Hs01 : heap st ⊆ heap st1) by apply alloc_extends.
  assert (Hs12 : heap st1 ⊆ heap st2) by apply alloc_extends.
  assert (Hs23 : heap st2 ⊆ heap st3) by apply alloc_extends.
  assert (Hs34 : heap st3 ⊆ heap st4) by apply alloc_extends.
  exists l1, l4, st4.
  split; [by do 3 (etransitivity; [eassumption|])|].
  split; [reflexivity|].
  split.
  { eapply lookup_weaken; [exact Hl1|]. by do 2 (etransitivity; [eassumption|]). }
  split; [apply lookup_insert_eq|]. reflexivity.
Qed.
End TrainArrays.

Section TrainEndToEnd.
Context {G : Type} `{RandomSourceLaws G}.
Variable f32_pow : spec_float -> spec_float -> spec_float.
Variable args : Args.
Implicit Types (st : state spec_float G).

(** The train branch on a three-band image and a single-band depth
    map of one size, at least the input size: the sample's arrays, by
    the offset of the crop and the generator [train_preprocess] starts
    with. *)
Lemma getitem_train_out st (image depth_gt : pil_image) (focal : spec_float) :
  getmodebands (pil_mode image) = 3%nat ->
  getmodebands (pil_mode depth_gt) = 1%nat ->
  pil_size image = pil_size depth_gt ->
  (input_height args <= pil_height image)%nat ->
  (input_width args <= pil_width image)%nat ->
  exists (s : sample) st' (d : nat) (x y : Z) (g : G),
    getitem_train f32_pow args image depth_gt focal st = (Ok s, st')
    /\ sample_focal s = focal
    /\ sample_depth s = Some d
    /\ 0 <= x <= Z.of_nat (pil_width image) - Z.of_nat (input_width args)
    /\ 0 <= y <= Z.of_nat (pil_height image) - Z.of_nat (input_height args)
    /\ heap st' !! sample_image s
       = Some (Nd3 (preprocessed_image f32_pow args g
                      (window x y (input_height args) (input_width args)
                         (scaled_image image))))
    /\ heap st' !! d
       = Some (Nd3 (mirror_if (draws_flip g)
                      (window x y (input_height args) (input_width args)
                         (scaled_depth args depth_gt)))).
Proof.
  intros Hbi Hbd Hsize Hih Hiw.
  injection Hsize as Hw Hh.
  destruct (getitem_train_arrays f32_pow args st image depth_gt focal Hbd)
    as (li & ld & st4 & _ & _ & Hli & Hld & ->).
  rewrite (scaled_nd_3 image Hbi) in Hli.
  destruct (random_crop_run st4 li ld _ _ (input_height args) (input_width args)
              Hli Hld)
    as (x & y & img' & depth' & st5 & Hrun & Hx & Hy & Hi' & Hd');
    try done.
  rewrite run_bind, Hrun. cbn beta iota.
  assert (Hci : shape2 (window x y (input_height args) (input_width args)
                          (scaled_image image)) = 3%nat) by exact Hbi.
  destruct (train_preprocess_arrays f32_pow args st5 img' depth' _ _ Hi' Hd' Hci)
    as (image2 & depth2 & st6 & Hrun' & _ & Hi2 & Hd2 & _).
  rewrite run_bind, Hrun'. cbn beta iota. rewrite run_ret.
  eexists _, st6, depth2, x, y, (rng st5). split; [reflexivity|].
  cbn [sample_focal sample_depth sample_image].
  split; [done|]. split; [done|]. split; [exact Hx|]. split; [exact Hy|].
  split; [exact Hi2|exact Hd2].
Qed.

(** The shapes of such a sample. *)
Lemma getitem_train_sample st (image depth_gt : pil_image) (focal : spec_float) :
  wf_pil image -> getmodebands (pil_mode image) = 3%nat ->
  wf_pil depth_gt -> getmodebands (pil_mode depth_gt) = 1%nat ->
  pil_size image = pil_size depth_gt ->
  (input_height args <= pil_height image)%nat ->
  (input_width args <= pil_width image)%nat ->
  exists (s : sample) st' (d : nat) (oi od : array3 spec_float),
    getitem_train f32_pow args image depth_gt focal st = (Ok s, st')
    /\ sample_focal s = focal
    /\ sample_depth s = Some d
    /\ heap st' !! sample_image s = Some (Nd3 oi)
    /\ heap st' !! d = Some (Nd3 od)
    /\ wf3 oi /\ wf3 od
    /\ shape3 oi = (input_height args, input_width args, 3%nat)
    /\ shape3 od = (input_height args, input_width args, 1%nat).
Proof.
  intros Hwfi Hbi Hwfd Hbd Hsize Hih Hiw.
  destruct (getitem_train_out st image depth_gt focal Hbi Hbd Hsize Hih Hiw)
    as (s & st' & d & x & y & g & Hrun & Hfocal & Hsd & Hx & Hy & Hi & Hd).
  injection Hsize as Hw Hh.
  set (wi := window x y (input_height args) (input_width args) (scaled_image image))
    in *.
  set (wd := window x y (input_height args) (input_width args)
               (scaled_depth args depth_gt)) in *.
  assert (Hwi : wf3 wi) by (by apply slice3_wf, scaled_image_wf).
  assert (Hwd : wf3 wd) by (by apply slice3_wf, scaled_depth_wf).
  assert (Hsi : shape3 wi = (input_height args, input_width args, 3%nat)).
  { subst wi. rewrite window_shape by done. simpl. by rewrite Hbi. }
  assert (Hsd' : shape3 wd = (input_height args, input_width args, 1%nat)).
  { subst wd. rewrite window_shape; simpl; rewrite <- ?Hh, <- ?Hw; done. }
  assert (Hci : shape2 wi = 3%nat) by (by injection Hsi).
  destruct (preprocessed_image_wf f32_pow args g wi Hwi Hci) as [Hwf2 Hs2].
  eexists s, st', d, _, _. split; [exact Hrun|].
  split; [done|]. split; [done|]. split; [exact Hi|]. split; [exact Hd|].
  split; [exact Hwf2|]. split; [by apply mirror_if_wf|].
  split; [by rewrite Hs2|].
  by destruct (draws_flip g).
Qed.

(** X14. Image and depth of a train sample stay aligned through the
    whole branch: they are the same window of the two files, at one
    offset drawn within the spare rows and columns, and under the same
    mirror; only the image is augmented. *)
Theorem getitem_train_aligned st (image depth_gt : pil_image) (focal : spec_float) :
  String.eqb (mode args) "train" = true ->
  wf_pil image -> getmodebands (pil_mode image) = 3%nat ->
  wf_pil depth_gt -> getmodebands (pil_mode depth_gt) = 1%nat ->
  pil_size image = pil_size depth_gt ->
  (input_height args <= pil_height image)%nat ->
  (input_width args <= pil_width image)%nat ->
  exists (s : sample) st' (d : nat) (x y : Z) (mirrored : bool)
         (oi od : array3 spec_float),
    getitem f32_pow args None image depth_gt focal st = (Ok s, st')
    /\ sample_depth s = Some d
    /\ heap st' !! sample_image s = Some (Nd3 oi)
    /\ heap st' !! d = Some (Nd3 od)
    /\ 0 <= x <= Z.of_nat (pil_width image) - Z.of_nat (input_width args)
    /\ 0 <= y <= Z.of_nat (pil_height image) - Z.of_nat (input_height args)
    /\ od = mirror_if mirrored
              (window x y (input_height args) (input_width args)
                 (scaled_depth args depth_gt))
    /\ (oi = mirror_if mirrored
               (window x y (input_height args) (input_width args)
                  (scaled_image image))
        \/ exists g,
            oi = mirror_if mirrored
                   (augmented_from f32_pow args g
                      (window x y (input_height args) (input_width args)
                         (scaled_image image)))).
Proof.
  intros Hmode Hwfi Hbi Hwfd Hbd Hsize Hih Hiw.
  destruct (getitem_train_out st image depth_gt focal Hbi Hbd Hsize Hih Hiw)
    as (s & st' & d & x & y & g & Hrun & Hfocal & Hsd & Hx & Hy & Hi & Hd).
  unfold getitem. rewrite Hmode, run_bind, Hrun. cbn beta iota. rewrite run_ret.
  eexists s, st', d, x, y, (draws_flip g), _, _.
  split; [reflexivity|]. split; [exact Hsd|]. split; [exact Hi|].
  split; [exact Hd|]. split; [exact Hx|]. split; [exact Hy|].
  split; [reflexivity|].
  unfold preprocessed_image. destruct (draws_augment g); [|by left].
  right. eexists. unfold augmented_from, mirror_if.
  destruct (draws_flip g); [|reflexivity].
  apply augmented_fliplr.
  - by apply slice3_wf, scaled_image_wf.
  - exact Hbi.
  - apply draw_colors_length.
Qed.
End TrainEndToEnd.

(** ** The depth of a train sample *)

Lemma rev_lookup {A : Type} (l : list A) (i : nat) :
  (i < length l)%nat -> rev l !! i = l !! (length l - S i)%nat.
Proof. intros Hi. rewrite rev_alt. by apply (reverse_lookup l i). Qed.

(** [a[:, ::-1, :][i, j, k]] is [a[i, w - 1 - j, k]]. *)
Lemma fliplr_get {A : Type} (a : array3 A) (i j k : nat) :
  wf3 a -> (j < shape1 a)%nat ->
  get3 (fliplr a) i j k = get3 a i (shape1 a - 1 - j) k.
Proof.
  intros [Hlen Hrows] Hj. unfold get3, fliplr. cbn [data].
  rewrite list_lookup_fmap.
  destruct (data a !! i) as [row|] eqn:Erow; simpl; [|done].
  unfold wf_rows in Hrows. rewrite Forall_lookup in Hrows.
  destruct (Hrows _ _ Erow) as [Hw _].
  rewrite rev_lookup by lia. rewrite Hw.
  by replace (shape1 a - S j)%nat with (shape1 a - 1 - j)%nat by lia.
Qed.

Lemma get3_defined {A : Type} (a : array3 A) (i j k : nat) :
  wf3 a -> (i < shape0 a)%nat -> (j < shape1 a)%nat -> (k < shape2 a)%nat ->
  is_Some (get3 a i j k).
Proof.
  intros [Hlen Hrows] Hi Hj Hk. unfold get3.
  destruct (lookup_lt_is_Some_2 (data a) i) as [row Erow]; [lia|].
  rewrite Erow. simpl.
  unfold wf_rows in Hrows. rewrite Forall_lookup in Hrows.
  destruct (Hrows _ _ Erow) as [Hw Hpx].
  destruct (lookup_lt_is_Some_2 row j) as [px Epx]; [lia|].
  rewrite Epx. simpl. rewrite Forall_lookup in Hpx. specialize (Hpx _ _ Epx).
  apply lookup_lt_is_Some_2. lia.
Qed.

Section TrainDepth.
Context {G : Type} `{RandomSourceLaws G}.
Variable f32_pow : spec_float -> spec_float -> spec_float.
Variable args : Args.
Implicit Types (st : state spec_float G).

(** The depth array before the crop is the decoded array, every value
    divided by the divisor. *)
Lemma scaled_depth_map (depth_gt : pil_image) :
  wf_pil depth_gt -> getmodebands (pil_mode depth_gt) = 1%nat ->
  scaled_depth args depth_gt
  = map3 (fun x => F32.div x (depth_divisor args)) (pil_array3 depth_gt).
Proof.
  intros Hwf Hb. unfold scaled_depth, raw_depth. f_equal.
  pose proof (reshape3_of_ravel (pil_array3 depth_gt) (pil_array3_wf _ Hwf)) as E.
  change (shape0 (pil_array3 depth_gt)) with (pil_height depth_gt) in E.
  change (shape1 (pil_array3 depth_gt)) with (pil_width depth_gt) in E.
  change (shape2 (pil_array3 depth_gt)) with (getmodebands (pil_mode depth_gt)) in E.
  by rewrite Hb in E.
Qed.

(** An element of the window of the depth array, mirrored or not, is
    the decoded value at its place, divided by the divisor. *)
Lemma depth_window_get (depth_gt : pil_image) (x y : Z) (mirrored : bool)
    (i j : nat) :
  wf_pil depth_gt -> getmodebands (pil_mode depth_gt) = 1%nat ->
  0 <= x <= Z.of_nat (pil_width depth_gt) - Z.of_nat (input_width args) ->
  0 <= y <= Z.of_nat (pil_height depth_gt) - Z.of_nat (input_height args) ->
  (i < input_height args)%nat -> (j < input_width args)%nat ->
  exists v : spec_float,
    get3 (pil_array3 depth_gt) (Z.to_nat y + i)
         (Z.to_nat x + (if mirrored then input_width args - 1 - j else j)) 0
    = Some v
    /\ get3 (mirror_if mirrored
               (window x y (input_height args) (input_width args)
                  (scaled_depth args depth_gt))) i j 0
       = Some (F32.div v (depth_divisor args)).
Proof.
  intros Hwf Hb Hx Hy Hi Hj.
  pose proof (scaled_depth_wf args depth_gt Hwf Hb) as Hwfs.
  set (j' := if mirrored then (input_width args - 1 - j)%nat else j).
  assert (Hj' : (j' < input_width args)%nat) by (unfold j'; destruct mirrored; lia).
  destruct (get3_defined (pil_array3 depth_gt) (Z.to_nat y + i) (Z.to_nat x + j') 0)
    as [v Hv].
  { by apply pil_array3_wf. }
  { simpl. lia. }
  { simpl. lia. }
  { simpl. rewrite Hb. lia. }
  exists v. split; [exact Hv|].
  assert (Hget : get3 (window x y (input_height args) (input_width args)
                         (scaled_depth args depth_gt)) i j' 0
                 = Some (F32.div v (depth_divisor args))).
  { rewrite window_get by done.
    by rewrite (scaled_depth_map depth_gt Hwf Hb), map3_get, Hv. }
  assert (Hs1 : shape1 (window x y (input_height args) (input_width args)
                          (scaled_depth args depth_gt)) = input_width args).
  { unfold window, slice3. cbn [shape1].
    change (shape1 (scaled_depth args depth_gt)) with (pil_width depth_gt).
    rewrite slice_len_window by lia. apply Nat2Z.id. }
  unfold j' in Hget. unfold mirror_if. destruct mirrored; [|exact Hget].
  rewrite fliplr_get; [by rewrite Hs1|by apply slice3_wf|by rewrite Hs1].
Qed.

(** C2. The train-mode loader divides the decoded depth by 1000 for
    the dataset "nyu" and by 256 for any other.  The depth array of the
    sample has the configured height and width and one channel; it is
    the window of the decoded depth at the offset the random crop
    draws, mirrored or not, and its element in row [i] and column [j]
    is the decoded value at that place of the file divided by the
    divisor.  So a raw 1000 gives 1.0 under "nyu" and a raw 256 gives
    1.0 otherwise. *)
Theorem getitem_train_depth_scale st (image depth_gt : pil_image)
    (focal : spec_float) :
  String.eqb (mode args) "train" = true ->
  wf_pil image -> getmodebands (pil_mode image) = 3%nat ->
  wf_pil depth_gt -> getmodebands (pil_mode depth_gt) = 1%nat ->
  pil_height image = pil_height depth_gt ->
  pil_width image = pil_width depth_gt ->
  (input_height args <= pil_height image)%nat ->
  (input_width args <= pil_width image)%nat ->
  depth_divisor args
  = (if String.eqb (dataset args) "nyu" then F32.of_Z 1000 else F32.of_Z 256)
  /\ (exists (s : sample) st' (d : nat) (out : array3 spec_float)
             (x y : Z) (mirrored : bool),
        getitem f32_pow args None image depth_gt focal st = (Ok s, st')
        /\ sample_depth s = Some d
        /\ heap st' !! d = Some (Nd3 out)
        /\ wf3 out
        /\ shape3 out = (input_height args, input_width args, 1%nat)
        /\ all3 (fun v' => exists v, In v (raw_depth depth_gt)
                                     /\ v' = F32.div v (depth_divisor args)) out
        /\ 0 <= x <= Z.of_nat (pil_width depth_gt) - Z.of_nat (input_width args)
        /\ 0 <= y <= Z.of_nat (pil_height depth_gt) - Z.of_nat (input_height args)
        /\ (forall i j : nat,
              (i < input_height args)%nat -> (j < input_width args)%nat ->
              exists v : spec_float,
                get3 (pil_array3 depth_gt) (Z.to_nat y + i)
                     (Z.to_nat x
                      + (if mirrored then input_width args - 1 - j else j)) 0
                = Some v
                /\ get3 out i j 0 = Some (F32.div v (depth_divisor args))))
  /\ (String.eqb (dataset args) "nyu" = true ->
      F32.div (F32.of_Z 1000) (depth_divisor args) = F32.one)
  /\ (String.eqb (dataset args) "nyu" = false ->
      F32.div (F32.of_Z 256) (depth_divisor args) = F32.one).
Proof.
  intros Hmode Hwfi Hbi Hwfd Hbd Hh Hw Hih Hiw.
  split; [unfold depth_divisor; by destruct (String.eqb _ _)|].
  split.
  - destruct (getitem_train_run f32_pow args st image depth_gt focal
                Hwfi Hbi Hwfd Hbd Hh Hw Hih Hiw)
      as (s & st' & x & y & d & Hrun & Hsd & _ & Hx & Hy & Hcases).
    rewrite Hw in Hx. rewrite Hh in Hy.
    pose proof (scaled_depth_all args depth_gt Hwfd Hbd) as Hall.
    pose proof (scaled_depth_wf args depth_gt Hwfd Hbd) as Hwfs.
    assert (Hshape : shape3 (window x y (input_height args) (input_width args)
                               (scaled_depth args depth_gt))
                     = (input_height args, input_width args, 1%nat))
      by (by apply window_shape).
    unfold getitem. rewrite run_bind, Hmode, Hrun, run_ret.
    destruct Hcases as [Hd|Hd].
    + eexists s, st', d, _, x, y, false.
      split; [reflexivity|]. split; [exact Hsd|]. split; [exact Hd|].
      split; [by apply slice3_wf|]. split; [exact Hshape|].
      split; [by apply all3_slice3|]. split; [exact Hx|]. split; [exact Hy|].
      intros i j Hi Hj.
      exact (depth_window_get depth_gt x y false i j Hwfd Hbd Hx Hy Hi Hj).
    + eexists s, st', d, _, x, y, true.
      split; [reflexivity|]. split; [exact Hsd|]. split; [exact Hd|].
      split; [by apply fliplr_wf, slice3_wf|]. split; [exact Hshape|].
      split; [by apply all3_fliplr, all3_slice3|].
      split; [exact Hx|]. split; [exact Hy|].
      intros i j Hi Hj.
      exact (depth_window_get depth_gt x y true i j Hwfd Hbd Hx Hy Hi Hj).
  - unfold depth_divisor. split; intros ->; by vm_compute.
Qed.
End TrainDepth.

Section Opened.
Variable tobytes : string -> list (list (list Z)) -> list Z.
Variable pil_rotate : spec_float -> resample -> pil_image -> pil_image.
Context {G : Type} `{RandomSourceLaws G}.
Variable f32_pow : spec_float -> spec_float -> spec_float.
Variable args : Args.
Variables (do_random_rotate : bool) (degree : spec_float).
Implicit Types (st : state spec_float G).

Hypothesis pil_rotate_keeps : forall angle flag p,
  wf_pil p ->
  wf_pil (pil_rotate angle flag p)
  /\ pil_size (pil_rotate angle flag p) = pil_size p
  /\ pil_mode (pil_rotate angle flag p) = pil_mode p.

Local Abbreviation opened :=
  (getitem_opened tobytes pil_rotate f32_pow args do_random_rotate degree).

(** The size (width, height) of the images the train branch turns
    into arrays. *)
Definition cropped_size (image : pil_image) : nat * nat :=
  if String.eqb (dataset args) "nyu" then (565%nat, 427%nat)
  else if do_kb_crop args then (1216%nat, 352%nat)
  else pil_size image.

(** The PIL step on files whose sizes agree where no crop makes them
    agree. *)
Lemma train_pil_cropped st (image depth_gt : pil_image) :
  wf_pil image -> wf_pil depth_gt ->
  (String.eqb (dataset args) "nyu" = false -> do_kb_crop args = false ->
   pil_size image = pil_size depth_gt) ->
  exists (image' depth' : pil_image) st',
    getitem_train_pil tobytes pil_rotate args do_random_rotate degree
      image depth_gt st = (Ok (image', depth'), st')
    /\ wf_pil image' /\ wf_pil depth'
    /\ pil_mode image' = pil_mode image
    /\ pil_mode depth' = pil_mode depth_gt
    /\ pil_size image' = cropped_size image
    /\ pil_size depth' = cropped_size image.
Proof.
  intros Hwfi Hwfd Hsame.
  destruct (getitem_train_pil_run tobytes pil_rotate args do_random_rotate degree
              pil_rotate_keeps st image depth_gt Hwfi Hwfd)
    as (i' & d' & st' & Hrun & _ & Hw1 & Hw2 & Hm1 & Hm2 & Hs).
  exists i', d', st'. split; [exact Hrun|]. split; [done|]. split; [done|].
  split; [done|]. split; [done|]. unfold cropped_size.
  destruct (String.eqb (dataset args) "nyu"); [done|].
  destruct (do_kb_crop args); [done|].
  destruct Hs as [-> ->]. by rewrite Hsame.
Qed.

(** X15. Which input sizes the train branch accepts.  The PIL crops
    fix the size of the images that reach [random_crop]: 565 by 427 for
    the dataset "nyu", 1216 by 352 under the KITTI benchmark crop, the
    size of the files otherwise; a rotation keeps it.  The sample is
    produced exactly when the input height and width are within that
    size, and [AssertionError] is raised otherwise, whatever the size
    of the files under a crop. *)
Theorem getitem_opened_accepts st (image depth_gt : pil_image) (focal : spec_float) :
  String.eqb (mode args) "train" = true ->
  wf_pil image -> getmodebands (pil_mode image) = 3%nat ->
  wf_pil depth_gt -> getmodebands (pil_mode depth_gt) = 1%nat ->
  (String.eqb (dataset args) "nyu" = false -> do_kb_crop args = false ->
   pil_size image = pil_size depth_gt) ->
  ((input_width args <= fst (cropped_size image))%nat
   /\ (input_height args <= snd (cropped_size image))%nat ->
   exists (s : sample) st', opened None image depth_gt focal st = (Ok s, st'))
  /\ (~ ((input_width args <= fst (cropped_size image))%nat
         /\ (input_height args <= snd (cropped_size image))%nat) ->
      fst (opened None image depth_gt focal st) = Raise AssertionError).
Proof.
  intros Hmode Hwfi Hbi Hwfd Hbd Hsame.
  destruct (train_pil_cropped st image depth_gt Hwfi Hwfd Hsame)
    as (i' & d' & st' & Hrun & Hw1 & Hw2 & Hm1 & Hm2 & Hs1 & Hs2).
  unfold getitem_opened. rewrite Hmode, run_bind, Hrun. cbn beta iota.
  unfold getitem. rewrite Hmode, run_bind.
  rewrite <- Hm1 in Hbi. rewrite <- Hm2 in Hbd.
  rewrite <- Hs1. unfold pil_size at 1 2 3 4. cbn [fst snd].
  split.
  - intros [Hiw Hih].
    destruct (getitem_train_sample f32_pow args st' i' d' focal Hw1 Hbi Hw2 Hbd)
      as (s & st2 & d & oi & od & Hrun2 & _); [congruence|done|done|].
    rewrite Hrun2. cbn beta iota. rewrite run_ret. by eauto.
  - intros Hno.
    destruct (getitem_train_arrays f32_pow args st' i' d' focal Hbd)
      as (li & ld & st4 & _ & _ & Hli & Hld & ->).
    rewrite (scaled_nd_3 i' Hbi) in Hli.
    rewrite run_bind.
    rewrite (random_crop_rejects st4 li ld _ _ (pil_height i') (pil_width i')
               (pil_height d') (pil_width d') _ _ Hli Hld);
      [done|done|done|done|done|].
    intros (Hh & Hw & _). apply Hno. done.
Qed.

(** X16. A train sample end to end, from the opened files through the
    crops, the augmentation and the loader's transform: the image
    tensor has shape (3, input height, input width), the depth tensor
    (1, input height, input width), and the focal length is the one
    read from the line. *)
Theorem getitem_opened_train_shapes st (image depth_gt : pil_image)
    (focal : spec_float) :
  String.eqb (mode args) "train" = true ->
  wf_pil image -> getmodebands (pil_mode image) = 3%nat ->
  wf_pil depth_gt -> getmodebands (pil_mode depth_gt) = 1%nat ->
  (String.eqb (dataset args) "nyu" = false -> do_kb_crop args = false ->
   pil_size image = pil_size depth_gt) ->
  (input_width args <= fst (cropped_size image))%nat ->
  (input_height args <= snd (cropped_size image))%nat ->
  exists (s : sample) st' (d : nat) (ti td : array3 spec_float),
    opened (Some (preprocessing_transforms false)) image depth_gt focal st
    = (Ok s, st')
    /\ sample_focal s = focal
    /\ sample_depth s = Some d
    /\ heap st' !! sample_image s = Some (Nd3 ti)
    /\ heap st' !! d = Some (Nd3 td)
    /\ shape3 ti = (3%nat, input_height args, input_width args)
    /\ shape3 td = (1%nat, input_height args, input_width args).
Proof.
  intros Hmode Hwfi Hbi Hwfd Hbd Hsame Hiw Hih.
  destruct (train_pil_cropped st image depth_gt Hwfi Hwfd Hsame)
    as (i' & d' & st' & Hrun & Hw1 & Hw2 & Hm1 & Hm2 & Hs1 & Hs2).
  unfold getitem_opened. rewrite Hmode, run_bind, Hrun. cbn beta iota.
  unfold getitem. rewrite Hmode, run_bind.
  rewrite <- Hm1 in Hbi. rewrite <- Hm2 in Hbd.
  rewrite <- Hs1 in Hiw, Hih. unfold pil_size in Hiw, Hih. cbn [fst snd] in Hiw, Hih.
  destruct (getitem_train_sample f32_pow args st' i' d' focal Hw1 Hbi Hw2 Hbd)
    as (s & st2 & d & oi & od & Hrun2 & Hfocal & Hsd & Hoi & Hod & Hwoi & Hwod
        & Hsi & Hso); [congruence|done|done|].
  rewrite Hrun2. cbn beta iota.
  injection Hsi as Hi0 Hi1 Hi2. injection Hso as Hd0 Hd1 Hd2.
  destruct (ToTensor_call_run F32.sub F32.div
              (fun n d => f32_of_f64 (F64.lit n d)) F32.of_Z false st2 s oi
              Hoi Hi2)
    as (s3 & st3 & Hrun3 & _ & Hfocal3 & Ht & d0 & ad0 & dt & Hsd0 & Hd0' & Hdt & Htd).
  { intros _. by exists d, od. }
  rewrite Hsd in Hsd0. injection Hsd0 as <-.
  rewrite Hod in Hd0'. injection Hd0' as <-.
  eexists s3, st3, dt, _, _. split; [exact Hrun3|].
  split; [congruence|]. split; [exact Hdt|]. split; [exact Ht|].
  split; [exact Htd|]. unfold shape3. simpl.
  by rewrite Hi0, Hi1, Hi2, Hd0, Hd1, Hd2.
Qed.
End Opened.

(** ** The range of a train image *)

(** A byte over 255 lies in [[0, 1]]. *)
Lemma byte_unit (v : Z) :
  0 <= v <= 255 ->
  in_range F32.zero F32.one (F32.div (F32.of_Z v) (f32_of_f64 (F64.of_Z 255))) = true.
Proof.
  intros Hv.
  assert (Hall : forallb (fun n : nat =>
                   in_range F32.zero F32.one
                     (F32.div (F32.of_Z (Z.of_nat n)) (f32_of_f64 (F64.of_Z 255))))
                   (seq 0 256) = true) by (vm_compute; reflexivity).
  rewrite forallb_forall in Hall.
  specialize (Hall (Z.to_nat v)). rewrite Z2Nat.id in Hall by lia.
  apply Hall, in_seq. lia.
Qed.

Lemma scaled_image_unit (image : pil_image) :
  Forall (Forall (Forall (fun v => 0 <= v <= 255))) (pil_px image) ->
  all3 (fun v => in_range F32.zero F32.one v = true) (scaled_image image).
Proof.
  intros Hpx. unfold scaled_image.
  apply (all3_map3 (fun v => exists n, 0 <= n <= 255 /\ v = F32.of_Z n)).
  - intros x (n & Hn & ->). by apply byte_unit.
  - unfold all3, pil_array3. simpl. rewrite Forall_map.
    eapply Forall_impl; [exact Hpx|]. intros row Hrow. cbv beta.
    rewrite Forall_map. eapply Forall_impl; [exact Hrow|]. intros px Hp. cbv beta.
    rewrite Forall_map. eapply Forall_impl; [exact Hp|]. intros v Hv. cbv beta.
    by exists v.
Qed.

Section TrainRange.
Context {G : Type} `{RandomSourceLaws G}.
Variable f32_pow : spec_float -> spec_float -> spec_float.
Variable args : Args.
Implicit Types (st : state spec_float G).

Hypothesis f32_pow_nonneg : forall x g : spec_float,
  SFleb F32.zero x = true -> g <> S754_nan -> f32_pow x g <> S754_nan.

Lemma preprocessed_image_unit (g : G) (a : array3 spec_float) :
  all3 (fun v => in_range F32.zero F32.one v = true) a ->
  all3 (fun v => in_range F32.zero F32.one v = true)
       (preprocessed_image f32_pow args g a).
Proof.
  intros Ha. unfold preprocessed_image.
  assert (Hm : all3 (fun v => in_range F32.zero F32.one v = true)
                 (mirror_if (draws_flip g) a)).
  { unfold mirror_if. destruct (draws_flip g); [by apply all3_fliplr|done]. }
  destruct (draws_augment g); [|done].
  unfold augmented_from. apply augmented_in_range; try done.
  - apply draw_gamma_not_nan.
  - apply draw_brightness_finite.
  - apply draw_colors_finite.
Qed.

(** X17. Every value of a train image lies in [[0, 1]]: the bytes of
    the file divided by 255 do, the crop and the mirror move values
    without changing them, and the augmentation clips. *)
Theorem getitem_train_image_unit st (image depth_gt : pil_image)
    (focal : spec_float) :
  String.eqb (mode args) "train" = true ->
  getmodebands (pil_mode image) = 3%nat ->
  getmodebands (pil_mode depth_gt) = 1%nat ->
  pil_size image = pil_size depth_gt ->
  (input_height args <= pil_height image)%nat ->
  (input_width args <= pil_width image)%nat ->
  Forall (Forall (Forall (fun v => 0 <= v <= 255))) (pil_px image) ->
  exists (s : sample) st' (out : array3 spec_float),
    getitem f32_pow args None image depth_gt focal st = (Ok s, st')
    /\ heap st' !! sample_image s = Some (Nd3 out)
    /\ all3 (fun v => in_range F32.zero F32.one v = true) out.
Proof.
  intros Hmode Hbi Hbd Hsize Hih Hiw Hpx.
  destruct (getitem_train_out f32_pow args st image depth_gt focal
              Hbi Hbd Hsize Hih Hiw)
    as (s & st' & d & x & y & g & Hrun & _ & _ & _ & _ & Hi & _).
  unfold getitem. rewrite Hmode, run_bind, Hrun. cbn beta iota. rewrite run_ret.
  eexists s, st', _. split; [reflexivity|]. split; [exact Hi|].
  apply preprocessed_image_unit. unfold window. apply all3_slice3.
  by apply scaled_image_unit.
Qed.
End TrainRange.

(** ** The KITTI benchmark crop on arrays *)

(** The rows and the columns the crop of the test branch keeps, for
    any height and width. *)
Definition kb_rows (h : nat) : nat :=
  if (352 <=? h)%nat then 352%nat else Nat.min h (352 - h).

Definition kb_cols (w : nat) : nat :=
  if (1216 <=? w)%nat then 1216%nat
  else if (w =? 1215)%nat then 1215%nat
  else Nat.min w ((1216 - w) / 2).

Ltac ltb_cases :=
  repeat match goal with
         | |- context [?a <? ?b] =>
             let E := fresh "E" in
             destruct (a <? b) eqn:E;
             [apply Z.ltb_lt in E|apply Z.ltb_ge in E]
         end.

Lemma kb_rows_slice (h : nat) :
  slice_len h (Z.of_nat h - 352) (Z.of_nat h - 352 + 352) = kb_rows h.
Proof.
  unfold slice_len, slice_index, kb_rows.
  destruct (352 <=? h)%nat eqn:E;
    [apply Nat.leb_le in E|apply Nat.leb_gt in E]; ltb_cases; lia.
Qed.

Lemma kb_cols_slice (w : nat) :
  slice_len w (Z.quot (Z.of_nat w - 1216) 2) (Z.quot (Z.of_nat w - 1216) 2 + 1216)
  = kb_cols w.
Proof.
  unfold slice_len, slice_index, kb_cols.
  destruct (decide (1216 <= w)%nat) as [Hw|Hw].
  - rewrite Z.quot_div_nonneg by lia.
    destruct (1216 <=? w)%nat eqn:E; [|apply Nat.leb_gt in E; lia].
    pose proof (half_spare w Hw) as Hhalf.
    ltb_cases; lia.
  - replace (Z.of_nat w - 1216) with (- (1216 - Z.of_nat w)) by lia.
    rewrite Z.quot_opp_l by lia. rewrite Z.quot_div_nonneg by lia.
    destruct (1216 <=? w)%nat eqn:E; [apply Nat.leb_le in E; lia|].
    assert (Hk : (1216 - Z.of_nat w) / 2 = Z.of_nat ((1216 - w) / 2)).
    { rewrite Nat2Z.inj_div, Nat2Z.inj_sub by lia. done. }
    rewrite Hk.
    assert (Hb : (2 * ((1216 - w) / 2) <= 1216 - w < 2 * ((1216 - w) / 2) + 2)%nat).
    { pose proof (Nat.div_mod (1216 - w) 2 ltac:(lia)) as Hdm.
      pose proof (Nat.mod_upper_bound (1216 - w) 2 ltac:(lia)). lia. }
    generalize dependent ((1216 - w) / 2)%nat. intros k Hk Hb.
    destruct (w =? 1215)%nat eqn:E0;
      [apply Nat.eqb_eq in E0|apply Nat.eqb_neq in E0]; ltb_cases; lia.
Qed.

Lemma py_slice_map {A B : Type} (f : A -> B) (lo hi : Z) (l : list A) :
  py_slice lo hi (map f l) = map f (py_slice lo hi l).
Proof.
  unfold py_slice. rewrite length_map.
  by rewrite <- firstn_map, <- skipn_map.
Qed.

Lemma slice3_map3 {A B : Type} (f : A -> B) (y0 y1 x0 x1 : Z) (a : array3 A) :
  slice3 y0 y1 x0 x1 (map3 f a) = map3 f (slice3 y0 y1 x0 x1 a).
Proof.
  unfold slice3, map3. simpl. f_equal.
  rewrite py_slice_map, !map_map. apply map_ext. intros row.
  by rewrite py_slice_map.
Qed.

Section TestCrop.
Context {G : Type} `{RandomSource G}.
Variable f32_pow : spec_float -> spec_float -> spec_float.
Variable args : Args.
Implicit Types (st : state spec_float G).

(** X18. The crop of the test branch is a slice, and a slice never
    fails: on an image lower than 352 or narrower than 1216 no error
    is raised, and the sample is smaller than 352 by 1216.  A negative
    margin counts from the end, so of [h < 352] rows the last
    [min h (352 - h)] are kept, and of [w < 1215] columns the last
    [min w ((1216 - w) / 2)]. *)
Theorem getitem_test_any_size st (image depth_gt : pil_image) (focal : spec_float) :
  wf_pil image ->
  getmodebands (pil_mode image) = 3%nat ->
  String.eqb (mode args) "train" = false ->
  do_kb_crop args = true ->
  exists (s : sample) st' (out : array3 spec_float),
    getitem f32_pow args None image depth_gt focal st = (Ok s, st')
    /\ heap st' !! sample_image s = Some (Nd3 out)
    /\ wf3 out
    /\ shape3 out = (kb_rows (pil_height image), kb_cols (pil_width image), 3%nat).
Proof.
  intros Hwf Hb Hmode Hkb.
  destruct (getitem_test_run args st image focal Hb)
    as (s & st' & Hrun & _ & _ & _ & Hout).
  exists s, st', (test_image args image). unfold getitem.
  rewrite run_bind, Hmode, Hrun, run_ret.
  split; [done|]. split; [done|]. split; [by apply test_image_wf|].
  unfold test_image. rewrite Hkb. unfold shape3, slice3. simpl.
  by rewrite kb_rows_slice, kb_cols_slice, Hb.
Qed.
End TestCrop.

Section CropAgreement.
Variable tobytes : string -> list (list (list Z)) -> list Z.
Context {G : Type} `{RandomSource G}.
Variable f32_pow : spec_float -> spec_float -> spec_float.
Variable args : Args.
Implicit Types (st : state spec_float G).

(** On an image that holds the box, the PIL crop and the slice give
    the same array. *)
Lemma pil_crop_slice (x0 y0 : Z) (w h : nat) (p : pil_image) :
  wf_pil p ->
  0 <= x0 -> x0 + Z.of_nat w <= Z.of_nat (pil_width p) ->
  0 <= y0 -> y0 + Z.of_nat h <= Z.of_nat (pil_height p) ->
  pil_array3 (pil_crop tobytes (x0, y0, x0 + Z.of_nat w, y0 + Z.of_nat h) p)
  = slice3 y0 (y0 + Z.of_nat h) x0 (x0 + Z.of_nat w) (pil_array3 p).
Proof.
  intros [Hlen Hrows] Hx0 Hx1 Hy0 Hy1.
  unfold pil_array3, pil_crop, slice3.
  cbn [pil_height pil_width pil_mode pil_px shape0 shape1 shape2 data].
  rewrite !slice_len_window by lia.
  replace (x0 + Z.of_nat w - x0) with (Z.of_nat w) by lia.
  replace (y0 + Z.of_nat h - y0) with (Z.of_nat h) by lia.
  rewrite !Nat2Z.id. f_equal.
  rewrite (crop_px_inside _ (pil_width p)) by (done || lia).
  rewrite py_slice_map, !map_map. apply map_ext. intros row.
  by rewrite py_slice_map.
Qed.

(** X19. Train and test crop the same region: on an image of at least
    352 by 1216, the array the test branch cuts out with a slice is
    the array of the image the train branch crops with PIL. *)
Theorem getitem_test_crop_is_pil_crop st (image depth_gt : pil_image)
    (focal : spec_float) :
  wf_pil image ->
  getmodebands (pil_mode image) = 3%nat ->
  String.eqb (mode args) "train" = false ->
  do_kb_crop args = true ->
  (352 <= pil_height image)%nat -> (1216 <= pil_width image)%nat ->
  exists (s : sample) st',
    getitem f32_pow args None image depth_gt focal st = (Ok s, st')
    /\ heap st' !! sample_image s
       = Some (Nd3 (scaled_image
                      (pil_crop tobytes
                         (kb_crop_box (pil_width image) (pil_height image))
                         image))).
Proof.
  intros Hwf Hb Hmode Hkb Hh Hw.
  destruct (getitem_test_run args st image focal Hb)
    as (s & st' & Hrun & _ & _ & _ & Hout).
  exists s, st'. unfold getitem.
  rewrite run_bind, Hmode, Hrun, run_ret.
  split; [done|]. rewrite Hout. do 2 f_equal.
  unfold test_image, scaled_image, kb_crop_box. rewrite Hkb. cbv zeta.
  rewrite slice3_map3. f_equal.
  rewrite Z.quot_div_nonneg by lia.
  pose proof (half_spare (pil_width image) Hw) as Hleft.
  symmetry.
  apply (pil_crop_slice ((Z.of_nat (pil_width image) - 1216) / 2)
           (Z.of_nat (pil_height image) - 352) 1216 352 image Hwf); lia.
Qed.
End CropAgreement.

Section SingleBand.
Context {G : Type} `{RandomSourceLaws G}.
Variable f32_pow : spec_float -> spec_float -> spec_float.
Variable args : Args.
Implicit Types (st : state spec_float G).

(** X20. The loader does not convert modes, and a single-band
    (grayscale) image file gives no sample: its array has two
    dimensions, so in train mode the random crop's subscript raises
    [IndexError], in test mode the benchmark crop's subscript raises
    [IndexError], and without that crop the transform's transpose
    raises [ValueError]. *)
Theorem getitem_single_band st (image depth_gt : pil_image) (focal : spec_float) :
  getmodebands (pil_mode image) = 1%nat ->
  (String.eqb (mode args) "train" = true ->
   getmodebands (pil_mode depth_gt) = 1%nat ->
   pil_size image = pil_size depth_gt ->
   (input_height args <= pil_height image)%nat ->
   (input_width args <= pil_width image)%nat ->
   fst (getitem f32_pow args None image depth_gt focal st) = Raise IndexError)
  /\ (String.eqb (mode args) "train" = false ->
      do_kb_crop args = true ->
      fst (getitem f32_pow args None image depth_gt focal st) = Raise IndexError)
  /\ (String.eqb (mode args) "train" = false ->
      do_kb_crop args = false ->
      fst (getitem f32_pow args (Some (preprocessing_transforms true))
             image depth_gt focal st) = Raise ValueError).
Proof.
  intros Hb.
  assert (Hnd : scaled_nd image
                = NdFlat [pil_height image; pil_width image]
                    (map (fun x => F32.div x (f32_of_f64 (F64.of_Z 255)))
                       (ravel (pil_array3 image)))).
  { unfold scaled_nd, np_asarray_f32. by rewrite Hb. }
  split; [|split].
  - intros Hmode Hbd Hsize Hih Hiw. injection Hsize as Hw Hh.
    unfold getitem. rewrite Hmode, run_bind.
    destruct (getitem_train_arrays f32_pow args st image depth_gt focal Hbd)
      as (li & ld & st4 & _ & _ & Hli & Hld & ->).
    rewrite Hnd in Hli. rewrite run_bind.
    pose proof (random_crop_two_dims st4 li ld _ _ _ _
                  (input_height args) (input_width args) Hli Hld Hh Hw Hih Hiw)
      as Hcrop.
    destruct (random_crop li ld (input_height args) (input_width args) st4)
      as [r st5]. simpl in Hcrop. by subst r.
  - intros Hmode Hkb. unfold getitem. rewrite Hmode, run_bind.
    unfold getitem_test. fold (scaled_nd image). rewrite Hnd, Hkb.
    run_step.
    set (l1 := fresh (dom (heap st))).
    set (st1 := {| heap := <[l1 := _]> _; rng := _ |}).
    assert (Hl1 : heap st1 !! l1
                  = Some (NdFlat [pil_height image; pil_width image]
                            (map (fun x => F32.div x (f32_of_f64 (F64.of_Z 255)))
                               (ravel (pil_array3 image)))))
      by apply lookup_insert_eq.
    rewrite run_bind. run_step. run_step.
    rewrite run_bind. unfold load3, bind. by rewrite (run_load _ _ _ Hl1).
  - intros Hmode Hkb. unfold getitem. rewrite Hmode, run_bind.
    unfold getitem_test. fold (scaled_nd image). rewrite Hnd, Hkb.
    run_step.
    set (l1 := fresh (dom (heap st))).
    set (st1 := {| heap := <[l1 := _]> _; rng := _ |}).
    assert (Hl1 : heap st1 !! l1
                  = Some (NdFlat [pil_height image; pil_width image]
                            (map (fun x => F32.div x (f32_of_f64 (F64.of_Z 255)))
                               (ravel (pil_array3 image)))))
      by apply lookup_insert_eq.
    rewrite run_bind, run_ret. cbn beta iota. rewrite run_ret. cbn beta iota.
    unfold preprocessing_transforms, ToTensor_call. cbn [sample_image].
    rewrite run_bind. unfold to_tensor, _is_numpy_image.
    rewrite run_bind, run_bind, (run_load _ _ _ Hl1). cbn beta iota.
    rewrite run_ret. cbn [ndim length _is_pil_image orb].
    rewrite (bool_decide_eq_true_2 (2%nat = 2%nat)) by done. cbn [orb negb].
    cbn iota. rewrite run_bind, (run_load _ _ _ Hl1). done.
Qed.
End SingleBand.

(** ** What the loader never raises *)

Section Ensures.
Context {A G : Type} `{RandomSource G}.

(** From any state, [m] returns a value that satisfies [Q] or raises
    an exception other than [KeyError]. *)
Definition ensures {X : Type} (Q : X -> Prop) (m : M A G X) : Prop :=
  forall st, match fst (m st) with
             | Ok x => Q x
             | Raise e => e <> KeyError
             end.

Lemma ensures_ret {X : Type} (Q : X -> Prop) (x : X) : Q x -> ensures Q (mret x).
Proof. intros Hx st. exact Hx. Qed.

Lemma ensures_raise {X : Type} (Q : X -> Prop) (e : exn) :
  e <> KeyError -> ensures Q (raise e).
Proof. intros He st. exact He. Qed.

Lemma ensures_bind {X Y : Type} (Q1 : X -> Prop) (Q : Y -> Prop)
    (m : M A G X) (k : X -> M A G Y) :
  ensures Q1 m -> (forall x, Q1 x -> ensures Q (k x)) -> ensures Q (m ≫= k).
Proof.
  intros Hm Hk st. rewrite run_bind. specialize (Hm st).
  destruct (m st) as [[x|e] st']; simpl in *; [|done].
  apply (Hk x Hm).
Qed.

Lemma ensures_weaken {X : Type} (Q Q' : X -> Prop) (m : M A G X) :
  ensures Q m -> (forall x, Q x -> Q' x) -> ensures Q' m.
Proof.
  intros Hm HQ st. specialize (Hm st).
  destruct (fst (m st)); [by apply HQ|done].
Qed.

Lemma ensures_alloc (o : ndarray A) : ensures (fun _ => True) (alloc o).
Proof. by intros st. Qed.

Lemma ensures_load (l : nat) : ensures (fun _ => True) (load l).
Proof. intros st. unfold load. by destruct (heap st !! l). Qed.

Lemma ensures_load3 (l : nat) : ensures (fun _ => True) (load3 l).
Proof.
  intros st. unfold load3, bind, load.
  destruct (heap st !! l) as [[a|shape flat]|]; simpl; try done.
  by destruct (length shape <? 3)%nat.
Qed.

Lemma ensures_store (l : nat) (o : ndarray A) : ensures (fun _ => True) (store l o).
Proof. by intros st. Qed.

Lemma ensures_draw {X : Type} (f : G -> X * G) : ensures (fun _ => True) (draw f).
Proof. intros st. by rewrite run_draw. Qed.

Lemma ensures_randint (a b : Z) : ensures (fun _ => True) (random_randint a b).
Proof.
  intros st. unfold random_randint. destruct (b <? a); [done|].
  by rewrite run_draw.
Qed.

Lemma ensures_np_uniform3 (a b : spec_float) :
  ensures (fun _ => True) (np_random_uniform3 (A := A) a b).
Proof.
  unfold np_random_uniform3.
  do 3 (apply (ensures_bind (fun _ => True)); [apply ensures_draw|intros ? _]).
  by apply (ensures_ret (fun _ => True)).
Qed.

Lemma ensures_assert (c : bool) : ensures (fun _ => True) (assert_ c).
Proof. intros st. by destruct c. Qed.
End Ensures.

(** Goes through a computation built from the primitives. *)
Ltac ensures_step :=
  lazymatch goal with
  | |- ensures _ (mret _) => apply ensures_ret; try done
  | |- ensures _ (raise _) => apply ensures_raise; done
  | |- ensures _ (alloc _) => apply ensures_alloc
  | |- ensures _ (load3 _) => apply ensures_load3
  | |- ensures _ (load _) => apply ensures_load
  | |- ensures _ (store _ _) => apply ensures_store
  | |- ensures _ (assert_ _) => apply ensures_assert
  | |- ensures _ (random_randint _ _) => apply ensures_randint
  | |- ensures _ (np_random_uniform3 _ _) => apply ensures_np_uniform3
  | |- ensures _ random_random => apply ensures_draw
  | |- ensures _ (random_uniform _ _) => apply ensures_draw
  | |- ensures _ (_ ≫= _) =>
      eapply (ensures_bind (fun _ => True)); [|intros ? _]
  | |- ensures _ (if ?b then _ else _) => destruct b
  | |- ensures _ (match ?x with _ => _ end) => destruct x
  end.

Section NoKeyError.
Context {G : Type} `{RandomSource G}.
Variable f32_pow : spec_float -> spec_float -> spec_float.
Variable args : Args.

Local Abbreviation Py := (M spec_float G).

Lemma ensures_shape_at (l i : nat) : ensures (fun _ => True) (shape_at (G := G) l i).
Proof. unfold shape_at. repeat ensures_step. Qed.

Lemma ensures_random_crop (img depth height width : nat) :
  ensures (fun _ => True) (random_crop (G := G) img depth height width).
Proof.
  unfold random_crop.
  repeat first [apply ensures_shape_at | ensures_step].
Qed.

Lemma ensures_augment_image (image : nat) :
  ensures (fun _ => True) (augment_image (G := G) f32_pow args image).
Proof.
  unfold augment_image.
  repeat first [apply ensures_shape_at | ensures_step].
Qed.

Lemma ensures_flip_both (image depth_gt : nat) :
  ensures (fun _ => True) (flip_both (G := G) image depth_gt).
Proof. unfold flip_both. repeat ensures_step. Qed.

Lemma ensures_train_preprocess (image depth_gt : nat) :
  ensures (fun _ => True) (train_preprocess (G := G) f32_pow args image depth_gt).
Proof.
  unfold train_preprocess.
  repeat first [apply ensures_flip_both | apply ensures_augment_image
               | ensures_step].
Qed.

Lemma ensures_expand_dims (o : ndarray spec_float) :
  ensures (fun _ => True) (lift (G := G) (expand_dims2 o)).
Proof.
  destruct o as [a|shape flat]; [by apply ensures_ret|].
  destruct shape as [|h [|w [|c shape]]]; cbn [expand_dims2 lift length Nat.ltb Nat.leb].
  - by apply ensures_raise.
  - by apply ensures_raise.
  - by apply ensures_ret.
  - by apply ensures_ret.
Qed.

Lemma ensures_getitem_train (image depth_gt : pil_image) (focal : spec_float) :
  ensures (fun s => sample_depth s <> None)
    (getitem_train (G := G) f32_pow args image depth_gt focal).
Proof.
  unfold getitem_train.
  repeat first [apply ensures_random_crop | apply ensures_train_preprocess
               | apply ensures_expand_dims | ensures_step].
Qed.

Lemma ensures_getitem_test (image : pil_image) (focal : spec_float) :
  ensures (fun _ => True) (getitem_test (G := G) args image focal).
Proof.
  unfold getitem_test.
  repeat first [apply ensures_shape_at | ensures_step].
Qed.

Lemma ensures_to_tensor (pic : pyobj) :
  ensures (fun _ => True) (to_tensor (A := spec_float) (G := G) F32.of_Z pic).
Proof.
  unfold to_tensor, _is_numpy_image.
  destruct pic as [p|l|n []|ty]; cbn [refusal_exn]; repeat ensures_step.
Qed.

Lemma ensures_normalize (tensor : nat) :
  ensures (fun _ => True)
    (normalize (G := G) F32.sub F32.div (fun n d => f32_of_f64 (F64.lit n d)) tensor).
Proof. unfold normalize. repeat ensures_step. Qed.

Lemma ensures_transform (is_test : bool) (s : sample) :
  (is_test = false -> sample_depth s <> None) ->
  ensures (fun s' => sample_depth s' <> None <-> is_test = false)
    (preprocessing_transforms (G := G) is_test s).
Proof.
  intros Hs. unfold preprocessing_transforms, ToTensor_call.
  eapply (ensures_bind (fun _ => True)); [apply ensures_to_tensor|intros ? _].
  eapply (ensures_bind (fun _ => True)); [apply ensures_normalize|intros ? _].
  destruct is_test; cbn [negb]; cbn iota.
  - apply ensures_ret. simpl. split; [by intros Hn|done].
  - destruct (sample_depth s) as [d|]; [|by destruct Hs].
    eapply (ensures_bind (fun _ => True)); [by apply ensures_ret|intros ? _].
    eapply (ensures_bind (fun _ => True)); [apply ensures_to_tensor|intros ? _].
    by apply ensures_ret.
Qed.
End NoKeyError.

Section PipelineNoKeyError.
Variable tobytes : string -> list (list (list Z)) -> list Z.
Variable pil_rotate : spec_float -> resample -> pil_image -> pil_image.
Context {G : Type} `{RandomSource G}.
Variable f32_pow : spec_float -> spec_float -> spec_float.
Variable args : Args.
Variables (do_random_rotate : bool) (degree : spec_float).
Variables (distributed : bool) (batch_size num_threads : nat).
Implicit Types (st : state spec_float G).

Lemma ensures_getitem_train_pil (image depth_gt : pil_image) :
  ensures (fun _ => True)
    (getitem_train_pil (G := G) tobytes pil_rotate args do_random_rotate degree
       image depth_gt).
Proof.
  unfold getitem_train_pil.
  destruct (do_kb_crop args); destruct (String.eqb (dataset args) "nyu");
    cbv beta iota zeta; repeat ensures_step.
Qed.

Lemma ensures_getitem (is_test : bool) (image depth_gt : pil_image)
    (focal : spec_float) :
  is_test = negb (String.eqb (mode args) "train") ->
  ensures (fun s => sample_depth s <> None <-> is_test = false)
    (getitem (G := G) f32_pow args (Some (preprocessing_transforms is_test))
       image depth_gt focal).
Proof.
  intros ->. unfold getitem. destruct (String.eqb (mode args) "train"); cbn [negb].
  - eapply ensures_bind; [apply ensures_getitem_train|].
    intros s Hs. by apply ensures_transform.
  - eapply (ensures_bind (fun _ => True)); [apply ensures_getitem_test|].
    intros s _. by apply ensures_transform.
Qed.

(** X21. The loader [BtsDataLoader] sets up never raises [KeyError]:
    the transform looks for the depth entry exactly in the mode in
    which [__getitem__] makes one, whatever the files hold.  The sample
    returned has a depth entry in train mode and none otherwise. *)
Theorem BtsDataLoader_getitem_no_KeyError st (image depth_gt : pil_image)
    (focal : spec_float) :
  fst (BtsDataLoader_getitem tobytes pil_rotate f32_pow args
         do_random_rotate degree distributed batch_size num_threads
         image depth_gt focal st) <> Raise KeyError
  /\ (forall s,
        fst (BtsDataLoader_getitem tobytes pil_rotate f32_pow args
               do_random_rotate degree distributed batch_size num_threads
               image depth_gt focal st) = Ok s ->
        (sample_depth s <> None <-> String.eqb (mode args) "train" = true)).
Proof.
  assert (Hens : ensures
            (fun s => sample_depth s <> None <-> String.eqb (mode args) "train" = true)
            (BtsDataLoader_getitem (G := G) tobytes pil_rotate f32_pow args
               do_random_rotate degree distributed batch_size num_threads
               image depth_gt focal)).
  { unfold BtsDataLoader_getitem, BtsDataLoader, getitem_opened. cbv zeta.
    destruct (String.eqb (mode args) "train") eqn:Emode; cbn [dl_is_test].
    - eapply (ensures_bind (fun _ => True)); [apply ensures_getitem_train_pil|].
      intros [i d] _. eapply ensures_weaken.
      + apply ensures_getitem. by rewrite Emode.
      + intros s Hs. cbv beta in Hs. tauto.
    - eapply ensures_weaken.
      + apply ensures_getitem. by rewrite Emode.
      + intros s Hs. cbv beta in Hs. split; [|done].
        intros Hd. apply Hs in Hd. done. }
  specialize (Hens st).
  destruct (fst (BtsDataLoader_getitem _ _ _ _ _ _ _ _ _ _ _ _ st)) as [s|e].
  - split; [done|]. by intros s' [= <-].
  - split; [by intros [= ->]|done].
Qed.
End PipelineNoKeyError.

(** * Concrete runs

    A small deterministic generator, a stand-in for [powf] and a heap
    with a 1 by 2 RGB image and its depth map, on which the theorems
    above are instantiated. *)

Lemma SFleb_refl (x : spec_float) : x <> S754_nan -> SFleb x x = true.
Proof.
  intros Hx. unfold SFleb. destruct x as [s|s| |s m e]; try done.
  - by destruct s.
  - simpl. destruct s; rewrite Z.compare_refl, Pos.compare_cont_refl; done.
Qed.

Lemma SFleb_not_nan (x y : spec_float) :
  SFleb x y = true -> x <> S754_nan /\ y <> S754_nan.
Proof. unfold SFleb. by destruct x, y. Qed.

(** The generator: the state counts the draws; uniform draws alternate
    between the two bounds, integer draws walk through the range. *)
#[export] Instance counter_source : RandomSource nat := {|
  gen_random g := (if Nat.even g then F64.lit 1 4 else F64.lit 3 4, S g);
  gen_uniform a b g := (if Nat.even g then a else b, S g);
  gen_randint a b g := (a + Z.of_nat g mod (b - a + 1), S g);
  gen_np_uniform a b g := (if Nat.even g then a else b, S g)
|}.

Lemma counter_bounds (a b : spec_float) (g : nat) :
  F64.valid a = true -> F64.valid b = true -> SFleb a b = true ->
  F64.valid (if Nat.even g then a else b) = true
  /\ in_range a b (if Nat.even g then a else b) = true.
Proof.
  intros Ha Hb Hab. destruct (SFleb_not_nan _ _ Hab) as [Hna Hnb].
  unfold in_range. destruct (Nat.even g).
  - by rewrite SFleb_refl, Hab.
  - by rewrite Hab, SFleb_refl.
Qed.

#[export] Instance counter_source_laws : RandomSourceLaws nat.
Proof.
  split.
  - intros a b g Hab. simpl.
    pose proof (Z.mod_pos_bound (Z.of_nat g) (b - a + 1) ltac:(lia)). lia.
  - intros a b g. apply counter_bounds.
  - intros a b g. apply counter_bounds.
Defined.

(** A stand-in for [powf]: the power at exponent one. *)
Definition pow_one (x g : spec_float) : spec_float := x.

Lemma pow_one_nonneg (x g : spec_float) :
  SFleb F32.zero x = true -> g <> S754_nan -> pow_one x g <> S754_nan.
Proof. intros Hx _. unfold pow_one. by destruct x. Defined.

Definition f32_half : spec_float := Eval vm_compute in F32.div F32.one (F32.of_Z 2).

Definition demo_image : array3 spec_float :=
  {| shape0 := 1; shape1 := 2; shape2 := 3;
     data := [[[F32.zero; F32.one; f32_half]; [F32.one; f32_half; F32.zero]]] |}.

Definition demo_depth : array3 spec_float :=
  {| shape0 := 1; shape1 := 2; shape2 := 1;
     data := [[[F32.of_Z 1000]; [F32.of_Z 2000]]] |}.

Definition demo_state : state spec_float nat :=
  {| heap := <[1%nat := Nd3 demo_depth]> {[ 0%nat := Nd3 demo_image ]}; rng := 0%nat |}.

Definition demo_sample : sample :=
  {| sample_image := 0; sample_depth := Some 1%nat; sample_focal := F32.of_Z 518 |}.

Definition demo_args : Args :=
  {| mode := "train"; dataset := "nyu"; do_kb_crop := false;
     input_height := 1; input_width := 1 |}.

Lemma demo_image_wf : wf3 demo_image.
Proof. split; [reflexivity|]. repeat constructor. Defined.

Lemma demo_depth_wf : wf3 demo_depth.
Proof. split; [reflexivity|]. repeat constructor. Defined.

Lemma demo_image_unit : all3 (fun v => in_range F32.zero F32.one v = true) demo_image.
Proof. repeat constructor. Defined.

Definition demo_rgb : pil_image :=
  {| pil_mode := "RGB"; pil_width := 2; pil_height := 1;
     pil_px := [[[0; 255; 128]; [255; 128; 0]]];
     pil_bytes := [0; 255; 128; 255; 128; 0] |}.

Definition demo_depth_png : pil_image :=
  {| pil_mode := "I"; pil_width := 2; pil_height := 1;
     pil_px := [[[1000]; [2000]]];
     pil_bytes := [232; 3; 0; 0; 208; 7; 0; 0] |}.

(** An all-black RGB image of KITTI's size, 375 rows of 1242 pixels. *)
Definition demo_kitti : pil_image :=
  {| pil_mode := "RGB"; pil_width := 1242; pil_height := 375;
     pil_px := repeat (repeat [0; 0; 0] 1242) 375;
     pil_bytes := repeat 0 (375 * 1242 * 3) |}.

Definition demo_test_args : Args :=
  {| mode := "test"; dataset := "kitti"; do_kb_crop := true;
     input_height := 352; input_width := 704 |}.

Lemma Forall_repeat_intro {A : Type} (P : A -> Prop) (x : A) (n : nat) :
  P x -> Forall P (repeat x n).
Proof. intros Hx. induction n; simpl; by constructor. Defined.

Lemma demo_rgb_wf : wf_pil demo_rgb.
Proof. split; [reflexivity|]. repeat constructor. Defined.

Lemma demo_depth_png_wf : wf_pil demo_depth_png.
Proof. split; [reflexivity|]. repeat constructor. Defined.

Lemma demo_kitti_wf : wf_pil demo_kitti.
Proof.
  split; [apply repeat_length|].
  apply Forall_repeat_intro. split; [apply repeat_length|].
  by apply Forall_repeat_intro.
Defined.

Lemma random_crop_ok_witness :
  exists (img' depth' : nat) st',
    random_crop 0 1 1 1 demo_state = (Ok (img', depth'), st').
Proof.
  destruct (random_crop_ok demo_state 0 1 demo_image demo_depth 1 1)
    as (x & y & img' & depth' & st' & Hrun & _).
  - reflexivity.
  - reflexivity.
  - exact demo_image_wf.
  - exact demo_depth_wf.
  - reflexivity.
  - reflexivity.
  - simpl. lia.
  - simpl. lia.
  - exists img', depth', st'. exact Hrun.
Defined.

Lemma getitem_train_depth_scale_witness :
  depth_divisor demo_args = F32.of_Z 1000
  /\ (exists (s : sample) st' (d : nat) (out : array3 spec_float),
        getitem pow_one demo_args None demo_rgb demo_depth_png (F32.of_Z 518)
                demo_state = (Ok s, st')
        /\ sample_depth s = Some d
        /\ heap st' !! d = Some (Nd3 out)
        /\ shape3 out = (1%nat, 1%nat, 1%nat))
  /\ F32.div (F32.of_Z 1000) (depth_divisor demo_args) = F32.one.
Proof.
  destruct (getitem_train_depth_scale pow_one demo_args demo_state
              demo_rgb demo_depth_png (F32.of_Z 518))
    as (Hdiv & (s & st' & d & out & x & y & mirrored
                & Hrun & Hd & Hout & _ & Hshape & _) & Hnyu & _).
  - reflexivity.
  - exact demo_rgb_wf.
  - reflexivity.
  - exact demo_depth_png_wf.
  - reflexivity.
  - reflexivity.
  - reflexivity.
  - simpl. lia.
  - simpl. lia.
  - split; [exact Hdiv|]. split; [|exact (Hnyu eq_refl)].
    exists s, st', d, out.
    split; [exact Hrun|]. split; [exact Hd|]. split; [exact Hout|exact Hshape].
Defined.

Lemma getitem_test_shape_witness :
  exists (s : sample) st' (out : array3 spec_float),
    getitem pow_one demo_test_args None demo_kitti demo_depth_png (F32.of_Z 721)
            demo_state = (Ok s, st')
    /\ heap st' !! sample_image s = Some (Nd3 out)
    /\ shape3 out = (352%nat, 1216%nat, 3%nat).
Proof.
  destruct (getitem_test_shape pow_one demo_test_args demo_state
              demo_kitti demo_depth_png (F32.of_Z 721))
    as [(s & st' & out & Hrun & Hout & _ & Hshape & _) _].
  - exact demo_kitti_wf.
  - discriminate.
  - reflexivity.
  - intros _. simpl. lia.
  - exists s, st', out.
    split; [exact Hrun|]. split; [exact Hout|exact Hshape].
Defined.

(** An RGBA file of one row of two pixels, and a grayscale one. *)
Definition demo_rgba : pil_image :=
  {| pil_mode := "RGBA"; pil_width := 2; pil_height := 1;
     pil_px := [[[0; 255; 128; 255]; [255; 128; 0; 255]]];
     pil_bytes := [0; 255; 128; 255; 255; 128; 0; 255] |}.

Definition demo_gray : pil_image :=
  {| pil_mode := "L"; pil_width := 2; pil_height := 1;
     pil_px := [[[0]; [255]]];
     pil_bytes := [0; 255] |}.

Definition demo_plain_test_args : Args :=
  {| mode := "test"; dataset := "kitti"; do_kb_crop := false;
     input_height := 352; input_width := 704 |}.

(** C3, as stated, fails on files that are not RGB: in test mode an
    RGBA file gives a sample whose image array has four channels, and a
    grayscale file gives no sample, its crop raises [IndexError]. *)
Lemma getitem_test_claim_counterexample :
  (exists (s : sample) st' (out : array3 spec_float),
     getitem pow_one demo_plain_test_args None demo_rgba demo_rgba (F32.of_Z 721)
             demo_state = (Ok s, st')
     /\ heap st' !! sample_image s = Some (Nd3 out)
     /\ shape3 out = (1%nat, 2%nat, 4%nat))
  /\ fst (getitem pow_one demo_test_args None demo_gray demo_gray (F32.of_Z 721)
            demo_state) = Raise IndexError.
Proof.
  split.
  - destruct (getitem_test_run_bands demo_plain_test_args demo_state demo_rgba
                (F32.of_Z 721)) as (s & st' & Hrun & _ & _ & _ & Hout);
      [discriminate|].
    exists s, st', (test_image demo_plain_test_args demo_rgba).
    split; [|split; [exact Hout|reflexivity]].
    unfold getitem. rewrite run_bind.
    change (String.eqb (mode demo_plain_test_args) "train") with false.
    cbn iota. by rewrite Hrun, run_ret.
  - by vm_compute.
Qed.

Lemma augment_image_clipped_witness :
  exists (image_aug : nat) st' (out : array3 spec_float),
    augment_image pow_one demo_args 0 demo_state = (Ok image_aug, st')
    /\ heap st' !! image_aug = Some (Nd3 out)
    /\ all3 (fun v => in_range F32.zero F32.one v = true) out.
Proof.
  destruct (augment_image_clipped pow_one demo_args pow_one_nonneg
              demo_state 0 demo_image)
    as (l & st' & out & Hrun & Hout & _ & _ & Hall).
  - reflexivity.
  - exact demo_image_wf.
  - reflexivity.
  - exact demo_image_unit.
  - exists l, st', out.
    split; [exact Hrun|]. split; [exact Hout|exact Hall].
Defined.

Lemma flip_both_twice_witness :
  exists (image1 depth1 image2 depth2 : nat) st1 st2,
    flip_both 0 1 demo_state = (Ok (image1, depth1), st1)
    /\ flip_both image1 depth1 st1 = (Ok (image2, depth2), st2)
    /\ heap st2 !! image2 = Some (Nd3 demo_image)
    /\ heap st2 !! depth2 = Some (Nd3 demo_depth).
Proof.
  apply (flip_both_twice demo_state 0 1 demo_image demo_depth); reflexivity.
Defined.

Lemma train_preprocess_depth_witness :
  exists r st',
    train_preprocess pow_one demo_args 0 1 demo_state = (r, st')
    /\ heap st' !! 1%nat = Some (Nd3 demo_depth).
Proof.
  destruct (train_preprocess_depth pow_one demo_args demo_state 0 1
              demo_image demo_depth) as (r & st' & Hrun & Hkept & _).
  - reflexivity.
  - reflexivity.
  - exists r, st'. split; [exact Hrun|exact Hkept].
Defined.

Lemma ToTensor_depth_values_witness :
  exists (s' : sample) st' (dt : nat),
    preprocessing_transforms false demo_sample demo_state = (Ok s', st')
    /\ sample_depth s' = Some dt
    /\ heap st' !! dt = Some (Nd3 (transpose201 demo_depth)).
Proof.
  destruct (ToTensor_depth_values F32.sub F32.div
              (fun n d => f32_of_f64 (F64.lit n d)) F32.of_Z
              demo_state demo_sample demo_image 1 demo_depth)
    as (s' & st' & dt & Hrun & Hd & Hout & _).
  - reflexivity.
  - reflexivity.
  - reflexivity.
  - reflexivity.
  - exact demo_depth_wf.
  - reflexivity.
  - exists s', st', dt.
    split; [exact Hrun|]. split; [exact Hd|exact Hout].
Defined.


Lemma augment_image_keeps_argument_witness :
  heap (snd (augment_image pow_one demo_args 0 demo_state)) !! 0%nat
  = Some (Nd3 demo_image).
Proof.
  apply (augment_image_keeps_argument pow_one demo_args demo_state 0
           (Nd3 demo_image)
           (fst (augment_image pow_one demo_args 0 demo_state))
           (snd (augment_image pow_one demo_args 0 demo_state))).
  - reflexivity.
  - apply surjective_pairing.
Defined.

(** An image, a depth map and a sample of real values, and the
    rounding that changes nothing, for the round-off bound. *)
Definition demo_real_image : array3 R :=
  {| shape0 := 1; shape1 := 1; shape2 := 3; data := [[[0%R; 1%R; (1 / 2)%R]]] |}.

Definition demo_real_state : state R unit :=
  {| heap := <[1%nat := Nd3 {| shape0 := 1; shape1 := 1; shape2 := 1;
                               data := [[[2%R]]] |}]>
               {[ 0%nat := Nd3 demo_real_image ]};
     rng := tt |}.

Lemma demo_u_small : (0 <= / 16777216 <= 1 / 1000)%R.
Proof. lra. Defined.

Lemma demo_eta_small : (0 <= 0 <= 1 / 1000)%R.
Proof. lra. Defined.

Lemma exact_rnd_error (x : R) :
  (Rabs x <= 16 -> Rabs (x - x) <= / 16777216 * Rabs x + 0)%R.
Proof.
  intros _. rewrite Rminus_diag, Rabs_R0.
  pose proof (Rabs_pos x) as Hx.
  assert (H0 : (0 <= / 16777216 * Rabs x)%R) by (apply Rmult_le_pos; lra).
  lra.
Defined.

Lemma standardize_roundtrip_witness :
  exists (s' : sample) (st' : state R unit) (t : array3 R),
    ToTensor_call (r_sub (fun x => x)) (r_div (fun x => x)) (r_lit (fun x => x))
                  (r_int (fun x => x)) false demo_sample demo_real_state
    = (Ok s', st')
    /\ heap st' !! sample_image s' = Some (Nd3 t)
    /\ shape3 t = (3%nat, 1%nat, 1%nat).
Proof.
  destruct (standardize_roundtrip (fun x => x) (/ 16777216)%R 0%R
              demo_u_small demo_eta_small exact_rnd_error
              false demo_real_state demo_sample demo_real_image)
    as (s' & st' & t & Hrun & Ht & Hshape & _).
  - reflexivity.
  - split; [reflexivity|]. repeat constructor.
  - reflexivity.
  - repeat constructor; simpl; lra.
  - intros _. eexists 1%nat, _. split; reflexivity.
  - exists s', st', t.
    split; [exact Hrun|]. split; [exact Ht|exact Hshape].
Defined.

(** ** Runs of the sample list *)

Definition newline : string := String (Ascii.ascii_of_nat 10) EmptyString.

(** A stand-in for [float]: it knows one text. *)
Definition demo_float (s : string) : option spec_float :=
  if String.eqb s "518.8579" then Some (F64.lit 5188579 10000) else None.

(** A train list of two lines, the second one blank. *)
Definition demo_lines : list string :=
  ["/kitchen/rgb_00045.jpg /kitchen/sync_depth_00045.png 518.8579" +:+ newline;
   " " +:+ newline].

Lemma getitem_files_fields_witness :
  getitem_files demo_float demo_args "/data/nyu" "/data/gt" demo_lines 0
  = Ok {| file_focal := F64.lit 5188579 10000;
          file_image := "/data/nyu/.//kitchen/rgb_00045.jpg";
          file_depth := Some "/data/gt/.//kitchen/sync_depth_00045.png" |}.
Proof.
  apply (getitem_files_fields demo_float demo_args "/data/nyu" "/data/gt"
           demo_lines 0
           ["/kitchen/rgb_00045.jpg"; "/kitchen/sync_depth_00045.png"; "518.8579"]
           newline "/kitchen/rgb_00045.jpg" "/kitchen/sync_depth_00045.png"
           "518.8579" (F64.lit 5188579 10000)).
  - simpl. lia.
  - reflexivity.
  - repeat constructor; discriminate.
  - reflexivity.
  - reflexivity.
  - intros _. reflexivity.
  - reflexivity.
  - reflexivity.
Defined.

Lemma getitem_files_returns_witness :
  getitem_files demo_float demo_args "/data/nyu" "/data/gt" demo_lines 1
  = Raise IndexError.
Proof.
  apply (proj2 (proj2 (getitem_files_returns demo_float demo_args
                         "/data/nyu" "/data/gt" demo_lines 1))
           (" " +:+ newline)).
  - simpl. lia.
  - reflexivity.
  - reflexivity.
Defined.

Lemma getitem_files_under_root_witness :
  String.prefix "/data/nyu" "/data/nyu/.//kitchen/rgb_00045.jpg" = true.
Proof.
  apply (proj1 (getitem_files_under_root demo_float demo_args
                  "/data/nyu" "/data/gt" demo_lines 0
                  {| file_focal := F64.lit 5188579 10000;
                     file_image := "/data/nyu/.//kitchen/rgb_00045.jpg";
                     file_depth := Some "/data/gt/.//kitchen/sync_depth_00045.png" |}
                  eq_refl)).
Defined.

(** ** Runs of the crop, the augmentation and the adapter *)

Lemma random_crop_assertion_witness :
  fst (random_crop 0 1 2 1 demo_state) = Raise AssertionError.
Proof.
  apply (proj1 (random_crop_assertion demo_state 0 1 demo_image demo_depth 2 1
                  eq_refl eq_refl)).
  simpl. lia.
Defined.

Lemma random_crop_full_size_witness :
  exists (img' depth' : nat) st',
    random_crop 0 1 1 2 demo_state = (Ok (img', depth'), st')
    /\ heap st' !! img' = Some (Nd3 demo_image)
    /\ heap st' !! depth' = Some (Nd3 demo_depth).
Proof.
  exact (random_crop_full_size demo_state 0 1 demo_image demo_depth
           eq_refl eq_refl demo_image_wf demo_depth_wf eq_refl eq_refl).
Defined.

Lemma augment_image_channels_witness :
  fst (augment_image pow_one demo_args 1 demo_state) = Raise ValueError.
Proof.
  apply (proj2 (augment_image_channels pow_one demo_args demo_state 1 demo_depth
                  eq_refl demo_depth_wf)).
  simpl. lia.
Defined.

(** A heap with the image and its mirror. *)
Definition demo_mirror_state : state spec_float nat :=
  {| heap := <[1%nat := Nd3 (fliplr demo_image)]> {[ 0%nat := Nd3 demo_image ]};
     rng := 0%nat |}.

Lemma augment_image_mirror_witness :
  exists (l1 l2 : nat) st1 st2 (out : array3 spec_float),
    augment_image pow_one demo_args 0 demo_mirror_state = (Ok l1, st1)
    /\ augment_image pow_one demo_args 1 demo_mirror_state = (Ok l2, st2)
    /\ heap st1 !! l1 = Some (Nd3 out)
    /\ heap st2 !! l2 = Some (Nd3 (fliplr out)).
Proof.
  exact (augment_image_mirror pow_one demo_args demo_mirror_state 0 1 demo_image
           eq_refl eq_refl demo_image_wf eq_refl).
Defined.

Lemma train_preprocess_aligned_witness :
  exists (image' depth' : nat) st',
    train_preprocess pow_one demo_args 0 1 demo_state = (Ok (image', depth'), st').
Proof.
  destruct (train_preprocess_aligned pow_one demo_args demo_state 0 1
              demo_image demo_depth eq_refl eq_refl demo_image_wf eq_refl)
    as (image' & depth' & st' & _ & _ & _ & Hrun & _).
  exists image', depth', st'. exact Hrun.
Defined.

Lemma to_tensor_pil_bytes_witness :
  exists (t : nat) st' (out : array3 spec_float),
    to_tensor F32.of_Z (ObjPil demo_rgb) demo_state = (Ok t, st')
    /\ heap st' !! t = Some (Nd3 out)
    /\ shape3 out = (3%nat, 1%nat, 2%nat).
Proof.
  destruct (to_tensor_pil_bytes F32.of_Z demo_state demo_rgb)
    as (t & st' & out & Hrun & Hout & _ & _ & Hshape & _).
  - exact demo_rgb_wf.
  - right. right. left. reflexivity.
  - reflexivity.
  - exists t, st', out. split; [exact Hrun|]. split; [exact Hout|exact Hshape].
Defined.

(** An image of one pixel of mode F. *)
Definition demo_float_image : pil_image :=
  {| pil_mode := "F"; pil_width := 1; pil_height := 1;
     pil_px := [[[0]]]; pil_bytes := [0; 0; 128; 63] |}.

Lemma to_tensor_pil_mode_F_witness :
  to_tensor F32.of_Z (ObjPil demo_float_image) demo_state
  = (Raise RuntimeError, demo_state).
Proof.
  apply (to_tensor_pil_mode_F F32.of_Z demo_state demo_float_image).
  - reflexivity.
  - reflexivity.
  - simpl. lia.
  - simpl. lia.
Defined.

(** The sample without its depth entry, and a sample whose image is
    the single-channel depth array. *)
Definition demo_sample_no_depth : sample :=
  {| sample_image := 0; sample_depth := None; sample_focal := F32.of_Z 518 |}.

Definition demo_sample_one_channel : sample :=
  {| sample_image := 1; sample_depth := None; sample_focal := F32.of_Z 518 |}.

Lemma ToTensor_call_depth_entry_witness :
  fst (preprocessing_transforms false demo_sample_no_depth demo_state)
  = Raise KeyError.
Proof.
  exact (proj1 (ToTensor_call_depth_entry F32.sub F32.div
                  (fun n d => f32_of_f64 (F64.lit n d)) F32.of_Z
                  demo_state demo_sample_no_depth demo_image eq_refl eq_refl)
           eq_refl).
Defined.

Lemma ToTensor_call_channels_witness :
  fst (preprocessing_transforms true demo_sample_one_channel demo_state)
  = Raise RuntimeError.
Proof.
  apply (ToTensor_call_channels F32.sub F32.div
           (fun n d => f32_of_f64 (F64.lit n d)) F32.of_Z
           true demo_state demo_sample_one_channel demo_depth eq_refl).
  simpl. lia.
Defined.

Lemma preprocessing_transforms_image_witness :
  exists (s' : sample) st' (t : array3 spec_float),
    preprocessing_transforms false demo_sample demo_state = (Ok s', st')
    /\ heap st' !! sample_image s' = Some (Nd3 t)
    /\ shape3 t = (3%nat, 1%nat, 2%nat).
Proof.
  destruct (preprocessing_transforms_image false demo_state demo_sample demo_image)
    as (s' & st' & t & Hrun & Ht & _ & _ & Hshape & _).
  - reflexivity.
  - exact demo_image_wf.
  - reflexivity.
  - intros _. exists 1%nat, demo_depth. split; reflexivity.
  - exists s', st', t. split; [exact Hrun|]. split; [exact Ht|exact Hshape].
Defined.

(** ** Runs of the whole of [__getitem__] *)

(** Stand-ins for the raw encoder and for the rotation. *)
Definition demo_tobytes (mode : string) (px : list (list (list Z))) : list Z :=
  concat (concat px).

Definition demo_rotate (angle : spec_float) (flag : resample) (p : pil_image)
  : pil_image := p.

Lemma demo_rotate_keeps (angle : spec_float) (flag : resample) (p : pil_image) :
  wf_pil p ->
  wf_pil (demo_rotate angle flag p)
  /\ pil_size (demo_rotate angle flag p) = pil_size p
  /\ pil_mode (demo_rotate angle flag p) = pil_mode p.
Proof. intros Hwf. split; [exact Hwf|]. split; reflexivity. Defined.

Lemma getitem_opened_accepts_witness :
  exists (s : sample) st',
    getitem_opened demo_tobytes demo_rotate pow_one demo_args true (F64.of_Z 2)
      None demo_rgb demo_depth_png (F32.of_Z 518) demo_state = (Ok s, st').
Proof.
  apply (proj1 (getitem_opened_accepts demo_tobytes demo_rotate pow_one demo_args
                  true (F64.of_Z 2) demo_rotate_keeps demo_state
                  demo_rgb demo_depth_png (F32.of_Z 518)
                  eq_refl demo_rgb_wf eq_refl demo_depth_png_wf eq_refl
                  (fun _ _ => eq_refl))).
  split; cbv; lia.
Defined.

Lemma getitem_opened_train_shapes_witness :
  exists (s : sample) st' (d : nat) (ti td : array3 spec_float),
    getitem_opened demo_tobytes demo_rotate pow_one demo_args true (F64.of_Z 2)
      (Some (preprocessing_transforms false)) demo_rgb demo_depth_png
      (F32.of_Z 518) demo_state = (Ok s, st')
    /\ sample_focal s = F32.of_Z 518
    /\ sample_depth s = Some d
    /\ heap st' !! sample_image s = Some (Nd3 ti)
    /\ heap st' !! d = Some (Nd3 td)
    /\ shape3 ti = (3%nat, 1%nat, 1%nat)
    /\ shape3 td = (1%nat, 1%nat, 1%nat).
Proof.
  apply (getitem_opened_train_shapes demo_tobytes demo_rotate pow_one demo_args
           true (F64.of_Z 2) demo_rotate_keeps demo_state
           demo_rgb demo_depth_png (F32.of_Z 518)
           eq_refl demo_rgb_wf eq_refl demo_depth_png_wf eq_refl
           (fun _ _ => eq_refl)).
  - cbv. lia.
  - cbv. lia.
Defined.

Lemma getitem_train_aligned_witness :
  exists (s : sample) st',
    getitem pow_one demo_args None demo_rgb demo_depth_png (F32.of_Z 518)
      demo_state = (Ok s, st').
Proof.
  destruct (getitem_train_aligned pow_one demo_args demo_state
              demo_rgb demo_depth_png (F32.of_Z 518)
              eq_refl demo_rgb_wf eq_refl demo_depth_png_wf eq_refl eq_refl)
    as (s & st' & _ & _ & _ & _ & _ & _ & Hrun & _).
  - simpl. lia.
  - simpl. lia.
  - exists s, st'. exact Hrun.
Defined.

Lemma getitem_train_image_unit_witness :
  exists (s : sample) st' (out : array3 spec_float),
    getitem pow_one demo_args None demo_rgb demo_depth_png (F32.of_Z 518)
      demo_state = (Ok s, st')
    /\ heap st' !! sample_image s = Some (Nd3 out)
    /\ all3 (fun v => in_range F32.zero F32.one v = true) out.
Proof.
  apply (getitem_train_image_unit pow_one demo_args pow_one_nonneg demo_state
           demo_rgb demo_depth_png (F32.of_Z 518) eq_refl eq_refl eq_refl eq_refl).
  - simpl. lia.
  - simpl. lia.
  - repeat constructor; lia.
Defined.

Lemma getitem_test_any_size_witness :
  exists (s : sample) st' (out : array3 spec_float),
    getitem pow_one demo_test_args None demo_rgb demo_depth_png (F32.of_Z 721)
      demo_state = (Ok s, st')
    /\ heap st' !! sample_image s = Some (Nd3 out)
    /\ wf3 out
    /\ shape3 out = (1%nat, 2%nat, 3%nat).
Proof.
  exact (getitem_test_any_size pow_one demo_test_args demo_state
           demo_rgb demo_depth_png (F32.of_Z 721)
           demo_rgb_wf eq_refl eq_refl eq_refl).
Defined.

Lemma getitem_test_crop_is_pil_crop_witness :
  exists (s : sample) st',
    getitem pow_one demo_test_args None demo_kitti demo_depth_png (F32.of_Z 721)
      demo_state = (Ok s, st').
Proof.
  destruct (getitem_test_crop_is_pil_crop demo_tobytes pow_one demo_test_args
              demo_state demo_kitti demo_depth_png (F32.of_Z 721)
              demo_kitti_wf eq_refl eq_refl eq_refl)
    as (s & st' & Hrun & _).
  - simpl. lia.
  - simpl. lia.
  - exists s, st'. exact Hrun.
Defined.

Lemma getitem_single_band_witness :
  fst (getitem pow_one demo_test_args None demo_depth_png demo_depth_png
         (F32.of_Z 721) demo_state) = Raise IndexError.
Proof.
  exact (proj1 (proj2 (getitem_single_band pow_one demo_test_args demo_state
                         demo_depth_png demo_depth_png (F32.of_Z 721) eq_refl))
           eq_refl eq_refl).
Defined.
